(** * Inflation pipeline: a shallow embedding of [src/data_processor.py],
      [src/data_fetcher.py] and [pipelines/inflation_pipeline.py]

    The development follows the Python code function by function.

    - A pandas [DataFrame] is an ordered list of named columns.  A column is
      a [float64] series (missing value: NaN), a [datetime64[ns]] series
      (an [int64] count of nanoseconds since the epoch; missing value: NaT)
      or an [object] series of optional strings.
    - Floating-point values are Rocq's primitive binary64 floats, so the
      arithmetic of [calculate_inflation_rates] is the IEEE arithmetic numpy
      performs, including division by zero.
    - A Python [str] is the string of its UTF-8 bytes.
    - What Python and pandas themselves contribute (the Unicode rules of
      [str.lower] and [str.strip], date and number parsing, the sorting
      algorithm behind [sort_values]) is gathered in the class [Pandas];
      the code is modelled over any instance, and [reference_pandas] is an
      instance to evaluate ASCII text with.
    - Exceptions are an [outcome]; objects that are mutated in place live in
      a store of the [world], next to the files that have been written. *)

From Stdlib Require Import ZArith Floats Uint63 Lia Ascii String.
From Stdlib Require Import Sorting.Sorted Sorting.Permutation.
From stdpp Require Import base option list strings gmap sorting.

Local Open Scope string_scope.
Local Open Scope list_scope.

(** ** Strings

    [str.lower] and [str.strip] follow Unicode: [lower] maps every cased
    character, [strip] removes every white-space character, those outside
    ASCII included (U+00A0, U+2028, ...).  The code is modelled with these
    two methods as operations of the class [Pandas] below ([str_lower],
    [str_strip]).  This module holds what they do on ASCII text, which the
    class takes as laws, and the substring test. *)

Module Str.

(** Every character is an ASCII character. *)
Definition is_ascii (s : string) : bool :=
  forallb (λ c, N_of_ascii c <? 128)%N (list_ascii_of_string s).

Definition lower_ascii (c : ascii) : ascii :=
  let n := N_of_ascii c in
  if ((65 <=? n) && (n <=? 90))%N then ascii_of_N (n + 32) else c.

(** [s.lower()], for an ASCII [s] *)
Fixpoint lower (s : string) : string :=
  match s with
  | EmptyString => EmptyString
  | String c r => String (lower_ascii c) (lower r)
  end.

(** The ASCII characters [str.strip()] removes: space, tab, newline,
    vertical tab, form feed, carriage return and the four separators 28 to
    31. *)
Definition is_space (c : ascii) : bool :=
  let n := N_of_ascii c in
  ((n =? 32) || ((9 <=? n) && (n <=? 13)) || ((28 <=? n) && (n <=? 31)))%N.

Fixpoint lstrip (s : string) : string :=
  match s with
  | EmptyString => EmptyString
  | String c r => if is_space c then lstrip r else s
  end.

Fixpoint rstrip (s : string) : string :=
  match s with
  | EmptyString => EmptyString
  | String c r =>
      match rstrip r with
      | EmptyString => if is_space c then EmptyString else String c EmptyString
      | r' => String c r'
      end
  end.

(** [s.strip()], for an ASCII [s] *)
Definition strip (s : string) : string := rstrip (lstrip s).

Fixpoint startswith (p s : string) : bool :=
  match p, s with
  | EmptyString, _ => true
  | String a p', String b s' => if Ascii.eqb a b then startswith p' s' else false
  | String _ _, EmptyString => false
  end.

(** [p in s]: for an ASCII [p], a substring of the bytes is a substring of
    the text. *)
Fixpoint contains (p s : string) : bool :=
  startswith p s ||
  match s with
  | EmptyString => false
  | String _ s' => contains p s'
  end.

End Str.

(** ** Exceptions *)

Inductive exn :=
| ValueError (msg : string)
| KeyError (key : string)
| AttributeError (msg : string)
| TypeError (msg : string)
| NameError (msg : string)
(* any other exception, by the name of its class *)
| OtherException (class : string).

Inductive outcome (A : Type) :=
| Returned (a : A)
| Raised (e : exn).
Arguments Returned {A} a.
Arguments Raised {A} e.

#[global] Instance outcome_ret : MRet outcome := λ A a, Returned a.
#[global] Instance outcome_bind : MBind outcome := λ A B k x,
  match x with
  | Returned a => k a
  | Raised e => Raised e
  end.

#[global] Instance outcome_fmap : FMap outcome := λ A B f x,
  match x with
  | Returned a => Returned (f a)
  | Raised e => Raised e
  end.

(** ** Series and frames *)

(** NaN is the only missing value of a float64 series; infinities are
    ordinary values ([pd.isna(inf)] is [False]). *)
Definition isna (x : float) : bool := PrimFloat.is_nan x.
Definition notna (x : float) : bool := negb (isna x).

Inductive column :=
| DatetimeCol (xs : list (option Z))
| FloatCol (xs : list float)
| ObjectCol (xs : list (option string)).

Definition col_len (c : column) : nat :=
  match c with
  | DatetimeCol xs => length xs
  | FloatCol xs => length xs
  | ObjectCol xs => length xs
  end.

(** A frame: its columns in order.  The row index is not modelled: every
    frame the code combines columns of is built from columns of one frame,
    so index alignment is positional, and [reset_index(drop=True)] only
    renumbers. *)
Abbreviation DataFrame := (list (string * column)).

Definition names (df : DataFrame) : list string := df.*1.

(** [len(df)] *)
Definition nrows (df : DataFrame) : nat :=
  match df with
  | [] => 0%nat
  | (_, c) :: _ => col_len c
  end.

(** [df.empty]: no column or no row. *)
Definition empty (df : DataFrame) : bool :=
  match df with
  | [] => true
  | _ => Nat.eqb (nrows df) 0
  end.

(** [name in df.columns] *)
Definition has_column (name : string) (df : DataFrame) : bool :=
  bool_decide (name ∈ names df).

(** [df[name]] where a Series is expected.  A label that is absent raises
    [KeyError]; a label carried by several columns selects a DataFrame, on
    which every Series operation the code applies next ([.str], [.dt],
    [.shift], [to_datetime], [to_numeric]) raises. *)
Definition getitem (df : DataFrame) (name : string) : outcome column :=
  match filter (λ nc, nc.1 = name) df with
  | [] => Raised (KeyError name)
  | [(_, c)] => Returned c
  | _ => Raised (AttributeError name)
  end.

(** [df[name] = c] on a frame whose labels are distinct: replaces the column
    in place when the label exists, appends it otherwise. *)
Fixpoint setitem (df : DataFrame) (name : string) (c : column) : DataFrame :=
  match df with
  | [] => [(name, c)]
  | (n, c') :: rest =>
      if decide (n = name) then (n, c) :: rest else (n, c') :: setitem rest name c
  end.

(** [df.drop(columns=labels)]; a label that is absent raises [KeyError]. *)
Definition drop_columns (df : DataFrame) (labels : list string) : outcome DataFrame :=
  match filter (λ l, l ∉ names df) labels with
  | [] => Returned (filter (λ nc, nc.1 ∉ labels) df)
  | l :: _ => Raised (KeyError l)
  end.

(** Boolean indexing, [xs[mask]]. *)
Fixpoint select {A} (mask : list bool) (xs : list A) : list A :=
  match mask, xs with
  | b :: mask', x :: xs' => if b then x :: select mask' xs' else select mask' xs'
  | _, _ => []
  end.

(** Positional indexing, [xs.take(idx)]. *)
Definition take_idx {A} (idx : list nat) (xs : list A) : list A :=
  omap (λ i, xs !! i) idx.

Definition col_select (mask : list bool) (c : column) : column :=
  match c with
  | DatetimeCol xs => DatetimeCol (select mask xs)
  | FloatCol xs => FloatCol (select mask xs)
  | ObjectCol xs => ObjectCol (select mask xs)
  end.

Definition col_take (idx : list nat) (c : column) : column :=
  match c with
  | DatetimeCol xs => DatetimeCol (take_idx idx xs)
  | FloatCol xs => FloatCol (take_idx idx xs)
  | ObjectCol xs => ObjectCol (take_idx idx xs)
  end.

(** [df[mask]] *)
Definition select_rows (mask : list bool) (df : DataFrame) : DataFrame :=
  prod_map id (col_select mask) <$> df.

(** [df.take(idx)] *)
Definition take_rows (idx : list nat) (df : DataFrame) : DataFrame :=
  prod_map id (col_take idx) <$> df.

(** [df.columns = f(df.columns)] *)
Definition rename (f : string → string) (df : DataFrame) : DataFrame :=
  prod_map f id <$> df.

(** The [.str] accessor exists on object series only. *)
Definition str_map (f : string → string) (c : column) : outcome (list (option string)) :=
  match c with
  | ObjectCol xs => Returned (option_map f <$> xs)
  | _ => Raised (AttributeError "Can only use .str accessor with string values")
  end.

(** [series == label]: a missing entry compares unequal. *)
Definition eq_label (label : string) (xs : list (option string)) : list bool :=
  (λ x, bool_decide (x = Some label)) <$> xs.

(** [series.shift(n)]: the first [n] entries are missing, the others are the
    entries [n] positions earlier. *)
Definition shift_list {A} (fill : A) (n : nat) (xs : list A) : list A :=
  take (length xs) (replicate n fill ++ xs).

Definition shift (n : nat) (c : column) : column :=
  match c with
  | DatetimeCol xs => DatetimeCol (shift_list None n xs)
  | FloatCol xs => FloatCol (shift_list nan n xs)
  | ObjectCol xs => ObjectCol (shift_list None n xs)
  end.

(** Arithmetic between two series and with a scalar.  float64 series are
    combined entry by entry; the other series the pipeline can hold are
    object series of strings and [None], on which Python's arithmetic
    raises [TypeError]. *)
Definition series_op (op : float → float → float) (a b : column) : outcome column :=
  match a, b with
  | FloatCol xs, FloatCol ys => Returned (FloatCol (zip_with op xs ys))
  | _, _ => Raised (TypeError "unsupported operand type(s)")
  end.

Definition series_mul_scalar (a : column) (k : float) : outcome column :=
  match a with
  | FloatCol xs => Returned (FloatCol ((λ x, PrimFloat.mul x k) <$> xs))
  | _ => Raised (TypeError "unsupported operand type(s)")
  end.

(** [series.isna()] *)
Definition col_isna (c : column) : list bool :=
  match c with
  | DatetimeCol xs => (λ x, bool_decide (x = None)) <$> xs
  | FloatCol xs => isna <$> xs
  | ObjectCol xs => (λ x, bool_decide (x = None)) <$> xs
  end.

(** [df.dropna(subset=labels)]: a row is kept when none of the listed
    columns is missing there. *)
Fixpoint dropna_mask (n : nat) (cols : list column) : list bool :=
  match cols with
  | [] => replicate n true
  | c :: rest => zip_with andb (negb <$> col_isna c) (dropna_mask n rest)
  end.

Definition dropna (subset : list string) (df : DataFrame) : outcome DataFrame :=
  cols ← mapM (getitem df) subset;
  Returned (select_rows (dropna_mask (nrows df) cols) df).

(** [series.duplicated(keep='first')]: an entry is a duplicate when an equal
    entry comes before it.  Missing entries are equal to each other, and
    floats compare as in pandas' hash table ([a == b], or both NaN). *)
Definition float_same (a b : float) : bool :=
  PrimFloat.eqb a b || (PrimFloat.is_nan a && PrimFloat.is_nan b).

Fixpoint duplicated_by {A} (same : A → A → bool) (seen : list A) (xs : list A) : list bool :=
  match xs with
  | [] => []
  | x :: rest => existsb (same x) seen :: duplicated_by same (seen ++ [x]) rest
  end.

Definition duplicated (c : column) : list bool :=
  match c with
  | DatetimeCol xs => duplicated_by (λ a b, bool_decide (a = b)) [] xs
  | FloatCol xs => duplicated_by float_same [] xs
  | ObjectCol xs => duplicated_by (λ a b, bool_decide (a = b)) [] xs
  end.

(** [df.drop_duplicates(subset=[label], keep='first')] *)
Definition drop_duplicates (label : string) (df : DataFrame) : outcome DataFrame :=
  c ← getitem df label;
  Returned (select_rows (negb <$> duplicated c) df).

(** ** What pandas provides *)

(** Ascending order of [datetime64] keys with [na_position='last']. *)
Definition key_le (a b : option Z) : Prop :=
  match a, b with
  | Some x, Some y => (x ≤ y)%Z
  | _, None => True
  | None, Some _ => False
  end.

Class Pandas := {
  (** [s.lower()] and [s.strip()] of a [str], which [series.str.lower()],
      [series.str.strip()] and their [Index] forms apply to each string. *)
  str_lower : string → string;
  str_strip : string → string;
  (** [pd.read_csv(StringIO(text))] *)
  read_csv : string → outcome DataFrame;
  (** [pd.to_datetime(series, errors='coerce')]: what does not parse is NaT. *)
  to_datetime_coerce : column → list (option Z);
  (** [pd.to_datetime(series)]: what does not parse raises. *)
  to_datetime_raise : column → outcome (list (option Z));
  (** [pd.to_numeric(series, errors='coerce')]: what does not parse is NaN. *)
  to_numeric_coerce : column → list float;
  (** The indexer [sort_values] computes for a key column (numpy's argsort
      of the present keys, the missing ones last).  The default sorting
      kind is quicksort: nothing is promised on the order of equal keys. *)
  nargsort : column → list nat;
  (** A frame that has been read is rectangular. *)
  read_csv_rectangular text df :
    read_csv text = Returned df → ∀ nc, nc ∈ df → col_len nc.2 = nrows df;
  to_datetime_coerce_length c : length (to_datetime_coerce c) = col_len c;
  to_datetime_raise_length c ds :
    to_datetime_raise c = Returned ds → length ds = col_len c;
  to_numeric_coerce_length c : length (to_numeric_coerce c) = col_len c;
  nargsort_Permutation c : nargsort c ≡ₚ seq 0 (col_len c);
  nargsort_Sorted ks : Sorted key_le (take_idx (nargsort (DatetimeCol ks)) ks);
  (** On ASCII text, the ASCII rules. *)
  str_lower_ascii s : Str.is_ascii s = true → str_lower s = Str.lower s;
  str_strip_ascii s : Str.is_ascii s = true → str_strip s = Str.strip s;
}.

Section Processor.
Context `{Pandas}.

(** [df.sort_values(label)] *)
Definition sort_values (label : string) (df : DataFrame) : outcome DataFrame :=
  c ← getitem df label;
  Returned (take_rows (nargsort c) df).

(** The last three steps of [_process_statcan_inflation] (lines 108 to 115),
    named so that they can be stated on their own. *)
Definition temporal_integrity_stage (result_df : DataFrame) : outcome DataFrame :=
  (* Remove rows with missing dates or values *)
  result_df ← dropna ["date"; "cpi_value"] result_df;
  (* Sort by date *)
  result_df ← sort_values "date" result_df;
  (* Remove duplicates (keep first occurrence for each date) *)
  drop_duplicates "date" result_df.

(** *** [DataProcessor._process_statcan_inflation] *)
Definition _process_statcan_inflation (raw_data : string) : outcome DataFrame :=
  df ← read_csv raw_data;
  (* Standardize column names (lowercase) *)
  let df := rename (λ n, str_lower (str_strip n)) df in
  (* Filter for Canada *)
  if negb (has_column "geo" df) then Raised (ValueError "GEO column not found in data") else
  geo ← getitem df "geo" ≫= str_map str_lower;
  let df := select_rows (eq_label "canada" geo) df in
  (* Filter for "All-items" product group (exact match, not variants) *)
  let product_col := find (λ col, Str.contains "product" (str_lower col)) (names df) in
  df ← match product_col with
       | Some col =>
           cat ← getitem df col ≫= str_map str_strip;
           Returned (select_rows (eq_label "All-items" cat) df)
       | None => Returned df
       end;
  (* Get date column *)
  if negb (has_column "ref_date" df) then Raised (ValueError "REF_DATE column not found in data") else
  ref_date ← getitem df "ref_date";
  let df := setitem df "date" (DatetimeCol (to_datetime_coerce ref_date)) in
  (* Get value column *)
  if negb (has_column "value" df) then Raised (ValueError "VALUE column not found in data") else
  date ← getitem df "date";
  value ← getitem df "value";
  let result_df := [("date", date); ("cpi_value", FloatCol (to_numeric_coerce value))] in
  temporal_integrity_stage result_df.

(** The payload of a source: the text of a CSV export, or a decoded JSON
    object whose [observations] are objects with string fields. *)
Inductive payload :=
| Text (s : string)
| Json (d : gmap string (list (gmap string string))).

(** [pd.DataFrame(data)] for a list of [{'date': _, 'cpi_value': _}]: no
    record, no column. *)
Definition DataFrame_of_records (data : list (option string * option string)) : DataFrame :=
  match data with
  | [] => []
  | _ => [("date", ObjectCol data.*1); ("cpi_value", ObjectCol data.*2)]
  end.

(** *** [DataProcessor._process_boc_inflation] *)
Definition _process_boc_inflation (raw_data : gmap string (list (gmap string string)))
  : outcome DataFrame :=
  let observations := default [] (raw_data !! "observations") in
  let data := (λ obs : gmap string string, (obs !! "d", obs !! "v")) <$> observations in
  let df := DataFrame_of_records data in
  date ← getitem df "date" ≫= to_datetime_raise;
  let df := setitem df "date" (DatetimeCol date) in
  Returned df.

(** *** [DataProcessor._process_fred_inflation] *)
Definition _process_fred_inflation (raw_data : gmap string (list (gmap string string)))
  : outcome DataFrame :=
  let observations := default [] (raw_data !! "observations") in
  let data := (λ obs : gmap string string, (obs !! "date", obs !! "value")) <$> observations in
  let df := DataFrame_of_records data in
  date ← getitem df "date" ≫= to_datetime_raise;
  let df := setitem df "date" (DatetimeCol date) in
  (* FRED uses '.' for missing values *)
  cpi_value ← getitem df "cpi_value";
  let df := setitem df "cpi_value" (FloatCol (to_numeric_coerce cpi_value)) in
  Returned df.

(** *** [DataProcessor.process_inflation_data] *)
Definition process_inflation_data (raw_data : payload) (source : string) : outcome DataFrame :=
  if decide (source = "statcan") then
    match raw_data with
    | Text s => _process_statcan_inflation s
    | Json _ => Raised (TypeError "initial_value must be str or None, not dict")
    end
  else if decide (source = "bank_of_canada") then
    match raw_data with
    | Json d => _process_boc_inflation d
    | Text _ => Raised (AttributeError "'str' object has no attribute 'get'")
    end
  else if decide (source = "fred") then
    match raw_data with
    | Json d => _process_fred_inflation d
    | Text _ => Raised (AttributeError "'str' object has no attribute 'get'")
    end
  else Raised (ValueError ("Unknown data source: " +:+ source)).

End Processor.

(** ** Calendar fields of a timestamp *)

(** Civil date of a day count since 1970-01-01 (proleptic Gregorian). *)
Definition civil_from_days (z : Z) : Z * Z * Z :=
  (let z := z + 719468 in
  let era := z `div` 146097 in
  let doe := z - era * 146097 in
  let yoe := (doe - doe `div` 1460 + doe `div` 36524 - doe `div` 146096) `div` 365 in
  let doy := doe - (365 * yoe + yoe `div` 4 - yoe `div` 100) in
  let mp := (5 * doy + 2) `div` 153 in
  let d := doy - (153 * mp + 2) `div` 5 + 1 in
  let m := if mp <? 10 then mp + 3 else mp - 9 in
  (if m <=? 2 then yoe + era * 400 + 1 else yoe + era * 400, m, d))%Z.

Definition ns_per_day : Z := (86400 * 1000000000)%Z.

(** [Timestamp.year], [Timestamp.month] *)
Definition year_of (t : Z) : Z := (civil_from_days (t `div` ns_per_day)%Z).1.1.
Definition month_of (t : Z) : Z := (civil_from_days (t `div` ns_per_day)%Z).1.2.

Definition float_of_Z (z : Z) : float :=
  if (z <? 0)%Z then PrimFloat.opp (PrimFloat.of_uint63 (Uint63.of_Z (- z)))
  else PrimFloat.of_uint63 (Uint63.of_Z z).

(** [series.dt.year], [series.dt.month]: on a datetime series only; NaT
    gives NaN (the result is then float64; without NaT pandas gives the
    same numbers as int32). *)
Definition dt_field (field : Z → Z) (c : column) : outcome column :=
  match c with
  | DatetimeCol xs =>
      Returned (FloatCol ((λ x, from_option (λ t, float_of_Z (field t)) nan x) <$> xs))
  | _ => Raised (AttributeError "Can only use .dt accessor with datetimelike values")
  end.

(** ** Objects and files *)

(** The frames that exist, each at its position in [objects] (a frame
    assigned to by [df[label] = ...] changes where it is, for every holder
    of a reference to it), and the files written so far, oldest first. *)
Record world := World {
  objects : list DataFrame;
  files : list (string * DataFrame);
}.

Definition M (A : Type) : Type := world → outcome A * world.

Definition ret {A} (a : A) : M A := λ w, (Returned a, w).
Definition raise {A} (e : exn) : M A := λ w, (Raised e, w).
Definition bind {A B} (m : M A) (k : A → M B) : M B := λ w,
  match m w with
  | (Returned a, w') => k a w'
  | (Raised e, w') => (Raised e, w')
  end.
Definition lift {A} (x : outcome A) : M A := λ w, (x, w).

Notation "x ⇐ m ;; k" := (bind m (λ x, k))
  (at level 100, m at next level, k at level 200, right associativity,
   format "'[v' x  ⇐  m  ;;  '/' k ']'").
Notation "m ;;; k" := (bind m (λ _, k))
  (at level 100, k at level 200, right associativity,
   format "'[v' m  ;;;  '/' k ']'").

(** A reference to an object of the store. *)
Abbreviation ref := nat.

Definition new (df : DataFrame) : M ref := λ w,
  (Returned (length (objects w)),
   {| objects := objects w ++ [df]; files := files w |}).

Definition read (r : ref) : M DataFrame := λ w,
  match objects w !! r with
  | Some df => (Returned df, w)
  | None => (Raised (TypeError "not a DataFrame"), w)
  end.

Definition update (r : ref) (df : DataFrame) : M unit := λ w,
  (Returned (), {| objects := <[r := df]> (objects w); files := files w |}).

Definition write_file (path : string) (df : DataFrame) : M unit := λ w,
  (Returned (), {| objects := objects w; files := files w ++ [(path, df)] |}).

(** [df.copy()], [df.reset_index(drop=True)]: a new object, the same columns. *)
Definition copy (df : ref) : M ref := f ⇐ read df ;; new f.
Definition reset_index (df : ref) : M ref := f ⇐ read df ;; new f.

Section Pipeline.
Context `{Pandas}.

(** [df.sort_values(label)], [df.drop(columns=labels)]: a new object. *)
Definition sort_values_of (label : string) (df : ref) : M ref :=
  f ⇐ read df ;; f' ⇐ lift (sort_values label f) ;; new f'.
Definition drop_of (labels : list string) (df : ref) : M ref :=
  f ⇐ read df ;; f' ⇐ lift (drop_columns f labels) ;; new f'.

(** [df[label]] and [df[label] = c]: the latter changes the object. *)
Definition col (df : ref) (label : string) : M column :=
  f ⇐ read df ;; lift (getitem f label).
Definition assign (df : ref) (label : string) (c : column) : M unit :=
  f ⇐ read df ;; update df (setitem f label c).

(** *** [DataProcessor.calculate_inflation_rates] *)
Definition rate_of_change (df : ref) (prev_label : string) : M column :=
  cpi ⇐ col df "cpi_value" ;;
  prev ⇐ col df prev_label ;;
  diff ⇐ lift (series_op PrimFloat.sub cpi prev) ;;
  prev ⇐ col df prev_label ;;
  quot ⇐ lift (series_op PrimFloat.div diff prev) ;;
  lift (series_mul_scalar quot 100%float).

Definition calculate_inflation_rates (df : ref) : M ref :=
  df ⇐ copy df ;;
  df ⇐ (s ⇐ sort_values_of "date" df ;; reset_index s) ;;
  (* Month-over-month inflation *)
  cpi ⇐ col df "cpi_value" ;;
  assign df "cpi_prev_month" (shift 1 cpi) ;;;
  mom ⇐ rate_of_change df "cpi_prev_month" ;;
  assign df "inflation_mom" mom ;;;
  (* Year-over-year inflation (12 months ago) *)
  cpi ⇐ col df "cpi_value" ;;
  assign df "cpi_prev_year" (shift 12 cpi) ;;;
  yoy ⇐ rate_of_change df "cpi_prev_year" ;;
  assign df "inflation_yoy" yoy ;;;
  (* Drop intermediate columns *)
  drop_of ["cpi_prev_month"; "cpi_prev_year"] df.

(** *** [DataProcessor.save_data] *)
Definition save_data (output_dir : string) (df : ref) (filename format : string) : M unit :=
  let filepath := output_dir +:+ "/" +:+ filename +:+ "." +:+ format in
  if bool_decide (format ∈ ["parquet"; "csv"; "json"]) then
    f ⇐ read df ;; write_file filepath f
  else raise (ValueError ("Unsupported format: " +:+ format)).

(** ** [pipelines/inflation_pipeline.py] *)

(** What [main] takes from outside the processor: whether the two
    constructors return ([DataFetcher()] reads the configuration file,
    [DataProcessor()] makes the directory of processed data), the
    configuration look-ups of [DataFetcher.config], the result of
    [DataFetcher.fetch_statcan_data] (network and archive decoding), the
    clock, and the two output directories. *)
Record environment := {
  DataFetcher_init : outcome unit;
  DataProcessor_init : outcome unit;
  statcan_product_id : outcome string;
  bank_of_canada_series : outcome string;
  fred_series : outcome string;
  fetch_statcan_data : string → string → outcome string;
  today : string;
  timestamp : string;
  processed_dir : string;
  data_outputs_dir : string;
}.

(** The [try] block of [main], lines 31 to 93.  Its handler re-raises what
    was raised.  What follows line 93 prints a summary and is not modelled;
    nor is the directory that line 91 makes. *)
Definition main_try (env : environment) (source : string) : M unit :=
  (* Initialize components *)
  lift (DataFetcher_init env) ;;;
  lift (DataProcessor_init env) ;;;
  (* Fetch data *)
  raw_data ⇐
    (if decide (source = "statcan") then
       product_id ⇐ lift (statcan_product_id env) ;;
       csv ⇐ lift (fetch_statcan_data env product_id "en") ;;
       ret (Text csv)
     else if decide (source = "bank_of_canada") then
       series ⇐ lift (bank_of_canada_series env) ;;
       (* [DataFetcher] defines no such method *)
       raise (AttributeError "'DataFetcher' object has no attribute 'fetch_bank_of_canada_data'")
     else if decide (source = "fred") then
       series ⇐ lift (fred_series env) ;;
       raise (AttributeError "'DataFetcher' object has no attribute 'fetch_fred_data'")
     else raise (ValueError ("Unknown source: " +:+ source))) ;;
  (* Process data *)
  df ⇐ (f ⇐ lift (process_inflation_data raw_data source) ;; new f) ;;
  is_empty ⇐ (f ⇐ read df ;; ret (empty f)) ;;
  if is_empty : bool then ret () else
  (* Calculate inflation rates (MoM, YoY, and 3-month trend) *)
  df ⇐ calculate_inflation_rates df ;;
  (* Format output with required fields *)
  yr ⇐ (c ⇐ col df "date" ;; lift (dt_field year_of c)) ;;
  mnth ⇐ (c ⇐ col df "date" ;; lift (dt_field month_of c)) ;;
  value ⇐ col df "cpi_value" ;;
  yoy ⇐ col df "inflation_yoy" ;;
  mom ⇐ col df "inflation_mom" ;;
  trend ⇐ col df "trend_3m" ;;
  output_df ⇐ new [("Update Date", ObjectCol (replicate (col_len yr) (Some (today env))));
                   ("Yr", yr); ("Mnth", mnth); ("Inflation Value", value);
                   ("YoY Value", yoy); ("MoM Value", mom); ("3 Month Trend", trend)] ;;
  (* Save processed data to data/processed (for internal use with timestamp) *)
  let filename := "inflation_data_" +:+ source +:+ "_" +:+ timestamp env in
  save_data (processed_dir env) output_df filename "parquet" ;;;
  (* Save CSV to data_outputs folder with fixed filename (overwrites on each run) *)
  f ⇐ read output_df ;;
  write_file (data_outputs_dir env +:+ "/inflation_data.csv") f.

(** [main].  Its first statement, line 29, stands before the [try]:
    [logger.info(...)].  The module imports [logging] and binds no name
    [logger] (the two modules of [src] each bind their own), so the name
    raises [NameError] on every call, and the [try] block is not reached. *)
Definition main (env : environment) (source : string) : M unit :=
  raise (A := unit) (NameError "name 'logger' is not defined") ;;;
  main_try env source.

End Pipeline.

(** ** [src/data_fetcher.py] *)

(** [s.endswith(suffix)] *)
Fixpoint endswith (suffix s : string) : bool :=
  bool_decide (s = suffix) ||
  match s with
  | EmptyString => false
  | String _ r => endswith suffix r
  end.

(** What [fetch_statcan_data] can raise: the exceptions of [requests]
    (connection, timeout, a URL that is none, and [raise_for_status] on an
    error status), of [response.json()], of [zipfile] and of
    [bytes.decode], the [ValueError]s of the function itself, and any other
    exception, by the name of its class.  The handlers of the function log
    and re-raise: the exception that leaves is the one that was raised. *)
Inductive fetch_error :=
| RequestException (msg : string)
| JSONDecodeError
| BadZipFile
| UnicodeDecodeError
| FetchValueError (msg : string)
| OtherError (class : string).

(** A decoded JSON body: an object, or anything else (a list, a number, a
    string, null).  A field of an object is given by its text, which is
    what [requests.get] makes of the value it is handed. *)
Inductive json_value :=
| JObject (fields : gmap string string)
| JOther.

Record response := {
  raise_for_status : fetch_error + unit;
  json : fetch_error + json_value;
  content : string;
}.

(** The world outside the fetcher: what a GET of a URL answers, what
    [zipfile.ZipFile] finds in a body (the entries in archive order, each a
    name and what reading it gives) and how bytes decode as UTF-8. *)
Record web := {
  server : string → Z → fetch_error + response;
  unzip : string → fetch_error + list (string * (fetch_error + string));
  decode_utf8 : string → fetch_error + string;
}.

(** A computation that calls [requests.get]: the calls made, in order, each
    with its timeout, and the result. *)
Definition Net (A : Type) : Type := list (string * Z) * (fetch_error + A).

#[global] Instance net_ret : MRet Net := λ A a, ([], inr a).
#[global] Instance net_bind : MBind Net := λ A B k m,
  match m with
  | (sent, inr a) => let '(sent', r) := k a in (sent ++ sent', r)
  | (sent, inl e) => (sent, inl e)
  end.

Definition net_lift {A} (x : fetch_error + A) : Net A := ([], x).

(** [requests.get(url, timeout=timeout)] *)
Definition requests_get (www : web) (url : string) (timeout : Z) : Net response :=
  ([(url, timeout)], server www url timeout).

(** [z.open(name).read()]: of several entries with one name, [zipfile]
    opens the last. *)
Definition zip_read (z : list (string * (fetch_error + string))) (name : string)
  : fetch_error + string :=
  match last (filter (λ e, e.1 = name) z) with
  | Some e => e.2
  | None => inl (OtherError "KeyError")
  end.

(** The entries [fetch_statcan_data] takes for the table. *)
Definition is_table_csv (f : string) : bool :=
  endswith ".csv" f && negb (endswith "_MetaData.csv" f).

(** [f"{base_url}/getFullTableDownloadCSV/{product_id}/{language}"] *)
Definition table_url (base_url product_id language : string) : string :=
  base_url +:+ "/getFullTableDownloadCSV/" +:+ product_id +:+ "/" +:+ language.

(** *** [DataFetcher.fetch_statcan_data]

    [base_url] is [self.config['statcan']['base_url']].  The message of the
    first [ValueError] goes on with the response received. *)
Definition fetch_statcan_data_from (www : web) (base_url product_id language : string)
  : Net string :=
  let url := table_url base_url product_id language in
  (* Step 1: Get the CSV download URL *)
  response ← requests_get www url 30;
  _ ← net_lift (raise_for_status response);
  result ← net_lift (json response);
  (* Extract download URL *)
  match result with
  | JOther => net_lift (inl (FetchValueError "Unexpected API response format"))
  | JObject fields =>
      match fields !! "object" with
      | None => net_lift (inl (FetchValueError "Unexpected API response format"))
      | Some download_url =>
          (* Step 2: Download the ZIP file *)
          zip_response ← requests_get www download_url 60;
          _ ← net_lift (raise_for_status zip_response);
          (* Step 3: Extract CSV from ZIP *)
          z ← net_lift (unzip www (content zip_response));
          (* Find CSV file (should be {PID}.csv) *)
          let csv_files := filter (λ f, is_table_csv f = true) z.*1 in
          match csv_files with
          | [] => net_lift (inl (FetchValueError "No CSV file found in ZIP archive"))
          | csv_file :: _ =>
              (* Read CSV content *)
              data ← net_lift (zip_read z csv_file);
              net_lift (decode_utf8 www data)
          end
      end
  end.

(** ** A reference instance of [Pandas], to evaluate the code with

    It reads comma-separated text without quoting, dates written
    [YYYY-MM] or [YYYY-MM-DD], decimal numbers written with digits, an
    optional sign and an optional fraction, and it sorts by stable
    insertion. *)

Module Reference.

Fixpoint split_on (sep : ascii) (s : string) : list string :=
  match s with
  | EmptyString => [EmptyString]
  | String c r =>
      if Ascii.eqb c sep then EmptyString :: split_on sep r
      else match split_on sep r with
           | [] => [String c EmptyString]
           | w :: ws => String c w :: ws
           end
  end.

Definition cell (s : string) : option string :=
  if decide (s = "") then None else Some s.

Definition read_csv (text : string) : outcome DataFrame :=
  let lines := filter (λ l, l ≠ "") (split_on (ascii_of_nat 10) text) in
  match split_on "," <$> lines with
  | [] => Raised (ValueError "No columns to parse from file")
  | header :: body =>
      Returned (imap (λ j name,
        (name, ObjectCol ((λ row : list string, row !! j ≫= cell) <$> body))) header)
  end.

Definition digit (c : ascii) : option Z :=
  let n := N_of_ascii c in
  if ((48 <=? n) && (n <=? 57))%N then Some (Z.of_N n - 48)%Z else None.

(** The number a non-empty string of digits writes. *)
Fixpoint digits_from (acc : Z) (s : string) : option Z :=
  match s with
  | EmptyString => Some acc
  | String c r => d ← digit c; digits_from (10 * acc + d)%Z r
  end.

Definition digits (s : string) : option Z :=
  match s with
  | EmptyString => None
  | _ => digits_from 0 s
  end.

Definition days_from_civil (y m d : Z) : Z :=
  (let y := if m <=? 2 then y - 1 else y in
   let era := y `div` 400 in
   let yoe := y - era * 400 in
   let doy := (153 * (if 2 <? m then m - 3 else m + 9) + 2) `div` 5 + d - 1 in
   let doe := yoe * 365 + yoe `div` 4 - yoe `div` 100 + doy in
   era * 146097 + doe - 719468)%Z.

Definition parse_date (s : string) : option Z :=
  match split_on "-" s with
  | [y; m] =>
      y ← digits y; m ← digits m;
      if ((1 <=? m) && (m <=? 12))%Z
      then Some (days_from_civil y m 1 * ns_per_day)%Z else None
  | [y; m; d] =>
      y ← digits y; m ← digits m; d ← digits d;
      if ((1 <=? m) && (m <=? 12) && (1 <=? d) && (d <=? 31))%Z
      then Some (days_from_civil y m d * ns_per_day)%Z else None
  | _ => None
  end.

Definition to_datetime_coerce (c : column) : list (option Z) :=
  match c with
  | DatetimeCol xs => xs
  | FloatCol xs => (λ _, None) <$> xs
  | ObjectCol xs => (λ x, x ≫= parse_date) <$> xs
  end.

Definition to_datetime_raise (c : column) : outcome (list (option Z)) :=
  match c with
  | ObjectCol xs =>
      mapM (λ x, match x with
                 | None => Returned None
                 | Some s => match parse_date s with
                             | Some t => Returned (Some t)
                             | None => Raised (ValueError ("Unknown datetime string format: " +:+ s))
                             end
                 end) xs
  | _ => Returned (to_datetime_coerce c)
  end.

(** An unsigned decimal: the quotient of two integers, rounded once. *)
Definition parse_unsigned (s : string) : option float :=
  match split_on "." s with
  | [i] => float_of_Z <$> digits i
  | [i; f] =>
      n ← digits (i +:+ f);
      if decide (i = "" ∨ f = "") then None
      else Some (PrimFloat.div (float_of_Z n) (float_of_Z (10 ^ Z.of_nat (String.length f))))
  | _ => None
  end.

Definition parse_number (s : string) : float :=
  match s with
  | String "-" r => from_option PrimFloat.opp nan (parse_unsigned r)
  | _ => default nan (parse_unsigned s)
  end.

Definition to_numeric_coerce (c : column) : list float :=
  match c with
  | DatetimeCol xs => (λ x, from_option float_of_Z nan x) <$> xs
  | FloatCol xs => xs
  | ObjectCol xs => (λ x, from_option parse_number nan x) <$> xs
  end.

(** Stable insertion sort of the positions by their keys. *)
Fixpoint insert_by {A} (leb : A → A → bool) (x : nat * A) (l : list (nat * A))
  : list (nat * A) :=
  match l with
  | [] => [x]
  | y :: l' => if leb x.2 y.2 then x :: l else y :: insert_by leb x l'
  end.

Definition argsort_by {A} (leb : A → A → bool) (keys : list A) : list nat :=
  (foldr (insert_by leb) [] (imap pair keys)).*1.

Definition key_leb (a b : option Z) : bool :=
  match a, b with
  | Some x, Some y => (x <=? y)%Z
  | _, None => true
  | None, Some _ => false
  end.

Definition float_leb (a b : float) : bool :=
  PrimFloat.is_nan b || PrimFloat.leb a b.

Definition string_leb (a b : option string) : bool :=
  match a, b with
  | Some x, Some y => String.leb x y
  | _, None => true
  | None, Some _ => false
  end.

Definition nargsort (c : column) : list nat :=
  match c with
  | DatetimeCol xs => argsort_by key_leb xs
  | FloatCol xs => argsort_by float_leb xs
  | ObjectCol xs => argsort_by string_leb xs
  end.

End Reference.

(** ** The rate the claims speak of *)

(** [(x - y) / y * 100] in binary64 arithmetic, for a value [x] and the
    earlier value [y] it is compared with. *)
Definition rate (x y : float) : float := ((x - y) / y * 100)%float.

(** The rates of a whole series at lag [n]: entry [i] compares [vs[i]] with
    [vs[i-n]], and with NaN where there is no such entry. *)
Definition rates (n : nat) (vs : list float) : list float :=
  zip_with rate vs (shift_list nan n vs).

(** ** What the statements below speak of *)

(** The frame the function works on after its four assignments, and the
    frame it returns, for an input whose rows have been put in date order. *)
Definition rates_work (sorted : DataFrame) (v : list float) : DataFrame :=
  setitem (setitem (setitem (setitem sorted
    "cpi_prev_month" (FloatCol (shift_list nan 1 v)))
    "inflation_mom" (FloatCol (rates 1 v)))
    "cpi_prev_year" (FloatCol (shift_list nan 12 v)))
    "inflation_yoy" (FloatCol (rates 12 v)).

Definition rates_result (sorted : DataFrame) (v : list float) : DataFrame :=
  filter (λ nc, nc.1 ∉ ["cpi_prev_month"; "cpi_prev_year"]) (rates_work sorted v).

(** The candidates that have both a date and a value, in the order given. *)
Definition valid_candidates (ds : list (option Z)) (vs : list float) : list (Z * float) :=
  omap (λ r : option Z * float, if isna r.2 then None else (λ t, (t, r.2)) <$> r.1) (zip ds vs).

(** Keeping, for each date, the first row that carries it. *)
Fixpoint keep_first (seen : list Z) (rows : list (Z * float)) : list (Z * float) :=
  match rows with
  | [] => []
  | r :: rest =>
      if decide (r.1 ∈ seen) then keep_first (seen ++ [r.1]) rest
      else r :: keep_first (seen ++ [r.1]) rest
  end.

(** Equal dates come out of the sort in the order they went in. *)
Definition stable_nargsort `{Pandas} (ks : list (option Z)) : Prop :=
  ∀ p q i j, p < q →
    nargsort (DatetimeCol ks) !! p = Some i → nargsort (DatetimeCol ks) !! q = Some j →
    ks !! i = ks !! j → i < j.

(** The column names as the code standardizes them. *)
Definition standardize `{Pandas} (tbl : DataFrame) : DataFrame :=
  rename (λ n, str_lower (str_strip n)) tbl.

(** The rows the two filters keep: those of the target geography, and, when
    a column whose name contains [product] exists, among them those whose
    trimmed category is exactly the target label. *)
Definition geography_mask `{Pandas} (geo : list (option string)) : list bool :=
  eq_label "canada" (option_map str_lower <$> geo).
Definition category_mask `{Pandas} (cat : list (option string)) : list bool :=
  eq_label "All-items" (option_map str_strip <$> cat).

Definition selects `{Pandas} (df : DataFrame) (geo : list (option string)) (mask : list bool)
  : Prop :=
  match find (λ col, Str.contains "product" (str_lower col)) (names df) with
  | None => mask = geography_mask geo
  | Some col => ∃ cat, getitem df col = Returned (ObjectCol cat) ∧
                       mask = zip_with andb (geography_mask geo) (category_mask cat)
  end.

Definition lex_le (a b : nat * option Z) : Prop :=
  key_le a.2 b.2 ∧ (key_le b.2 a.2 → a.1 < b.1).

Definition is_fin (x : spec_float) : Prop :=
  match x with S754_finite _ _ _ => True | _ => False end.

(** A name [fetch_statcan_data] takes for the table: it ends in [.csv] and
    not in [_MetaData.csv]. *)
Definition table_name (f : string) : Prop :=
  (∃ stem, f = stem +:+ ".csv") ∧ ¬ ∃ stem, f = stem +:+ "_MetaData.csv".

(** Both requests are answered without an error status: the request of
    [url] with an object whose field [object] is [download_url], and the
    request of [download_url] with [body]. *)
Definition answers (www : web) (url download_url body : string) : Prop :=
  ∃ meta fields zip_response,
    server www url 30 = inr meta ∧ raise_for_status meta = inr () ∧
    json meta = inr (JObject fields) ∧ fields !! "object" = Some download_url ∧
    server www download_url 60 = inr zip_response ∧
    raise_for_status zip_response = inr () ∧ content zip_response = body.

(** How the [try] block of [main] ends. *)
Definition main_try_outcome `{Pandas} (env : environment) (source : string) : outcome unit :=
  _ ← DataFetcher_init env;
  _ ← DataProcessor_init env;
  if decide (source = "statcan") then
    product_id ← statcan_product_id env;
    raw_data ← fetch_statcan_data env product_id "en";
    df ← _process_statcan_inflation raw_data;
    if empty df then Returned () else Raised (KeyError "trend_3m")
  else if decide (source = "bank_of_canada") then
    _ ← bank_of_canada_series env;
    Raised (AttributeError "'DataFetcher' object has no attribute 'fetch_bank_of_canada_data'")
  else if decide (source = "fred") then
    _ ← fred_series env;
    Raised (AttributeError "'DataFetcher' object has no attribute 'fetch_fred_data'")
  else Raised (ValueError ("Unknown source: " +:+ source)).

(** All the columns have one length. *)
Definition rectangular (df : DataFrame) : Prop :=
  ∀ nc nc', nc ∈ df → nc' ∈ df → col_len nc.2 = col_len nc'.2.

(** [w'] is [w] with new objects and nothing else: the files are the same
    and every object of [w] is as it was. *)
Definition extends (w w' : world) : Prop :=
  files w' = files w ∧ ∃ created, objects w' = objects w ++ created.

(** The files and the objects of [w0] are in [w] as they were. *)
Definition kept (w0 w : world) : Prop :=
  files w = files w0 ∧ take (length (objects w0)) (objects w) = objects w0.

(** [m] keeps the files and the objects of [w0], and what it returns
    satisfies [Q]. *)
Definition keeps {A} (w0 : world) (m : M A) (Q : A → Prop) : Prop :=
  ∀ w, kept w0 w → kept w0 (m w).2 ∧ ∀ a, (m w).1 = Returned a → Q a.

(** ** Sample inputs *)

(** Midnight on the first day of a month, as a timestamp. *)
Definition month_start (y m : Z) : Z := (Reference.days_from_civil y m 1 * ns_per_day)%Z.

(** Two months; the first value is zero. *)
Definition zero_then_one : DataFrame :=
  [("date", DatetimeCol [Some (month_start 2024 1); Some (month_start 2024 2)]);
   ("cpi_value", FloatCol [0%float; 1%float])].

(** Thirteen months, January 2023 to January 2024; the first value is zero. *)
Definition zero_then_year : DataFrame :=
  [("date", DatetimeCol (((λ m, Some (month_start 2023 m)) <$>
              [1; 2; 3; 4; 5; 6; 7; 8; 9; 10; 11; 12]%Z) ++ [Some (month_start 2024 1)]));
   ("cpi_value", FloatCol (0%float :: replicate 12 1%float))].

(** February before January. *)
Definition out_of_order : DataFrame :=
  [("date", DatetimeCol [Some (month_start 2024 2); Some (month_start 2024 1)]);
   ("cpi_value", FloatCol [102%float; 100%float])].

(** The 1st and the 15th of January 2024. *)
Definition same_month_candidates : DataFrame :=
  [("date", DatetimeCol [Some (month_start 2024 1);
                         Some (month_start 2024 1 + 14 * ns_per_day)%Z]);
   ("cpi_value", FloatCol [100%float; 101%float])].

(** February, then January twice with two values, then a row without a
    value and a row without a date. *)
Definition repeated_month_candidates : DataFrame :=
  [("date", DatetimeCol [Some (month_start 2024 2); Some (month_start 2024 1);
                         Some (month_start 2024 1); Some (month_start 2024 3); None]);
   ("cpi_value", FloatCol [102%float; 100%float; 101%float; nan; 103%float])].

(** Two geographies, the target category and a variant of it. *)
Definition csv_sample : string :=
"GEO,Products and product groups,REF_DATE,VALUE
Canada,All-items,2024-01,158.5
Canada,All-items excluding food,2024-01,150
Ontario,All-items,2024-01,159
canada, All-items ,2024-02,159.25
".

(** No category column. *)
Definition csv_no_product : string :=
"GEO,REF_DATE,VALUE
Canada,2024-01,158.5
Canada,2024-02,159.25
".



(** Two observations; the value of the second is the sentinel. *)
Definition fred_payload : gmap string (list (gmap string string)) :=
  {[ "observations" :=
       [ {[ "date" := "2024-04-01"; "value" := "313" ]};
         {[ "date" := "2024-05-01"; "value" := "." ]} ] ]}.

(** No value column. *)
Definition csv_no_value : string :=
"GEO,REF_DATE
Canada,2024-01
".

(** A server that answers the request of the table with the address of an
    archive, and the request of that address with a body that holds
    [entries]. *)
Definition sample_web (entries : list (string * (fetch_error + string))) : web := {|
  server := λ url timeout,
    if decide (url = "https://www150.statcan.gc.ca/t1/wds/rest/getFullTableDownloadCSV/18100004/en")
    then inr {| raise_for_status := inr ();
                json := inr (JObject {[ "status" := "SUCCESS";
                                        "object" := "https://www150.statcan.gc.ca/n1/tbl/csv/18100004-eng.zip" ]});
                content := "" |}
    else if decide (url = "https://www150.statcan.gc.ca/n1/tbl/csv/18100004-eng.zip")
    then inr {| raise_for_status := inr (); json := inl JSONDecodeError; content := "PK" |}
    else inl (RequestException "ConnectionError");
  unzip := λ body, if decide (body = "PK") then inr entries else inl BadZipFile;
  decode_utf8 := inr;
|}.

(** The series [csv_sample] gives. *)
Definition csv_sample_series : DataFrame :=
  [("date", DatetimeCol [Some (month_start 2024 1); Some (month_start 2024 2)]);
   ("cpi_value", FloatCol [158.5%float; 159.25%float])].

(** The frame [fred_payload] gives. *)
Definition fred_payload_series : DataFrame :=
  [("date", DatetimeCol [Some (month_start 2024 4); Some (month_start 2024 5)]);
   ("cpi_value", FloatCol [313%float; nan])].

(** * Properties *)

(** ** Binary64 facts: when a rate is NaN, when it is infinite *)

Lemma SFcompare_refl x : x ≠ S754_nan → SFcompare x x = Some Eq.
Proof.
  destruct x as [s|s| |s m e]; try done; intros _; simpl.
  - by destruct s.
  - destruct s; rewrite Z.compare_refl; [rewrite Pos.compare_cont_refl|rewrite Pos.compare_cont_refl]; done.
Qed.

Lemma is_nan_spec f : PrimFloat.is_nan f = true ↔ Prim2SF f = S754_nan.
Proof.
  unfold PrimFloat.is_nan. rewrite FloatAxioms.eqb_spec. unfold SFeqb.
  destruct (Prim2SF f) as [s|s| |s m e] eqn:E.
  1,2,4: rewrite SFcompare_refl by done; split; done.
  simpl. done.
Qed.

Lemma is_zero_spec f : PrimFloat.is_zero f = true ↔ ∃ s, Prim2SF f = S754_zero s.
Proof.
  unfold PrimFloat.is_zero. rewrite FloatAxioms.eqb_spec. unfold SFeqb.
  change (Prim2SF PrimFloat.zero) with (S754_zero false).
  destruct (Prim2SF f) as [s|s| |s m e] eqn:E; simpl.
  - split; eauto.
  - destruct s; split; try done; intros [? ?]; done.
  - split; try done; intros [? ?]; done.
  - destruct s; split; try done; intros [? ?]; done.
Qed.

Lemma is_infinity_spec f : PrimFloat.is_infinity f = true ↔ ∃ s, Prim2SF f = S754_infinity s.
Proof.
  unfold PrimFloat.is_infinity. rewrite FloatAxioms.eqb_spec, abs_spec. unfold SFeqb.
  change (Prim2SF PrimFloat.infinity) with (S754_infinity false).
  destruct (Prim2SF f) as [s|s| |s m e] eqn:E; simpl.
  - split; try done; intros [? ?]; done.
  - split; eauto.
  - split; try done; intros [? ?]; done.
  - split; try done; intros [? ?]; done.
Qed.

Section NotNan.
Variables prec emax : Z.

Lemma shr_1_nonneg mrs : (0 ≤ shr_m mrs)%Z → (0 ≤ shr_m (shr_1 mrs))%Z.
Proof. destruct mrs as [[|[p|p|]|p] r s]; simpl; lia. Qed.

Lemma iter_shr_1_nonneg p mrs :
  (0 ≤ shr_m mrs)%Z → (0 ≤ shr_m (SpecFloat.iter_pos shr_1 p mrs))%Z.
Proof.
  revert mrs. induction p as [p IH|p IH|]; intros mrs Hm; simpl.
  - apply IH, IH, shr_1_nonneg, Hm.
  - apply IH, IH, Hm.
  - apply shr_1_nonneg, Hm.
Qed.

Lemma shr_fexp_nonneg m e l :
  (0 ≤ m)%Z → (0 ≤ shr_m (shr_fexp prec emax m e l).1)%Z.
Proof.
  intros Hm. unfold shr_fexp, shr.
  assert (0 ≤ shr_m (shr_record_of_loc m l))%Z by (by destruct l as [|[]]).
  destruct (_ - e)%Z; simpl; auto using iter_shr_1_nonneg.
Qed.

Lemma round_nearest_even_nonneg m l : (0 ≤ m)%Z → (0 ≤ round_nearest_even m l)%Z.
Proof. destruct l as [|[]]; simpl; try destruct (Z.even m); lia. Qed.

Lemma binary_round_aux_not_nan sx mx ex lx :
  (0 ≤ mx)%Z → binary_round_aux prec emax sx mx ex lx ≠ S754_nan.
Proof.
  intros Hm. unfold binary_round_aux.
  pose proof (shr_fexp_nonneg mx ex lx Hm) as H1.
  destruct (shr_fexp prec emax mx ex lx) as [mrs' e'] eqn:E1. simpl in H1.
  pose proof (shr_fexp_nonneg _ e' loc_Exact
    (round_nearest_even_nonneg _ (loc_of_shr_record mrs') H1)) as H2.
  destruct (shr_fexp prec emax (round_nearest_even _ _) e' loc_Exact) as [mrs'' e''].
  simpl in H2. destruct (shr_m mrs''); [done| by destruct (_ <=? _)%Z | lia].
Qed.

Lemma binary_normalize_not_nan m e s : binary_normalize prec emax m e s ≠ S754_nan.
Proof.
  destruct m; simpl; try done; unfold binary_round;
    destruct (shl_align _ _ _); by apply binary_round_aux_not_nan.
Qed.

Lemma SFsub_not_nan x y : x ≠ S754_nan → is_fin y → SFsub prec emax x y ≠ S754_nan.
Proof.
  destruct x as [sx|sx| |sx mx ex], y as [sy|sy| |sy my ey]; try done; intros _ _; simpl.
  apply binary_normalize_not_nan.
Qed.

Lemma SFdiv_not_nan x y : x ≠ S754_nan → is_fin y → SFdiv prec emax x y ≠ S754_nan.
Proof.
  destruct x as [sx|sx| |sx mx ex], y as [sy|sy| |sy my ey]; try done; intros _ _; simpl.
  unfold SFdiv_core_binary.
  set (m' := match _ with Z0 => _ | Z.pos _ => _ | Z.neg _ => _ end).
  assert (0 ≤ m')%Z as Hm'.
  { subst m'. destruct (_ - _ - _)%Z; try lia. apply Z.shiftl_nonneg. lia. }
  pose proof (Z.div_pos m' (Z.pos my) Hm' ltac:(lia)) as Hq.
  unfold Z.div in Hq. destruct (Z.div_eucl m' (Z.pos my)) as [q r].
  by apply binary_round_aux_not_nan.
Qed.

Lemma SFmul_not_nan x y : x ≠ S754_nan → is_fin y → SFmul prec emax x y ≠ S754_nan.
Proof.
  destruct x as [sx|sx| |sx mx ex], y as [sy|sy| |sy my ey]; try done; intros _ _; simpl.
  by apply binary_round_aux_not_nan.
Qed.
End NotNan.

Lemma rate_spec x y :
  Prim2SF (rate x y) =
  SF64mul (SF64div (SF64sub (Prim2SF x) (Prim2SF y)) (Prim2SF y))
          (S754_finite false 7036874417766400 (-46)).
Proof. unfold rate. by rewrite FloatAxioms.mul_spec, FloatAxioms.div_spec, FloatAxioms.sub_spec. Qed.

Lemma rate_isna x y :
  PrimFloat.is_nan (rate x y) =
  PrimFloat.is_nan x || PrimFloat.is_nan y || PrimFloat.is_infinity y
  || (PrimFloat.is_zero y && PrimFloat.is_zero x).
Proof.
  apply eq_true_iff_eq.
  rewrite !orb_true_iff, andb_true_iff, !is_nan_spec, !is_zero_spec, is_infinity_spec, rate_spec.
  unfold SF64mul, SF64div, SF64sub.
  destruct (Prim2SF y) as [sy|sy| |sy my ey] eqn:Ey.
  - destruct (Prim2SF x) as [sx|sx| |sx mx ex] eqn:Ex.
    + split; [intros _; right; eauto|]. intros _. simpl. by destruct sx, sy.
    + split; [intros Hn; exfalso; revert Hn; by destruct sx, sy|].
      intros [[[?|?]|[? ?]]|[_ [? ?]]]; done.
    + split; [by auto|done].
    + split; [done|]. intros [[[?|?]|[? ?]]|[_ [? ?]]]; done.
  - split; [intros _; left; right; eauto|intros _].
    destruct (Prim2SF x) as [sx|sx| |sx mx ex]; simpl; try done; by destruct sx, sy.
  - split; [by auto|]. intros _. by destruct (Prim2SF x).
  - split.
    + intros Hn. left; left; left. assert (Prim2SF x = S754_nan ∨ Prim2SF x ≠ S754_nan) as [|Hx]
        by (destruct (Prim2SF x); auto); [done|].
      exfalso. revert Hn. apply SFmul_not_nan; [|done].
      apply SFdiv_not_nan; [|done]. by apply SFsub_not_nan.
    + intros [[[Hx|?]|[? ?]]|[[? ?] _]]; try done. by rewrite Hx.
Qed.

Lemma rate_zero_prev x y :
  PrimFloat.is_zero y = true → PrimFloat.is_nan x = false → PrimFloat.is_zero x = false →
  PrimFloat.is_infinity (rate x y) = true.
Proof.
  intros [sy Hy]%is_zero_spec Hn Hz. apply is_infinity_spec. rewrite rate_spec, Hy.
  destruct (Prim2SF x) as [sx|sx| |sx mx ex] eqn:Ex; simpl.
  - rewrite (proj2 (is_zero_spec x)) in Hz; [done|eauto].
  - eauto.
  - rewrite (proj2 (is_nan_spec x)) in Hn; done.
  - eauto.
Qed.

(** ** The reference instance satisfies the laws of [Pandas] *)

Lemma outcome_mapM_length {A B} (f : A → outcome B) (l : list A) (k : list B) :
  mapM f l = Returned k → length k = length l.
Proof.
  revert k. induction l as [|x l IH]; intros k; simpl.
  - by intros [= <-].
  - destruct (f x) as [y|e]; simpl; [|done].
    destruct (mapM f l) as [ys|e]; simpl; [|done].
    intros [= <-]. simpl. f_equal. by apply IH.
Qed.

Lemma insert_by_Permutation {A} (leb : A → A → bool) x l :
  Reference.insert_by leb x l ≡ₚ x :: l.
Proof.
  induction l as [|y l IH]; simpl; [done|].
  destruct (leb x.2 y.2); [done|]. rewrite IH. apply Permutation_swap.
Qed.

Lemma insertion_sort_Permutation {A} (leb : A → A → bool) l :
  foldr (Reference.insert_by leb) [] l ≡ₚ l.
Proof.
  induction l as [|x l IH]; simpl; [done|].
  by rewrite insert_by_Permutation, IH.
Qed.

Lemma argsort_by_Permutation {A} (leb : A → A → bool) (keys : list A) :
  Reference.argsort_by leb keys ≡ₚ seq 0 (length keys).
Proof.
  unfold Reference.argsort_by. rewrite insertion_sort_Permutation, fmap_imap.
  rewrite (imap_ext _ (λ j _, id j)) by done.
  by rewrite imap_seq_0, list_fmap_id.
Qed.

Lemma key_leb_le a b : Reference.key_leb a b = true ↔ key_le a b.
Proof. destruct a, b; simpl; rewrite ?Z.leb_le; done. Qed.

Lemma key_le_total a b : key_le a b ∨ key_le b a.
Proof. destruct a, b; simpl; auto; lia. Qed.

Lemma insert_by_Sorted x (l : list (nat * option Z)) :
  Sorted key_le l.*2 → Sorted key_le (Reference.insert_by Reference.key_leb x l).*2.
Proof.
  induction l as [|y l IH]; simpl; intros Hs.
  - by repeat constructor.
  - destruct (Reference.key_leb x.2 y.2) eqn:E; simpl.
    + constructor; [done|]. constructor. by apply key_leb_le.
    + apply Sorted_inv in Hs as [Hs Hd]. constructor; [by apply IH|].
      assert (key_le y.2 x.2) as Hyx.
      { destruct (key_le_total x.2 y.2) as [Hxy%key_leb_le|]; [congruence|done]. }
      destruct l as [|z l]; simpl; [by constructor|].
      apply HdRel_inv in Hd. destruct (Reference.key_leb x.2 z.2); by constructor.
Qed.

Lemma insertion_sort_Sorted (l : list (nat * option Z)) :
  Sorted key_le (foldr (Reference.insert_by Reference.key_leb) [] l).*2.
Proof.
  induction l as [|x l IH]; simpl; [constructor|]. by apply insert_by_Sorted.
Qed.

(** Taking the positions of position-key pairs gives back their keys. *)
Lemma take_idx_pairs {A} (keys : list A) (l : list (nat * A)) :
  Forall (λ p, keys !! p.1 = Some p.2) l → take_idx l.*1 keys = l.*2.
Proof.
  unfold take_idx. induction 1 as [|[i k] l Hik _ IH]; simpl in *; [done|].
  rewrite Hik. f_equal. exact IH.
Qed.

Lemma imap_pair_lookup {A} (keys : list A) :
  Forall (λ p, keys !! p.1 = Some p.2) (imap pair keys).
Proof.
  apply Forall_lookup. intros i [j k]. rewrite list_lookup_imap.
  destruct (keys !! i) eqn:E; simpl; [|done]. by intros [= <- <-].
Qed.

Lemma argsort_by_take {A} (leb : A → A → bool) (keys : list A) :
  take_idx (Reference.argsort_by leb keys) keys =
  (foldr (Reference.insert_by leb) [] (imap pair keys)).*2.
Proof.
  apply take_idx_pairs. rewrite insertion_sort_Permutation. apply imap_pair_lookup.
Qed.

Lemma reference_nargsort_Sorted ks :
  Sorted key_le (take_idx (Reference.nargsort (DatetimeCol ks)) ks).
Proof. simpl. rewrite argsort_by_take. apply insertion_sort_Sorted. Qed.

Lemma reference_to_datetime_coerce_length c :
  length (Reference.to_datetime_coerce c) = col_len c.
Proof. destruct c; simpl; by rewrite ?length_fmap. Qed.

Lemma reference_read_csv_rectangular text df :
  Reference.read_csv text = Returned df → ∀ nc, nc ∈ df → col_len nc.2 = nrows df.
Proof.
  unfold Reference.read_csv. destruct (_ <$> _) as [|header body]; [done|].
  intros [= <-].
  assert (∀ nc, nc ∈ imap (λ j name, (name, ObjectCol
            ((λ row : list string, row !! j ≫= Reference.cell) <$> body))) header →
          col_len nc.2 = length body) as Hall.
  { intros nc [j Hj]%list_elem_of_lookup. rewrite list_lookup_imap in Hj.
    destruct (header !! j); [|done]. injection Hj as <-. simpl. by rewrite length_fmap. }
  intros nc Hnc. rewrite (Hall nc Hnc).
  destruct header as [|name header]; [by apply elem_of_nil in Hnc|].
  simpl. by rewrite length_fmap.
Qed.

#[global, refine] Instance reference_pandas : Pandas := {|
  str_lower := Str.lower;
  str_strip := Str.strip;
  read_csv := Reference.read_csv;
  to_datetime_coerce := Reference.to_datetime_coerce;
  to_datetime_raise := Reference.to_datetime_raise;
  to_numeric_coerce := Reference.to_numeric_coerce;
  nargsort := Reference.nargsort;
|}.
Proof.
  - apply reference_read_csv_rectangular.
  - apply reference_to_datetime_coerce_length.
  - intros [xs|xs|xs] ds; simpl.
    + by intros [= <-].
    + intros [= <-]. by rewrite length_fmap.
    + apply outcome_mapM_length.
  - intros c. destruct c; simpl; by rewrite ?length_fmap.
  - intros c. destruct c; simpl; apply argsort_by_Permutation.
  - apply reference_nargsort_Sorted.
  - done.
  - done.
Defined.

(** ** Frames: looking columns up after the operations the code applies *)

Section FrameFacts.
Implicit Types (df : DataFrame) (n m : string) (c : column) (labels : list string).

Lemma filter_label_notin df n : n ∉ names df → filter (λ nc, nc.1 = n) df = [].
Proof.
  induction df as [|[k c] df IH]; [done|]. unfold names in *. rewrite fmap_cons, not_elem_of_cons.
  intros [Hne Hnotin]. simpl in Hne. rewrite filter_cons_False by (simpl; congruence). auto.
Qed.

Lemma filter_label_NoDup df n c :
  NoDup (names df) → (n, c) ∈ df → filter (λ nc, nc.1 = n) df = [(n, c)].
Proof.
  induction df as [|[k c'] df IH]; [by intros _ ?%elem_of_nil|].
  unfold names in *. rewrite fmap_cons, NoDup_cons, elem_of_cons. simpl.
  intros [Hk Hnd] [[= -> ->]|Hin].
  - rewrite filter_cons_True by done. f_equal. by apply filter_label_notin.
  - assert (k ≠ n).
    { intros ->. apply Hk. by apply (list_elem_of_fmap_2 fst _ (n, c)). }
    rewrite filter_cons_False by done. auto.
Qed.

Lemma getitem_Returned df n c :
  NoDup (names df) → (n, c) ∈ df → getitem df n = Returned c.
Proof. intros Hnd Hin. unfold getitem. by rewrite (filter_label_NoDup df n c). Qed.

Lemma getitem_elem_of df n c : getitem df n = Returned c → (n, c) ∈ df.
Proof.
  unfold getitem. destruct (filter _ df) as [|[k c'] [|??]] eqn:E; try done.
  intros [= ->].
  assert ((k, c) ∈ filter (λ nc : string * column, nc.1 = n) df) as Hin
    by (rewrite E; apply list_elem_of_here).
  apply list_elem_of_filter in Hin as [Hk ?]. simpl in Hk. by subst.
Qed.

Lemma getitem_KeyError df n : n ∉ names df → getitem df n = Raised (KeyError n).
Proof. intros Hn. unfold getitem. by rewrite filter_label_notin. Qed.

Lemma getitem_names df n c : getitem df n = Returned c → n ∈ names df.
Proof.
  intros Hin%getitem_elem_of. by apply (list_elem_of_fmap_2 fst _ (n, c)).
Qed.

Lemma names_setitem df n c :
  names (setitem df n c) =
  if decide (n ∈ names df) then names df else names df ++ [n].
Proof.
  unfold names. induction df as [|[k c'] df IH]; cbn [setitem].
  - rewrite decide_False; [done|apply not_elem_of_nil].
  - destruct (decide (k = n)) as [->|Hne]; rewrite !fmap_cons; cbn [fst].
    + rewrite decide_True; [done|apply list_elem_of_here].
    + rewrite IH. destruct (decide (n ∈ df.*1)) as [Hin|Hnin].
      * rewrite decide_True; [done|by apply list_elem_of_further].
      * rewrite decide_False; [done|]. rewrite not_elem_of_cons. split; [congruence|done].
Qed.

Lemma NoDup_setitem df n c : NoDup (names df) → NoDup (names (setitem df n c)).
Proof.
  intros Hnd. rewrite names_setitem. destruct (decide _); [done|].
  apply NoDup_app. split_and!; [done| |apply NoDup_singleton].
  intros x Hx ->%list_elem_of_singleton. done.
Qed.

Lemma elem_of_setitem df n c : (n, c) ∈ setitem df n c.
Proof.
  induction df as [|[k c'] df IH]; simpl; [apply list_elem_of_here|].
  destruct (decide (k = n)) as [->|]; [apply list_elem_of_here|by apply list_elem_of_further].
Qed.

Lemma getitem_setitem_eq df n c :
  NoDup (names df) → getitem (setitem df n c) n = Returned c.
Proof.
  intros Hnd. apply getitem_Returned; [by apply NoDup_setitem|apply elem_of_setitem].
Qed.

Lemma getitem_setitem_ne df n m c :
  n ≠ m → getitem (setitem df n c) m = getitem df m.
Proof.
  intros Hne. unfold getitem.
  assert (filter (λ nc, nc.1 = m) (setitem df n c) = filter (λ nc, nc.1 = m) df) as ->; [|done].
  induction df as [|[k c'] df IH]; simpl.
  - by rewrite filter_cons_False by done.
  - destruct (decide (k = n)) as [->|].
    + by rewrite !(filter_cons_False _ (n, _)) by done.
    + rewrite !(filter_cons _ (k, _)), IH. done.
Qed.

Lemma names_rows (g : column → column) df : names (prod_map id g <$> df) = names df.
Proof. unfold names. rewrite <-list_fmap_compose. by apply list_fmap_ext; intros ? []. Qed.

Lemma getitem_rows (g : column → column) df n :
  getitem (prod_map id g <$> df) n = g <$> getitem df n.
Proof.
  unfold getitem.
  assert (filter (λ nc, nc.1 = n) (prod_map id g <$> df)
          = prod_map id g <$> filter (λ nc, nc.1 = n) df) as ->.
  { induction df as [|[k c] df IH]; [done|]. rewrite fmap_cons. simpl.
    rewrite !filter_cons. simpl. destruct (decide (k = n)); rewrite IH; done. }
  by destruct (filter _ df) as [|[k c] [|??]].
Qed.

Lemma getitem_take_rows idx df n :
  getitem (take_rows idx df) n = col_take idx <$> getitem df n.
Proof. apply getitem_rows. Qed.

Lemma getitem_select_rows mask df n :
  getitem (select_rows mask df) n = col_select mask <$> getitem df n.
Proof. apply getitem_rows. Qed.

Lemma getitem_filter_labels df labels n :
  n ∉ labels →
  getitem (filter (λ nc : string * column, nc.1 ∉ labels) df) n = getitem df n.
Proof.
  intros Hn. unfold getitem.
  assert (filter (λ nc, nc.1 = n) (filter (λ nc : string * column, nc.1 ∉ labels) df)
          = filter (λ nc, nc.1 = n) df) as ->; [|done].
  induction df as [|[k c] df IH]; [done|].
  rewrite (filter_cons (λ nc : string * column, nc.1 ∉ labels)). simpl.
  destruct (decide (k ∉ labels)).
  - rewrite !(filter_cons _ (k, c)), IH. done.
  - rewrite IH. rewrite filter_cons_False; [done|]. simpl. intros ->. done.
Qed.


Lemma drop_columns_present df labels :
  Forall (λ l, l ∈ names df) labels →
  drop_columns df labels = Returned (filter (λ nc, nc.1 ∉ labels) df).
Proof.
  intros Hall. unfold drop_columns.
  assert (filter (λ l, l ∉ names df) labels = []) as ->; [|done].
  induction Hall as [|l labels Hl _ IH]; [done|].
  by rewrite filter_cons_False by (by intros ?).
Qed.

End FrameFacts.

(** ** Running the store monad *)

Section StoreFacts.
Implicit Types (w : world) (f : DataFrame) (r : nat).

Lemma bind_Returned {A B} (m : M A) (k : A → M B) w a w' :
  m w = (Returned a, w') → bind m k w = k a w'.
Proof. unfold bind. by intros ->. Qed.

Lemma bind_Raised {A B} (m : M A) (k : A → M B) w e w' :
  m w = (Raised e, w') → bind m k w = (Raised e, w').
Proof. unfold bind. by intros ->. Qed.

Lemma read_run w r f : objects w !! r = Some f → read r w = (Returned f, w).
Proof. unfold read. by intros ->. Qed.

Lemma copy_run w r f :
  objects w !! r = Some f →
  copy r w = (Returned (length (objects w)),
              {| objects := objects w ++ [f]; files := files w |}).
Proof. intros Hr. unfold copy. by rewrite (bind_Returned _ _ _ _ _ (read_run _ _ _ Hr)). Qed.

Lemma col_run w r f label c :
  objects w !! r = Some f → getitem f label = Returned c →
  col r label w = (Returned c, w).
Proof.
  intros Hr Hc. unfold col. rewrite (bind_Returned _ _ _ _ _ (read_run _ _ _ Hr)).
  unfold lift. by rewrite Hc.
Qed.

Lemma col_run_Raised w r f label e :
  objects w !! r = Some f → getitem f label = Raised e →
  col r label w = (Raised e, w).
Proof.
  intros Hr Hc. unfold col. rewrite (bind_Returned _ _ _ _ _ (read_run _ _ _ Hr)).
  unfold lift. by rewrite Hc.
Qed.

Lemma assign_run w r f label c :
  objects w !! r = Some f →
  assign r label c w =
  (Returned (), {| objects := <[r := setitem f label c]> (objects w); files := files w |}).
Proof. intros Hr. unfold assign. by rewrite (bind_Returned _ _ _ _ _ (read_run _ _ _ Hr)). Qed.

Lemma lookup_app_plus {A} (l k : list A) i : (l ++ k) !! (length l + i)%nat = k !! i.
Proof. rewrite lookup_app_r by lia. f_equal. lia. Qed.

Lemma zip_with_rate (vs ps : list float) :
  (λ x, PrimFloat.mul x 100%float)
    <$> zip_with PrimFloat.div (zip_with PrimFloat.sub vs ps) ps
  = zip_with rate vs ps.
Proof.
  revert ps. induction vs as [|v vs IH]; intros [|p ps]; simpl; try done.
  by rewrite <-IH.
Qed.

Lemma rate_of_change_run w r f label vs ps :
  objects w !! r = Some f →
  getitem f "cpi_value" = Returned (FloatCol vs) →
  getitem f label = Returned (FloatCol ps) →
  rate_of_change r label w = (Returned (FloatCol (zip_with rate vs ps)), w).
Proof.
  intros Hr Hv Hp. unfold rate_of_change.
  rewrite (bind_Returned _ _ _ _ _ (col_run _ _ _ _ _ Hr Hv)).
  rewrite (bind_Returned _ _ _ _ _ (col_run _ _ _ _ _ Hr Hp)).
  unfold bind at 1. simpl.
  rewrite (bind_Returned _ _ _ _ _ (col_run _ _ _ _ _ Hr Hp)).
  unfold bind, lift. simpl. by rewrite zip_with_rate.
Qed.

End StoreFacts.

(** ** What [calculate_inflation_rates] computes *)

Section RateFacts.
Context `{Pandas}.

Lemma sort_values_of_run w r f label c :
  objects w !! r = Some f → getitem f label = Returned c →
  sort_values_of label r w =
  (Returned (length (objects w)),
   {| objects := objects w ++ [take_rows (nargsort c) f]; files := files w |}).
Proof.
  intros Hr Hc. unfold sort_values_of.
  rewrite (bind_Returned _ _ _ _ _ (read_run _ _ _ Hr)).
  unfold bind, lift, sort_values. by rewrite Hc.
Qed.

Lemma drop_of_run w r f labels :
  objects w !! r = Some f → Forall (λ l, l ∈ names f) labels →
  drop_of labels r w =
  (Returned (length (objects w)),
   {| objects := objects w ++ [filter (λ nc, nc.1 ∉ labels) f]; files := files w |}).
Proof.
  intros Hr Hl. unfold drop_of.
  rewrite (bind_Returned _ _ _ _ _ (read_run _ _ _ Hr)).
  unfold bind, lift. by rewrite drop_columns_present.
Qed.

Lemma names_setitem_mono (t : DataFrame) l c x : x ∈ names t → x ∈ names (setitem t l c).
Proof.
  intros Hx. rewrite names_setitem. destruct (decide _); [done|].
  apply elem_of_app. by left.
Qed.

Lemma calculate_inflation_rates_run w df frame dc vs :
  objects w !! df = Some frame →
  NoDup (names frame) →
  getitem frame "date" = Returned dc →
  getitem frame "cpi_value" = Returned (FloatCol vs) →
  let sorted := take_rows (nargsort dc) frame in
  let v := take_idx (nargsort dc) vs in
  calculate_inflation_rates df w =
  (Returned (length (objects w) + 3)%nat,
   {| objects := objects w ++ [frame; sorted; rates_work sorted v; rates_result sorted v];
      files := files w |}).
Proof.
  intros Hdf Hnd Hdate Hcpi sorted v.
  assert (NoDup (names sorted)) as Hnds by (unfold sorted, take_rows; by rewrite names_rows).
  assert (getitem sorted "cpi_value" = Returned (FloatCol v)) as Hv.
  { unfold sorted. by rewrite getitem_take_rows, Hcpi. }
  set (n := length (objects w)).
  set (at_ := λ l : list DataFrame, {| objects := objects w ++ l; files := files w |}).
  assert (∀ l i, objects (at_ l) !! (n + i)%nat = l !! i) as Hat.
  { intros l i. unfold at_, n. cbn [objects]. apply lookup_app_plus. }
  assert (∀ l, length (objects (at_ l)) = (n + length l)%nat) as Hlen.
  { intros l. unfold at_, n. cbn [objects]. apply length_app. }
  assert (∀ l x, {| objects := objects (at_ l) ++ [x]; files := files (at_ l) |} = at_ (l ++ [x]))
    as Hnew.
  { intros l x. unfold at_. cbn [objects files]. by rewrite (assoc_L (++)). }
  assert (copy df w = (Returned (n + 1 - 1)%nat, at_ [frame])) as Hcopy.
  { rewrite (copy_run _ _ _ Hdf). unfold at_, n. do 2 f_equal. lia. }
  assert ((s ⇐ sort_values_of "date" (n + 1 - 1) (* the copy *) ;; reset_index s) (at_ [frame])
          = (Returned (n + 2)%nat, at_ [frame; sorted; sorted])) as Hsort.
  { replace (n + 1 - 1)%nat with (n + 0)%nat by lia.
    rewrite (bind_Returned _ _ _ _ _ (sort_values_of_run _ _ _ _ _ (Hat [frame] 0%nat) Hdate)).
    rewrite Hlen, Hnew. cbn [length app].
    change (reset_index (n + 1)) with (copy (n + 1)). fold sorted.
    rewrite (copy_run _ _ _ (Hat [frame; sorted] 1%nat)). by rewrite Hlen, Hnew. }
  assert (∀ t label c, assign (n + 2) label c (at_ [frame; sorted; t])
                       = (Returned (), at_ [frame; sorted; setitem t label c])) as Hassign.
  { intros t label c. rewrite (assign_run _ _ t) by apply (Hat [frame; sorted; t] 2%nat).
    unfold at_, n. cbn [objects files]. by rewrite insert_app_r. }
  unfold calculate_inflation_rates.
  rewrite (bind_Returned _ _ _ _ _ Hcopy), (bind_Returned _ _ _ _ _ Hsort).
  rewrite (bind_Returned _ _ _ _ _ (col_run _ _ _ _ _ (Hat [frame; sorted; _] 2%nat) Hv)).
  rewrite (bind_Returned _ _ _ _ _ (Hassign _ _ _)). cbn [shift].
  set (t1 := setitem sorted "cpi_prev_month" _).
  assert (getitem t1 "cpi_value" = Returned (FloatCol v)) as Hv1
    by (unfold t1; by rewrite getitem_setitem_ne).
  assert (NoDup (names t1)) as Hnd1 by (by apply NoDup_setitem).
  rewrite (bind_Returned _ _ _ _ _ (rate_of_change_run _ _ _ _ _ _ (Hat [frame; sorted; _] 2%nat) Hv1
    (getitem_setitem_eq _ _ _ Hnds))).
  rewrite (bind_Returned _ _ _ _ _ (Hassign _ _ _)).
  set (t2 := setitem t1 "inflation_mom" _).
  assert (getitem t2 "cpi_value" = Returned (FloatCol v)) as Hv2
    by (unfold t2; by rewrite getitem_setitem_ne).
  assert (NoDup (names t2)) as Hnd2 by (by apply NoDup_setitem).
  rewrite (bind_Returned _ _ _ _ _ (col_run _ _ _ _ _ (Hat [frame; sorted; _] 2%nat) Hv2)).
  rewrite (bind_Returned _ _ _ _ _ (Hassign _ _ _)). cbn [shift].
  set (t3 := setitem t2 "cpi_prev_year" _).
  assert (getitem t3 "cpi_value" = Returned (FloatCol v)) as Hv3
    by (unfold t3; by rewrite getitem_setitem_ne).
  assert (NoDup (names t3)) as Hnd3 by (by apply NoDup_setitem).
  rewrite (bind_Returned _ _ _ _ _ (rate_of_change_run _ _ _ _ _ _ (Hat [frame; sorted; _] 2%nat) Hv3
    (getitem_setitem_eq _ _ _ Hnd2))).
  rewrite (bind_Returned _ _ _ _ _ (Hassign _ _ _)).
  set (t4 := setitem t3 "inflation_yoy" _).
  rewrite (drop_of_run _ _ t4); [by rewrite Hlen, Hnew|apply (Hat [frame; sorted; t4] 2%nat)|].
  assert (Forall (λ l, l ∈ names t4) ["cpi_prev_month"; "cpi_prev_year"]); [|done].
  { assert ("cpi_prev_year" ∈ names t3) as H3.
    { eapply getitem_names, getitem_setitem_eq, Hnd2. }
    assert ("cpi_prev_month" ∈ names t1) as H1.
    { eapply getitem_names, getitem_setitem_eq, Hnds. }
    repeat constructor; unfold t4, t3, t2; eauto using names_setitem_mono. }
Qed.

End RateFacts.

(** ** Positional indexing and sorting *)

Section TakeFacts.
Context {A : Type}.
Implicit Types (l : list A) (idx : list nat).

Lemma take_idx_seq_app (pre l : list A) :
  take_idx (seq (length pre) (length l)) (pre ++ l) = l.
Proof.
  unfold take_idx. revert pre. induction l as [|x l IH]; intros pre; [done|].
  cbn [length seq omap list_omap]. rewrite list_lookup_middle by done. f_equal.
  specialize (IH (pre ++ [x])). rewrite length_app, Nat.add_1_r, <-(assoc_L (++)) in IH.
  exact IH.
Qed.

Lemma take_idx_seq l : take_idx (seq 0 (length l)) l = l.
Proof. apply (take_idx_seq_app [] l). Qed.

Lemma take_idx_Permutation idx l : idx ≡ₚ seq 0 (length l) → take_idx idx l ≡ₚ l.
Proof.
  intros Hp. unfold take_idx. rewrite Hp. fold (take_idx (seq 0 (length l)) l).
  by rewrite take_idx_seq.
Qed.


(** Within range, taking is mapping. *)
Lemma take_idx_total (d : A) idx l :
  Forall (λ i, i < length l) idx → take_idx idx l = (λ i, default d (l !! i)) <$> idx.
Proof.
  unfold take_idx. induction 1 as [|i idx Hi _ IH]; [done|].
  cbn [omap list_omap]. destruct (lookup_lt_is_Some_2 l i Hi) as [x Hx].
  rewrite Hx, fmap_cons, Hx. simpl. f_equal. exact IH.
Qed.

Lemma Permutation_seq_lt idx n : idx ≡ₚ seq 0 n → Forall (λ i, i < n) idx.
Proof.
  intros Hp. rewrite Hp. apply Forall_forall. intros i Hi%elem_of_seq. lia.
Qed.

End TakeFacts.


Lemma StronglySorted_seq j n : StronglySorted le (seq j n).
Proof.
  revert j. induction n as [|n IH]; intros j; simpl; constructor; [apply IH|].
  apply Forall_forall. intros i Hi%elem_of_seq. lia.
Qed.

Lemma StronglySorted_fmap_inv {A B} (f : A → B) (R : relation B) (l : list A) :
  StronglySorted R (f <$> l) → StronglySorted (λ x y, R (f x) (f y)) l.
Proof.
  induction l as [|x l IH]; [constructor|]. rewrite fmap_cons.
  intros [Hs Hf]%StronglySorted_inv. constructor; [by apply IH|].
  apply Forall_forall. intros y Hy. eapply Forall_forall in Hf; [exact Hf|].
  by apply list_elem_of_fmap_2.
Qed.

Lemma StronglySorted_impl_elem {A} (R1 R2 : relation A) (l : list A) :
  (∀ x y, x ∈ l → y ∈ l → R1 x y → R2 x y) →
  StronglySorted R1 l → StronglySorted R2 l.
Proof.
  intros Himpl Hs. induction Hs as [|x l Hs IH Hf]; constructor.
  - apply IH. intros a b Ha Hb. apply Himpl; by apply list_elem_of_further.
  - apply Forall_forall. intros y Hy. apply Himpl;
      [apply list_elem_of_here|by apply list_elem_of_further|].
    by eapply Forall_forall in Hf.
Qed.

#[global] Instance key_le_trans : Transitive key_le.
Proof. intros [a|] [b|] [c|]; simpl; try done; lia. Qed.

Lemma StronglySorted_lookup {A} (R : relation A) (l : list A) p q a b :
  StronglySorted R l → p < q → l !! p = Some a → l !! q = Some b → R a b.
Proof.
  intros Hs. revert p q. induction Hs as [|x l Hs IH Hf]; intros p q Hpq Hp Hq; [done|].
  destruct q as [|q]; [lia|]. simpl in Hq. destruct p as [|p]; simpl in Hp.
  - injection Hp as ->. eapply Forall_forall in Hf; [done|]. by eapply list_elem_of_lookup_2.
  - eapply (IH p q); [lia|done..].
Qed.

Section SortFacts.
Context `{Pandas}.

(** A series whose dates are strictly ascending is left as it is by
    [sort_values]. *)
Lemma nargsort_ascending (ks : list Z) :
  StronglySorted Z.lt ks → nargsort (DatetimeCol (Some <$> ks)) = seq 0 (length ks).
Proof.
  intros Hasc. set (keys := Some <$> ks). set (idx := nargsort (DatetimeCol keys)).
  assert (idx ≡ₚ seq 0 (length ks)) as Hp.
  { unfold idx. rewrite nargsort_Permutation. simpl. unfold keys. by rewrite length_fmap. }
  apply (StronglySorted_unique le); [|apply StronglySorted_seq|done].
  pose proof (nargsort_Sorted keys) as Hs. fold idx in Hs.
  assert (Forall (λ i, i < length keys) idx) as Hlt.
  { unfold keys. rewrite length_fmap. by apply Permutation_seq_lt. }
  rewrite (take_idx_total None _ _ Hlt) in Hs.
  apply Sorted_StronglySorted in Hs; [|apply _].
  apply StronglySorted_fmap_inv in Hs.
  eapply StronglySorted_impl_elem; [|exact Hs].
  intros i j Hi Hj. simpl.
  eapply Forall_forall in Hi; [|exact Hlt]. eapply Forall_forall in Hj; [|exact Hlt].
  unfold keys in *. rewrite length_fmap in Hi, Hj. rewrite !list_lookup_fmap.
  destruct (lookup_lt_is_Some_2 ks i Hi) as [x Hx].
  destruct (lookup_lt_is_Some_2 ks j Hj) as [y Hy].
  rewrite Hx, Hy. simpl. intros Hxy.
  destruct (decide (i ≤ j)%nat) as [|Hji]; [done|].
  pose proof (StronglySorted_lookup Z.lt ks j i y x Hasc ltac:(lia) Hy Hx). lia.
Qed.

End SortFacts.

(** ** The rate columns *)

(** Membership of a label in a list of literal labels. *)
Ltac labels_in :=
  rewrite ?elem_of_cons; solve [repeat (first [by left | right])].

Ltac labels :=
  repeat match goal with H : _ ∉ _ :: _ |- _ => apply not_elem_of_cons in H as [? ?] end;
  rewrite ?not_elem_of_cons; repeat split; solve [done | apply not_elem_of_nil].

Section RateClaims.
Context `{Pandas}.

Lemma length_shift_list {A} (fill : A) n (xs : list A) :
  length (shift_list fill n xs) = length xs.
Proof. unfold shift_list. rewrite length_take, length_app. lia. Qed.

Lemma shift_list_lookup_lt {A} (fill : A) n (xs : list A) i :
  i < n → i < length xs → shift_list fill n xs !! i = Some fill.
Proof.
  intros Hn Hl. unfold shift_list. rewrite lookup_take_lt by done.
  rewrite lookup_app_l by (by rewrite length_replicate). by apply lookup_replicate_2.
Qed.

Lemma shift_list_lookup_ge {A} (fill : A) n (xs : list A) i :
  i < length xs → shift_list fill n xs !! (n + i) = if decide (n + i < length xs) then xs !! i else None.
Proof.
  intros Hl. unfold shift_list. rewrite lookup_take. destruct (decide _); [|done].
  rewrite <-(length_replicate n fill) at 1. apply lookup_app_plus.
Qed.

Lemma rate_nan_prev x : rate x nan = nan.
Proof.
  apply Prim2SF_inj. rewrite rate_spec. change (Prim2SF nan) with S754_nan.
  by destruct (Prim2SF x).
Qed.

Lemma length_rates n vs : length (rates n vs) = length vs.
Proof. unfold rates. rewrite length_zip_with, length_shift_list. lia. Qed.

(** Before the lag there is nothing to compare with: the rate is NaN. *)
Lemma rates_lookup_lt n vs i x :
  vs !! i = Some x → i < n → rates n vs !! i = Some nan.
Proof.
  intros Hx Hn. unfold rates. rewrite lookup_zip_with, Hx. simpl.
  rewrite shift_list_lookup_lt; [|done|by eapply lookup_lt_Some]. simpl.
  by rewrite rate_nan_prev.
Qed.

(** From the lag on, entry [n + i] compares [vs[n + i]] with [vs[i]]. *)
Lemma rates_lookup_ge n vs i x y :
  vs !! (n + i) = Some x → vs !! i = Some y → rates n vs !! (n + i) = Some (rate x y).
Proof.
  intros Hx Hy. unfold rates. rewrite lookup_zip_with, Hx. simpl.
  rewrite shift_list_lookup_ge by (by eapply lookup_lt_Some).
  rewrite decide_True by (by eapply lookup_lt_Some). by rewrite Hy.
Qed.

Lemma getitem_rates_result (sorted : DataFrame) v label :
  label ∉ ["cpi_prev_month"; "inflation_mom"; "cpi_prev_year"; "inflation_yoy"] →
  getitem (rates_result sorted v) label = getitem sorted label.
Proof.
  intros Hl. unfold rates_result, rates_work.
  rewrite getitem_filter_labels by labels.
  rewrite !getitem_setitem_ne by labels. done.
Qed.

Lemma getitem_rates_result_mom (sorted : DataFrame) v :
  NoDup (names sorted) →
  getitem (rates_result sorted v) "inflation_mom" = Returned (FloatCol (rates 1 v)).
Proof.
  intros Hnd. unfold rates_result, rates_work.
  rewrite getitem_filter_labels by labels.
  rewrite !(getitem_setitem_ne _ _ "inflation_mom") by done.
  by apply getitem_setitem_eq, NoDup_setitem.
Qed.

Lemma getitem_rates_result_yoy (sorted : DataFrame) v :
  NoDup (names sorted) →
  getitem (rates_result sorted v) "inflation_yoy" = Returned (FloatCol (rates 12 v)).
Proof.
  intros Hnd. unfold rates_result, rates_work.
  rewrite getitem_filter_labels by labels.
  by apply getitem_setitem_eq, NoDup_setitem, NoDup_setitem, NoDup_setitem.
Qed.

End RateClaims.

Section RateTheorems.
Context `{Pandas}.

(** C1 (amended).  For every series given to the rate calculator, with
    [value] its cpi values in date order (the values as given, when the
    dates are strictly ascending): [inflation_mom[0]] is NaN, and for
    [i >= 1] [inflation_mom[i]] is the binary64 result of
    [(value[i] - value[i-1]) / value[i-1] * 100].  That result is NaN
    exactly when one of the two values is NaN, or [value[i-1]] is infinite,
    or both values are zero; a zero [value[i-1]] under a non-zero
    [value[i]] gives an infinite rate, which is not null. *)
Theorem inflation_mom_rate (w : world) (df : ref) (frame : DataFrame) dc vs :
  objects w !! df = Some frame →
  NoDup (names frame) →
  getitem frame "date" = Returned dc →
  getitem frame "cpi_value" = Returned (FloatCol vs) →
  ∃ out w' result value mom,
    calculate_inflation_rates df w = (Returned out, w') ∧
    objects w' !! out = Some result ∧
    getitem result "cpi_value" = Returned (FloatCol value) ∧
    value = take_idx (nargsort dc) vs ∧
    (∀ ds, dc = DatetimeCol (Some <$> ds) → StronglySorted Z.lt ds →
           length ds = length vs → value = vs) ∧
    getitem result "inflation_mom" = Returned (FloatCol mom) ∧
    length mom = length value ∧
    (∀ x, value !! 0 = Some x → mom !! 0 = Some nan) ∧
    (∀ i x y, value !! S i = Some x → value !! i = Some y →
       mom !! S i = Some (rate x y) ∧
       isna (rate x y) =
         isna x || isna y || PrimFloat.is_infinity y
         || (PrimFloat.is_zero y && PrimFloat.is_zero x) ∧
       (PrimFloat.is_zero y = true → isna x = false → PrimFloat.is_zero x = false →
        PrimFloat.is_infinity (rate x y) = true)).
Proof.
  intros Hdf Hnd Hdate Hcpi.
  pose proof (calculate_inflation_rates_run w df frame dc vs Hdf Hnd Hdate Hcpi) as Hrun.
  cbv zeta in Hrun.
  set (sorted := take_rows (nargsort dc) frame) in *.
  set (v := take_idx (nargsort dc) vs) in *.
  assert (NoDup (names sorted)) as Hnds by (unfold sorted, take_rows; by rewrite names_rows).
  eexists _, _, (rates_result sorted v), v, (rates 1 v). split_and!.
  - exact Hrun.
  - cbn [objects]. rewrite lookup_app_plus. reflexivity.
  - rewrite getitem_rates_result by labels. unfold sorted. by rewrite getitem_take_rows, Hcpi.
  - done.
  - intros ds -> Hasc Hlen. unfold v. rewrite nargsort_ascending by done.
    rewrite Hlen. apply take_idx_seq.
  - by apply getitem_rates_result_mom.
  - apply length_rates.
  - intros x Hx. apply (rates_lookup_lt 1 v 0 x); [done|lia].
  - intros i x y Hx Hy. split_and!.
    + by apply (rates_lookup_ge 1 v i x y).
    + apply rate_isna.
    + apply rate_zero_prev.
Qed.

(** C2 (amended).  For every series given to the rate calculator, with
    [value] its cpi values in date order (the values as given, when the
    dates are strictly ascending): [inflation_yoy[i]] is NaN for [i < 12],
    and for [i >= 12] it is the binary64 result of
    [(value[i] - value[i-12]) / value[i-12] * 100], twelve rows back.  That
    result is NaN exactly when one of the two values is NaN, or
    [value[i-12]] is infinite, or both values are zero; a zero
    [value[i-12]] under a non-zero [value[i]] gives an infinite rate, which
    is not null. *)
Theorem inflation_yoy_rate (w : world) (df : ref) (frame : DataFrame) dc vs :
  objects w !! df = Some frame →
  NoDup (names frame) →
  getitem frame "date" = Returned dc →
  getitem frame "cpi_value" = Returned (FloatCol vs) →
  ∃ out w' result value yoy,
    calculate_inflation_rates df w = (Returned out, w') ∧
    objects w' !! out = Some result ∧
    getitem result "cpi_value" = Returned (FloatCol value) ∧
    value = take_idx (nargsort dc) vs ∧
    (∀ ds, dc = DatetimeCol (Some <$> ds) → StronglySorted Z.lt ds →
           length ds = length vs → value = vs) ∧
    getitem result "inflation_yoy" = Returned (FloatCol yoy) ∧
    length yoy = length value ∧
    (∀ i x, i < 12 → value !! i = Some x → yoy !! i = Some nan) ∧
    (∀ i x y, value !! (12 + i) = Some x → value !! i = Some y →
       yoy !! (12 + i) = Some (rate x y) ∧
       isna (rate x y) =
         isna x || isna y || PrimFloat.is_infinity y
         || (PrimFloat.is_zero y && PrimFloat.is_zero x) ∧
       (PrimFloat.is_zero y = true → isna x = false → PrimFloat.is_zero x = false →
        PrimFloat.is_infinity (rate x y) = true)).
Proof.
  intros Hdf Hnd Hdate Hcpi.
  pose proof (calculate_inflation_rates_run w df frame dc vs Hdf Hnd Hdate Hcpi) as Hrun.
  cbv zeta in Hrun.
  set (sorted := take_rows (nargsort dc) frame) in *.
  set (v := take_idx (nargsort dc) vs) in *.
  assert (NoDup (names sorted)) as Hnds by (unfold sorted, take_rows; by rewrite names_rows).
  eexists _, _, (rates_result sorted v), v, (rates 12 v). split_and!.
  - exact Hrun.
  - cbn [objects]. rewrite lookup_app_plus. reflexivity.
  - rewrite getitem_rates_result by labels. unfold sorted. by rewrite getitem_take_rows, Hcpi.
  - done.
  - intros ds -> Hasc Hlen. unfold v. rewrite nargsort_ascending by done.
    rewrite Hlen. apply take_idx_seq.
  - by apply getitem_rates_result_yoy.
  - apply length_rates.
  - intros i x Hi Hx. by apply (rates_lookup_lt 12 v i x).
  - intros i x y Hx Hy. split_and!.
    + by apply (rates_lookup_ge 12 v i x y).
    + apply rate_isna.
    + apply rate_zero_prev.
Qed.

End RateTheorems.

Lemma NoDup_date_cpi_value : NoDup ["date"; "cpi_value"].
Proof. repeat constructor; labels. Qed.

(** An instance of C1's theorem: two months, the first value zero. *)
Lemma inflation_mom_rate_witness :
  objects (World [zero_then_one] []) !! 0 = Some zero_then_one ∧
  NoDup (names zero_then_one) ∧
  ∃ out w' result mom,
    calculate_inflation_rates 0 (World [zero_then_one] []) = (Returned out, w') ∧
    objects w' !! out = Some result ∧
    getitem result "inflation_mom" = Returned (FloatCol mom) ∧
    mom !! 0 = Some nan ∧ mom !! 1 = Some (rate 1 0).
Proof.
  split; [reflexivity|]. split; [exact NoDup_date_cpi_value|].
  destruct (inflation_mom_rate (World [zero_then_one] []) 0 zero_then_one _ _
              eq_refl NoDup_date_cpi_value eq_refl eq_refl)
    as (out & w' & result & value & mom & Hrun & Hout & Hval & -> & _ & Hmom & _ & H0 & HS).
  exists out, w', result, mom. split_and!; [done..| |].
  - by apply (H0 0%float).
  - by apply (HS 0 1%float 0%float).
Defined.

(** C1 as stated fails: the value before position 1 is zero, and
    [inflation_mom[1]] is infinity, which is not null. *)
Lemma inflation_mom_zero_prev_counterexample :
  ∃ out w' result,
    calculate_inflation_rates 0 (World [zero_then_one] []) = (Returned out, w') ∧
    objects w' !! out = Some result ∧
    getitem result "cpi_value" = Returned (FloatCol [0; 1]%float) ∧
    getitem result "inflation_mom" = Returned (FloatCol [nan; infinity]) ∧
    PrimFloat.is_zero 0 = true ∧ isna infinity = false.
Proof. eexists _, _, _. split_and!; [vm_compute; reflexivity|reflexivity..]. Qed.

(** An instance of C2's theorem: thirteen months, the first value zero. *)
Lemma inflation_yoy_rate_witness :
  objects (World [zero_then_year] []) !! 0 = Some zero_then_year ∧
  NoDup (names zero_then_year) ∧
  ∃ out w' result yoy,
    calculate_inflation_rates 0 (World [zero_then_year] []) = (Returned out, w') ∧
    objects w' !! out = Some result ∧
    getitem result "inflation_yoy" = Returned (FloatCol yoy) ∧
    yoy !! 11 = Some nan ∧ yoy !! 12 = Some (rate 1 0).
Proof.
  split; [reflexivity|]. split; [exact NoDup_date_cpi_value|].
  destruct (inflation_yoy_rate (World [zero_then_year] []) 0 zero_then_year _ _
              eq_refl NoDup_date_cpi_value eq_refl eq_refl)
    as (out & w' & result & value & yoy & Hrun & Hout & Hval & -> & _ & Hyoy & _ & Hlt & Hge).
  exists out, w', result, yoy. split_and!; [done..| |].
  - apply (Hlt 11 1%float); [lia|by vm_compute].
  - apply (Hge 0 1%float 0%float); by vm_compute.
Defined.

(** C2 as stated fails: the value twelve rows before position 12 is zero,
    and [inflation_yoy[12]] is infinity, which is not null. *)
Lemma inflation_yoy_zero_prev_counterexample :
  ∃ out w' result value yoy,
    calculate_inflation_rates 0 (World [zero_then_year] []) = (Returned out, w') ∧
    objects w' !! out = Some result ∧
    getitem result "cpi_value" = Returned (FloatCol value) ∧
    getitem result "inflation_yoy" = Returned (FloatCol yoy) ∧
    value !! 0 = Some 0%float ∧ yoy !! 12 = Some infinity ∧
    PrimFloat.is_zero 0 = true ∧ isna infinity = false.
Proof. eexists _, _, _, _, _. split_and!; [vm_compute; reflexivity|reflexivity..]. Qed.

Section RateFrame.
Context `{Pandas}.

Lemma nargsort_datetime_Permutation (ds : list (option Z)) :
  take_idx (nargsort (DatetimeCol ds)) ds ≡ₚ ds.
Proof. apply take_idx_Permutation, (nargsort_Permutation (DatetimeCol ds)). Qed.

(** C4 (amended).  The rate calculator checks nothing about its input: for
    every frame with a datetime [date] column and a float [cpi_value]
    column, whatever the order of the dates and whether or not months are
    missing or repeated, it raises no error; it puts the rows in date order
    and returns the rates. *)
Theorem calculate_inflation_rates_no_precondition
    (w : world) (df : ref) (frame : DataFrame) ds vs :
  objects w !! df = Some frame →
  NoDup (names frame) →
  getitem frame "date" = Returned (DatetimeCol ds) →
  getitem frame "cpi_value" = Returned (FloatCol vs) →
  ∃ out w' result ds',
    calculate_inflation_rates df w = (Returned out, w') ∧
    objects w' !! out = Some result ∧
    getitem result "date" = Returned (DatetimeCol ds') ∧
    ds' ≡ₚ ds ∧ Sorted key_le ds' ∧
    getitem result "inflation_mom" = Returned (FloatCol (rates 1 (take_idx (nargsort (DatetimeCol ds)) vs))) ∧
    getitem result "inflation_yoy" = Returned (FloatCol (rates 12 (take_idx (nargsort (DatetimeCol ds)) vs))).
Proof.
  intros Hdf Hnd Hdate Hcpi.
  pose proof (calculate_inflation_rates_run w df frame _ vs Hdf Hnd Hdate Hcpi) as Hrun.
  cbv zeta in Hrun.
  set (sorted := take_rows (nargsort (DatetimeCol ds)) frame) in *.
  set (v := take_idx (nargsort (DatetimeCol ds)) vs) in *.
  assert (NoDup (names sorted)) as Hnds by (unfold sorted, take_rows; by rewrite names_rows).
  eexists _, _, (rates_result sorted v), (take_idx (nargsort (DatetimeCol ds)) ds). split_and!.
  - exact Hrun.
  - cbn [objects]. rewrite lookup_app_plus. reflexivity.
  - rewrite getitem_rates_result by labels. unfold sorted. by rewrite getitem_take_rows, Hdate.
  - apply nargsort_datetime_Permutation.
  - apply nargsort_Sorted.
  - by apply getitem_rates_result_mom.
  - by apply getitem_rates_result_yoy.
Qed.

Lemma names_setitem_inv (t : DataFrame) l c x :
  x ∈ names (setitem t l c) → x ∈ names t ∨ x = l.
Proof.
  rewrite names_setitem. destruct (decide _); [by left|].
  intros [?|?%list_elem_of_singleton]%elem_of_app; auto.
Qed.

Lemma names_rates_result (sorted : DataFrame) v x :
  x ∈ names (rates_result sorted v) →
  x ∈ names sorted ∨ x ∈ ["inflation_mom"; "inflation_yoy"].
Proof.
  unfold rates_result, rates_work, names at 1.
  intros ((k & c) & -> & [Hk Hin]%list_elem_of_filter)%list_elem_of_fmap. simpl in *.
  apply (list_elem_of_fmap_2 fst) in Hin. fold (names (setitem
    (setitem (setitem (setitem sorted "cpi_prev_month" (FloatCol (shift_list nan 1 v)))
      "inflation_mom" (FloatCol (rates 1 v))) "cpi_prev_year" (FloatCol (shift_list nan 12 v)))
      "inflation_yoy" (FloatCol (rates 12 v)))) in Hin. simpl in Hin.
  apply names_setitem_inv in Hin as [Hin| ->]; [|right; labels_in].
  apply names_setitem_inv in Hin as [Hin| ->]; [|exfalso; apply Hk; labels_in].
  apply names_setitem_inv in Hin as [Hin| ->]; [|right; labels_in].
  apply names_setitem_inv in Hin as [Hin| ->]; [|exfalso; apply Hk; labels_in].
  by left.
Qed.

Lemma elem_of_names_setitem (t : DataFrame) l c x :
  x ∈ names (setitem t l c) ↔ x ∈ names t ∨ x = l.
Proof.
  rewrite names_setitem. destruct (decide _) as [Hl|Hl].
  - split; [by left|]. by intros [?| ->].
  - by rewrite elem_of_app, list_elem_of_singleton.
Qed.

Lemma names_filter_labels (t : DataFrame) (labels : list string) :
  names (filter (λ nc : string * column, nc.1 ∉ labels) t)
  = filter (λ n, n ∉ labels) (names t).
Proof.
  unfold names. induction t as [|[k c] t IH]; [done|]. rewrite fmap_cons. cbn [fst].
  destruct (decide (k ∉ labels)).
  - rewrite !filter_cons_True by done. rewrite fmap_cons. cbn [fst]. by rewrite IH.
  - rewrite !filter_cons_False by done. exact IH.
Qed.

(** The labels of the result: those of the frame, the two intermediate
    labels apart, and the two rate labels. *)
Lemma elem_of_names_rates_result (sorted : DataFrame) v x :
  x ∈ names (rates_result sorted v) ↔
  (x ∈ names sorted ∧ x ∉ ["cpi_prev_month"; "cpi_prev_year"]) ∨
  x ∈ ["inflation_mom"; "inflation_yoy"].
Proof.
  unfold rates_result, rates_work.
  rewrite names_filter_labels, list_elem_of_filter, !elem_of_names_setitem.
  split.
  - intros [Hn [[[[Hx| ->]| ->]| ->]| ->]].
    + by left.
    + exfalso. apply Hn. labels_in.
    + right. labels_in.
    + exfalso. apply Hn. labels_in.
    + right. labels_in.
  - intros [[Hin Hn]|Hx]; [split; [done|auto 6]|].
    apply elem_of_cons in Hx as [->|Hx];
      [|apply elem_of_cons in Hx as [->|[]%elem_of_nil]]; (split; [labels|auto 6]).
Qed.



End RateFrame.

(** An instance of C4's theorem: February, then January. *)
Lemma calculate_inflation_rates_no_precondition_witness :
  objects (World [out_of_order] []) !! 0 = Some out_of_order ∧
  NoDup (names out_of_order) ∧
  ∃ out w' result ds',
    calculate_inflation_rates 0 (World [out_of_order] []) = (Returned out, w') ∧
    objects w' !! out = Some result ∧
    getitem result "date" = Returned (DatetimeCol ds') ∧ Sorted key_le ds'.
Proof.
  split; [reflexivity|]. split; [exact NoDup_date_cpi_value|].
  destruct (calculate_inflation_rates_no_precondition (World [out_of_order] []) 0
              out_of_order _ _ eq_refl NoDup_date_cpi_value eq_refl eq_refl)
    as (out & w' & result & ds' & Hrun & Hout & Hdate & _ & Hsorted & _).
  by exists out, w', result, ds'.
Defined.

(** C4 as stated fails: the dates of [out_of_order] are not ascending, and
    the calculator returns a frame instead of raising an error. *)
Lemma non_monotonic_dates_counterexample :
  ¬ Sorted key_le [Some (month_start 2024 2); Some (month_start 2024 1)] ∧
  ∃ out w' result,
    calculate_inflation_rates 0 (World [out_of_order] []) = (Returned out, w') ∧
    objects w' !! out = Some result ∧
    getitem result "inflation_mom" = Returned (FloatCol [nan; 2%float]).
Proof.
  split.
  - intros [_ Hhd]%Sorted_inv. apply HdRel_inv in Hhd. vm_compute in Hhd. done.
  - eexists _, _, _. split_and!; [vm_compute; reflexivity|reflexivity..].
Qed.


(** ** No trend column *)

Section Trend.
Context `{Pandas}.

(** C3 (what the code does).  [calculate_inflation_rates] derives two
    fields and no other: every column of its result is a column of its
    argument or one of [inflation_mom], [inflation_yoy].  For a series of
    the two columns [date] and [cpi_value], which is what the processor
    returns, the result has exactly the four columns [date], [cpi_value],
    [inflation_mom], [inflation_yoy]; there is no [trend_3m], and the
    look-up [df['trend_3m']] that line 81 of [main] makes on the result
    raises [KeyError]. *)
Theorem calculate_inflation_rates_no_trend_3m
    (w : world) (df : ref) (frame : DataFrame) dc vs :
  objects w !! df = Some frame →
  NoDup (names frame) →
  getitem frame "date" = Returned dc →
  getitem frame "cpi_value" = Returned (FloatCol vs) →
  "trend_3m" ∉ names frame →
  ∃ out w' result,
    calculate_inflation_rates df w = (Returned out, w') ∧
    objects w' !! out = Some result ∧
    (∀ label, label ∈ names result →
       label ∈ names frame ∨ label ∈ ["inflation_mom"; "inflation_yoy"]) ∧
    (names frame = ["date"; "cpi_value"] →
     names result = ["date"; "cpi_value"; "inflation_mom"; "inflation_yoy"]) ∧
    ("trend_3m" ∉ names result) ∧
    getitem result "trend_3m" = Raised (KeyError "trend_3m").
Proof.
  intros Hdf Hnd Hdate Hcpi Htrend.
  pose proof (calculate_inflation_rates_run w df frame dc vs Hdf Hnd Hdate Hcpi) as Hrun.
  cbv zeta in Hrun.
  set (sorted := take_rows (nargsort dc) frame) in *.
  set (v := take_idx (nargsort dc) vs) in *.
  assert (names sorted = names frame) as Hnames by (unfold sorted, take_rows; apply names_rows).
  eexists _, _, (rates_result sorted v). split_and!.
  - exact Hrun.
  - cbn [objects]. by rewrite lookup_app_plus.
  - intros label [[Hl _]|Hl]%elem_of_names_rates_result; [left|by right].
    by rewrite <-Hnames.
  - intros Hframe. unfold rates_result, rates_work.
    rewrite names_filter_labels, !names_setitem, Hnames, Hframe. reflexivity.
  - intros [[Hl _]|Hl]%elem_of_names_rates_result.
    + apply Htrend. by rewrite <-Hnames.
    + apply elem_of_cons in Hl as [Hl|Hl]; [done|].
      apply elem_of_cons in Hl as [Hl|Hl]; [done|]. by apply elem_of_nil in Hl.
  - rewrite getitem_rates_result by labels. unfold sorted.
    rewrite getitem_take_rows, getitem_KeyError by done. done.
Qed.

End Trend.

(** The failing input of C3: the rates of the series of [csv_sample] have
    the two rate columns and no [trend_3m]. *)
Lemma calculate_inflation_rates_no_trend_3m_witness :
  ∃ out w' result,
    calculate_inflation_rates 0 (World [csv_sample_series] []) = (Returned out, w') ∧
    objects w' !! out = Some result ∧
    names result = ["date"; "cpi_value"; "inflation_mom"; "inflation_yoy"] ∧
    getitem result "trend_3m" = Raised (KeyError "trend_3m").
Proof.
  destruct (calculate_inflation_rates_no_trend_3m (World [csv_sample_series] []) 0
              csv_sample_series _ _ eq_refl NoDup_date_cpi_value eq_refl eq_refl)
    as (out & w' & result & Hrun & Hresult & _ & Hnames & _ & Htrend).
  { apply (bool_decide_unpack _). vm_compute. exact I. }
  exists out, w', result.
  split_and!; [exact Hrun|exact Hresult|exact (Hnames eq_refl)|exact Htrend].
Defined.

(** ** The temporal integrity stage *)

Section SelectFacts.
Context {A B : Type}.

Lemma select_fmap (f : A → B) (mask : list bool) (l : list A) :
  select mask (f <$> l) = f <$> select mask l.
Proof.
  revert l. induction mask as [|b mask IH]; intros [|x l]; simpl; try done.
  destruct b; simpl; by rewrite IH.
Qed.

Lemma take_idx_fmap (f : A → B) (idx : list nat) (l : list A) :
  take_idx idx (f <$> l) = f <$> take_idx idx l.
Proof.
  unfold take_idx. induction idx as [|i idx IH]; [done|].
  cbn [omap list_omap]. rewrite list_lookup_fmap. destruct (l !! i); simpl; by rewrite IH.
Qed.

Lemma take_idx_lookup (idx : list nat) (l : list A) p :
  Forall (λ i, i < length l) idx →
  take_idx idx l !! p = idx !! p ≫= λ i, l !! i.
Proof.
  intros Hall. revert p. unfold take_idx.
  induction Hall as [|i idx Hi _ IH]; intros p; [done|].
  cbn [omap list_omap]. destruct (lookup_lt_is_Some_2 l i Hi) as [x Hx]. rewrite Hx.
  destruct p as [|p]; simpl; [by rewrite Hx|apply IH].
Qed.

End SelectFacts.

Lemma select_zip {A B} (mask : list bool) (l : list A) (k : list B) :
  select mask (zip l k) = zip (select mask l) (select mask k).
Proof.
  revert l k. induction mask as [|b mask IH]; intros [|x l] [|y k]; simpl; try done.
  - by destruct b, (select mask l).
  - destruct b; simpl; by rewrite IH.
Qed.

Lemma select_valid_candidates (ds : list (option Z)) (vs : list float) :
  length ds = length vs →
  let mask := dropna_mask (length ds) [DatetimeCol ds; FloatCol vs] in
  select mask ds = Some <$> (valid_candidates ds vs).*1 ∧
  select mask vs = (valid_candidates ds vs).*2.
Proof.
  revert vs. induction ds as [|d ds IH]; intros [|v vs] Hlen; try done.
  injection Hlen as Hlen. destruct (IH vs Hlen) as [IH1 IH2].
  unfold valid_candidates. cbn -[isna] in *.
  destruct d as [t|], (isna v); cbn -[isna]; rewrite ?IH1, ?IH2; done.
Qed.

Section KeepFirst.
Implicit Types (seen : list Z) (rows : list (Z * float)).

Lemma select_duplicated seen rows :
  select (negb <$> duplicated_by (λ a b : option Z, bool_decide (a = b))
                     (Some <$> seen) (Some <$> rows.*1)) rows
  = keep_first seen rows.
Proof.
  revert seen. induction rows as [|r rows IH]; intros seen; [done|].
  cbn [fmap list_fmap duplicated_by select keep_first].
  specialize (IH (seen ++ [r.1])). rewrite fmap_app in IH. cbn [fmap list_fmap] in IH.
  assert (existsb (λ b : option Z, bool_decide (Some r.1 = b)) (Some <$> seen)
          = bool_decide (r.1 ∈ seen)) as ->.
  { apply eq_true_iff_eq. rewrite existsb_exists, bool_decide_eq_true. split.
    - intros (b & Hb%list_elem_of_In & Heq%bool_decide_eq_true).
      apply list_elem_of_fmap in Hb as (t & -> & Ht). by injection Heq as ->.
    - intros Hin. exists (Some r.1). split; [|by apply bool_decide_eq_true].
      by apply list_elem_of_In, list_elem_of_fmap_2. }
  destruct (decide (r.1 ∈ seen)).
  - rewrite bool_decide_true by done. exact IH.
  - rewrite bool_decide_false by done. simpl. f_equal. exact IH.
Qed.

Lemma keep_first_elem_of seen rows r :
  r ∈ keep_first seen rows → r ∈ rows ∧ r.1 ∉ seen.
Proof.
  revert seen. induction rows as [|r' rows IH]; intros seen; simpl; [by intros ?%elem_of_nil|].
  assert (r ∈ keep_first (seen ++ [r'.1]) rows → r ∈ r' :: rows ∧ r.1 ∉ seen) as Htail.
  { intros [? Hn]%IH. split; [by apply list_elem_of_further|].
    intros ?. apply Hn, elem_of_app. by left. }
  destruct (decide (r'.1 ∈ seen)); [done|].
  intros [->|?]%elem_of_cons; [|by auto]. split; [apply list_elem_of_here|done].
Qed.

Lemma keep_first_complete seen rows r :
  r ∈ rows → r.1 ∉ seen → r.1 ∈ (keep_first seen rows).*1.
Proof.
  revert seen. induction rows as [|r' rows IH]; intros seen; [by intros ?%elem_of_nil|].
  intros Hin Hseen. simpl.
  destruct (decide (r.1 = r'.1)) as [Heq|Hne].
  - rewrite <-Heq. rewrite decide_False by done. rewrite fmap_cons, Heq. apply list_elem_of_here.
  - apply elem_of_cons in Hin as [->|Hin]; [done|].
    assert (r.1 ∈ (keep_first (seen ++ [r'.1]) rows).*1) as Htail.
    { apply IH; [done|]. rewrite elem_of_app, list_elem_of_singleton. by intros [?|?]. }
    destruct (decide _); [done|]. rewrite fmap_cons. by apply list_elem_of_further.
Qed.

Lemma keep_first_ascending seen rows :
  StronglySorted Z.le (seen ++ rows.*1) → StronglySorted Z.lt (keep_first seen rows).*1.
Proof.
  revert seen. induction rows as [|r rows IH]; intros seen Hs; [constructor|]. simpl.
  assert (StronglySorted Z.lt (keep_first (seen ++ [r.1]) rows).*1) as Htail.
  { apply IH. by rewrite <-(assoc_L (++)). }
  destruct (decide _); [done|]. rewrite fmap_cons. constructor; [done|].
  apply Forall_forall. intros d ((d' & v) & -> & Hin)%list_elem_of_fmap.
  apply keep_first_elem_of in Hin as [Hin Hseen]. cbn [fst] in *.
  apply StronglySorted_app_1_r in Hs. rewrite fmap_cons in Hs.
  apply StronglySorted_inv in Hs as [_ Hle].
  eapply Forall_forall in Hle; [|by apply (list_elem_of_fmap_2 fst _ (d', v))]. simpl in Hle.
  rewrite elem_of_app, list_elem_of_singleton in Hseen.
  destruct (decide (d' = r.1)); [|lia]. exfalso. auto.
Qed.

Lemma keep_first_is_first seen rows d v :
  (d, v) ∈ keep_first seen rows →
  ∃ i, list_find (λ r, r.1 = d) rows = Some (i, (d, v)).
Proof.
  revert seen. induction rows as [|r rows IH]; intros seen; simpl; [by intros ?%elem_of_nil|].
  assert ((d, v) ∈ keep_first (seen ++ [r.1]) rows →
          ∃ i, list_find (λ r, r.1 = d) (r :: rows) = Some (i, (d, v))) as Htail.
  { intros Hin. destruct (IH _ Hin) as [i Hi].
    apply keep_first_elem_of in Hin as [_ Hn]. simpl in Hn.
    rewrite elem_of_app, list_elem_of_singleton in Hn.
    exists (S i). cbn [list_find]. rewrite decide_False by (intros ?; auto).
    by rewrite Hi. }
  destruct (decide _); [done|].
  intros [<-|?]%elem_of_cons; [|by auto].
  exists 0. cbn [list_find]. by rewrite decide_True.
Qed.

End KeepFirst.

Section Integrity.
Context `{Pandas}.

Lemma getitem_date (a b : column) :
  getitem [("date", a); ("cpi_value", b)] "date" = Returned a.
Proof. reflexivity. Qed.

Lemma getitem_cpi_value (a b : column) :
  getitem [("date", a); ("cpi_value", b)] "cpi_value" = Returned b.
Proof. reflexivity. Qed.

Lemma temporal_integrity_stage_run ds vs :
  length ds = length vs →
  let rows1 := valid_candidates ds vs in
  let rows2 := take_idx (nargsort (DatetimeCol (Some <$> rows1.*1))) rows1 in
  let rows3 := keep_first [] rows2 in
  temporal_integrity_stage [("date", DatetimeCol ds); ("cpi_value", FloatCol vs)] =
  Returned [("date", DatetimeCol (Some <$> rows3.*1)); ("cpi_value", FloatCol rows3.*2)].
Proof.
  intros Hlen rows1 rows2 rows3.
  destruct (select_valid_candidates ds vs Hlen) as [Hd Hv]. cbv zeta in Hd, Hv. fold rows1 in Hd, Hv.
  unfold temporal_integrity_stage, dropna.
  cbn [mapM]. rewrite getitem_date, getitem_cpi_value.
  cbn [mbind outcome_bind mret outcome_ret select_rows fmap list_fmap prod_map col_select fst snd id nrows col_len].
  rewrite Hd, Hv.
  unfold sort_values. rewrite getitem_date.
  cbn [mbind outcome_bind take_rows fmap list_fmap prod_map col_take fst snd id].
  set (idx := nargsort (DatetimeCol (Some <$> rows1.*1))) in *.
  rewrite !take_idx_fmap. fold rows2.
  unfold drop_duplicates. rewrite getitem_date.
  cbn [mbind outcome_bind duplicated select_rows fmap list_fmap prod_map col_select fst snd id].
  rewrite !select_fmap.
  change [] with (Some <$> ([] : list Z)) at 1 2.
  rewrite select_duplicated. done.
Qed.

Lemma stable_first (rows : list (Z * float)) d v p :
  stable_nargsort (Some <$> rows.*1) →
  list_find (λ r, r.1 = d) (take_idx (nargsort (DatetimeCol (Some <$> rows.*1))) rows)
    = Some (p, (d, v)) →
  ∃ i, list_find (λ r, r.1 = d) rows = Some (i, (d, v)).
Proof.
  set (ks := Some <$> rows.*1). set (idx := nargsort (DatetimeCol ks)).
  intros Hstable [Hp [_ Hfirst]]%list_find_Some.
  assert (length ks = length rows) as Hlen by (unfold ks; by rewrite !length_fmap).
  assert (idx ≡ₚ seq 0 (length rows)) as Hperm.
  { rewrite <-Hlen. apply (nargsort_Permutation (DatetimeCol ks)). }
  assert (Forall (λ i, i < length rows) idx) as Hlt by (by apply Permutation_seq_lt).
  rewrite (take_idx_lookup _ _ _ Hlt) in Hp.
  destruct (idx !! p) as [i|] eqn:Hi; [simpl in Hp|done].
  exists i. apply list_find_Some. split_and!; [done..|].
  intros j [d' v'] Hj Hji Hd. simpl in Hd. subst d'.
  assert (j ∈ idx) as [q Hq]%list_elem_of_lookup.
  { rewrite Hperm. apply elem_of_seq. apply lookup_lt_Some in Hj. lia. }
  destruct (Nat.lt_total q p) as [Hqp|[->|Hpq]].
  - apply (Hfirst q (d, v')); [|done..]. by rewrite (take_idx_lookup _ _ _ Hlt), Hq.
  - rewrite Hi in Hq. injection Hq as ->. lia.
  - assert (i < j); [|lia]. apply (Hstable p q i j Hpq Hi Hq).
    unfold ks. rewrite !list_lookup_fmap, Hp, Hj. done.
Qed.

Lemma sorted_candidates (rows : list (Z * float)) :
  let sorted := take_idx (nargsort (DatetimeCol (Some <$> rows.*1))) rows in
  sorted ≡ₚ rows ∧ StronglySorted Z.le sorted.*1.
Proof.
  set (ks := Some <$> rows.*1). set (idx := nargsort (DatetimeCol ks)). cbv zeta. split.
  - apply take_idx_Permutation. unfold idx. rewrite (nargsort_Permutation (DatetimeCol ks)).
    simpl. unfold ks. by rewrite !length_fmap.
  - pose proof (nargsort_Sorted ks) as Hs. fold idx in Hs. unfold ks in Hs.
    rewrite !take_idx_fmap in Hs.
    apply Sorted_StronglySorted in Hs; [|apply _].
    apply StronglySorted_fmap_inv in Hs. exact Hs.
Qed.

(** What the stage returns: its dates are those of the valid candidates,
    and its rows are among them. *)
Lemma temporal_integrity_stage_rows (ds : list (option Z)) (vs : list float) :
  length ds = length vs →
  ∃ dates values,
    temporal_integrity_stage [("date", DatetimeCol ds); ("cpi_value", FloatCol vs)]
      = Returned [("date", DatetimeCol (Some <$> dates)); ("cpi_value", FloatCol values)] ∧
    length values = length dates ∧
    (∀ d, d ∈ dates ↔ d ∈ (valid_candidates ds vs).*1) ∧
    (∀ d v, (d, v) ∈ zip dates values → (d, v) ∈ valid_candidates ds vs).
Proof.
  intros Hlen. pose proof (temporal_integrity_stage_run ds vs Hlen) as Hrun. cbv zeta in Hrun.
  destruct (sorted_candidates (valid_candidates ds vs)) as [Hperm _]. cbv zeta in Hperm.
  set (rows1 := valid_candidates ds vs) in *.
  set (rows2 := take_idx _ rows1) in *.
  exists (keep_first [] rows2).*1, (keep_first [] rows2).*2. rewrite zip_fst_snd. split_and!.
  - exact Hrun.
  - by rewrite !length_fmap.
  - intros d. split.
    + intros ((d' & v) & -> & [Hin _]%keep_first_elem_of)%list_elem_of_fmap.
      rewrite Hperm in Hin. by apply (list_elem_of_fmap_2 fst _ (d', v)).
    + intros ((d' & v) & -> & Hin)%list_elem_of_fmap. rewrite <-Hperm in Hin.
      apply (keep_first_complete [] rows2 (d', v) Hin). apply not_elem_of_nil.
  - intros d v [Hin _]%keep_first_elem_of. by rewrite <-Hperm.
Qed.

(** C6 (amended).  For any candidates, the Temporal Integrity Stage returns
    a series strictly ascending by date (timestamp), hence with exactly one
    row per distinct date; its dates are exactly the dates of the candidates
    that have both a date and a value, and each of its rows is one of those
    candidates.  Where the sort keeps equal dates in their input order, the
    row kept for a date is the first candidate of that date. *)
Theorem temporal_integrity_ascending_by_date (ds : list (option Z)) (vs : list float) :
  length ds = length vs →
  ∃ dates values,
    temporal_integrity_stage [("date", DatetimeCol ds); ("cpi_value", FloatCol vs)]
      = Returned [("date", DatetimeCol (Some <$> dates)); ("cpi_value", FloatCol values)] ∧
    length values = length dates ∧
    StronglySorted Z.lt dates ∧
    (∀ d, d ∈ dates ↔ d ∈ (valid_candidates ds vs).*1) ∧
    (∀ d v, (d, v) ∈ zip dates values → (d, v) ∈ valid_candidates ds vs) ∧
    (stable_nargsort (Some <$> (valid_candidates ds vs).*1) →
     ∀ d v, (d, v) ∈ zip dates values →
       ∃ i, list_find (λ r, r.1 = d) (valid_candidates ds vs) = Some (i, (d, v))).
Proof.
  intros Hlen. pose proof (temporal_integrity_stage_run ds vs Hlen) as Hrun. cbv zeta in Hrun.
  set (rows1 := valid_candidates ds vs) in *.
  set (ks := Some <$> rows1.*1) in *.
  set (idx := nargsort (DatetimeCol ks)) in *.
  set (rows2 := take_idx idx rows1) in *.
  set (rows3 := keep_first [] rows2) in *.
  destruct (sorted_candidates rows1) as [Hperm Hsorted]. cbv zeta in Hperm, Hsorted.
  fold ks idx rows2 in Hperm, Hsorted.
  exists rows3.*1, rows3.*2. rewrite zip_fst_snd. split_and!.
  - exact Hrun.
  - by rewrite !length_fmap.
  - by apply (keep_first_ascending [] rows2).
  - intros d. split.
    + intros ((d' & v) & -> & [Hin _]%keep_first_elem_of)%list_elem_of_fmap.
      rewrite Hperm in Hin. by apply (list_elem_of_fmap_2 fst _ (d', v)).
    + intros ((d' & v) & -> & Hin)%list_elem_of_fmap. rewrite <-Hperm in Hin.
      apply (keep_first_complete [] rows2 (d', v) Hin). apply not_elem_of_nil.
  - intros d v [Hin _]%keep_first_elem_of. by rewrite <-Hperm.
  - intros Hstable d v [p Hp]%keep_first_is_first. by apply (stable_first rows1 d v p).
Qed.

End Integrity.

(** ** The reference sort is stable *)

Section Stable.

Lemma insert_by_lex x (s : list (nat * option Z)) :
  StronglySorted lex_le s → Forall (λ y, x.1 < y.1) s →
  StronglySorted lex_le (Reference.insert_by Reference.key_leb x s).
Proof.
  induction 1 as [|y s Hs IH Hy]; intros Hx; simpl.
  - by repeat constructor.
  - apply Forall_cons in Hx as [Hxy Hxs].
    destruct (Reference.key_leb x.2 y.2) eqn:E.
    + apply key_leb_le in E. constructor; [by constructor|].
      constructor; [by split|].
      apply Forall_forall. intros z Hz. split.
      * eapply Forall_forall in Hy; [|done]. destruct Hy as [Hyz _]. by etrans.
      * intros _. by eapply Forall_forall in Hxs.
    + constructor; [by apply IH|].
      rewrite insert_by_Permutation. constructor; [|done].
      split.
      * destruct (key_le_total x.2 y.2) as [Hle%key_leb_le|]; [congruence|done].
      * intros Hle%key_leb_le. congruence.
Qed.

Lemma insertion_sort_lex (l : list (nat * option Z)) :
  StronglySorted lt l.*1 →
  StronglySorted lex_le (foldr (Reference.insert_by Reference.key_leb) [] l).
Proof.
  induction l as [|x l IH]; simpl; [constructor|].
  intros [Hs Hx]%StronglySorted_inv. apply insert_by_lex; [by apply IH|].
  rewrite insertion_sort_Permutation. apply Forall_forall. intros y Hy.
  eapply Forall_forall in Hx; [done|]. by apply list_elem_of_fmap_2.
Qed.

Lemma StronglySorted_seq_lt j n : StronglySorted lt (seq j n).
Proof.
  revert j. induction n as [|n IH]; intros j; simpl; constructor; [apply IH|].
  apply Forall_forall. intros i Hi%elem_of_seq. lia.
Qed.

Lemma key_le_refl k : key_le k k.
Proof. destruct k; simpl; [lia|done]. Qed.

Lemma reference_nargsort_stable (ks : list (option Z)) :
  @stable_nargsort reference_pandas ks.
Proof.
  intros p q i j Hpq Hi Hj Hk. simpl in Hi, Hj. unfold Reference.argsort_by in Hi, Hj.
  set (s := foldr (Reference.insert_by Reference.key_leb) [] (imap pair ks)) in *.
  assert (StronglySorted lex_le s) as Hs.
  { apply insertion_sort_lex. rewrite fmap_imap.
    rewrite (imap_ext _ (λ j _, id j)) by done. rewrite imap_seq_0, list_fmap_id.
    apply StronglySorted_seq_lt. }
  assert (Forall (λ p, ks !! p.1 = Some p.2) s) as Hall.
  { unfold s. rewrite insertion_sort_Permutation. apply imap_pair_lookup. }
  rewrite list_lookup_fmap in Hi, Hj.
  destruct (s !! p) as [[i' ki]|] eqn:Hp; [|done]. injection Hi as ->.
  destruct (s !! q) as [[j' kj]|] eqn:Hq; [|done]. injection Hj as ->.
  pose proof (StronglySorted_lookup _ _ _ _ _ _ Hs Hpq Hp Hq) as [_ Hlt]. simpl in Hlt.
  apply Hlt.
  eapply Forall_forall in Hall as Hi; [|by eapply list_elem_of_lookup_2, Hp].
  eapply Forall_forall in Hall as Hj; [|by eapply list_elem_of_lookup_2, Hq].
  simpl in Hi, Hj. rewrite Hi, Hj in Hk. injection Hk as ->. apply key_le_refl.
Qed.

End Stable.

(** An instance of C6's theorem. *)
Lemma temporal_integrity_ascending_by_date_witness :
  length [Some (month_start 2024 2); Some (month_start 2024 1);
          Some (month_start 2024 1); Some (month_start 2024 3); None]
  = length [102%float; 100%float; 101%float; nan; 103%float] ∧
  ∃ dates values,
    temporal_integrity_stage repeated_month_candidates
      = Returned [("date", DatetimeCol (Some <$> dates)); ("cpi_value", FloatCol values)] ∧
    StronglySorted Z.lt dates.
Proof.
  split; [reflexivity|].
  destruct (temporal_integrity_ascending_by_date
              [Some (month_start 2024 2); Some (month_start 2024 1);
               Some (month_start 2024 1); Some (month_start 2024 3); None]
              [102%float; 100%float; 101%float; nan; 103%float] eq_refl)
    as (dates & values & Hrun & _ & Hsorted & _).
  by exists dates, values.
Defined.

(** With the reference sort, which is stable: January keeps its first value. *)
Example temporal_integrity_repeated_month :
  temporal_integrity_stage repeated_month_candidates
  = Returned [("date", DatetimeCol [Some (month_start 2024 1); Some (month_start 2024 2)]);
              ("cpi_value", FloatCol [100%float; 102%float])].
Proof. vm_compute. reflexivity. Qed.

(** C6 as stated fails: two candidates of the same month on different days
    both survive, so a month has two rows. *)
Lemma same_month_two_rows_counterexample :
  ∃ t1 t2 values,
    temporal_integrity_stage same_month_candidates
      = Returned [("date", DatetimeCol [Some t1; Some t2]); ("cpi_value", FloatCol values)] ∧
    length values = 2 ∧
    (year_of t1, month_of t1) = (2024, 1)%Z ∧ (year_of t2, month_of t2) = (2024, 1)%Z.
Proof. eexists _, _, _. split_and!; [vm_compute; reflexivity|reflexivity..]. Qed.

(** ** The bulk-export mapping *)

Lemma select_nil {A} (mask : list bool) : select mask ([] : list A) = [].
Proof. by destruct mask. Qed.

Lemma select_select {A} (m1 m2 : list bool) (xs : list A) :
  select (select m1 m2) (select m1 xs) = select (zip_with andb m1 m2) xs.
Proof.
  revert m2 xs. induction m1 as [|b m1 IH]; intros [|c m2] [|x xs]; simpl; try done;
    try destruct b; try destruct c; simpl; rewrite ?select_nil, ?IH; done.
Qed.

Lemma col_select_select (m1 m2 : list bool) (c : column) :
  col_select (select m1 m2) (col_select m1 c) = col_select (zip_with andb m1 m2) c.
Proof. destruct c; simpl; by rewrite select_select. Qed.

Lemma length_select {A B} (mask : list bool) (xs : list A) (ys : list B) :
  length xs = length ys → length (select mask xs) = length (select mask ys).
Proof.
  revert xs ys. induction mask as [|b mask IH]; intros [|x xs] [|y ys]; simpl; try done.
  intros [= Hlen]. destruct b; simpl; auto.
Qed.

Lemma col_len_col_select (mask : list bool) (c1 c2 : column) :
  col_len c1 = col_len c2 → col_len (col_select mask c1) = col_len (col_select mask c2).
Proof. destruct c1, c2; simpl; apply length_select. Qed.

Lemma select_all_false {A} (mask : list bool) (xs : list A) :
  Forall (λ b, b = false) mask → select mask xs = [].
Proof.
  intros Hall. revert xs. induction Hall as [|b mask -> _ IH]; intros [|x xs]; simpl; auto.
Qed.

Lemma has_column_getitem (df : DataFrame) n c :
  getitem df n = Returned c → has_column n df = true.
Proof. intros Hc. apply bool_decide_eq_true. by eapply getitem_names. Qed.

Lemma eq_label_select label (m : list bool) (g : string → string) (xs : list (option string)) :
  eq_label label (option_map g <$> select m xs) = select m (eq_label label (option_map g <$> xs)).
Proof. unfold eq_label. by rewrite <-!select_fmap. Qed.

Lemma take_idx_nil {A} (idx : list nat) : take_idx idx ([] : list A) = [].
Proof. unfold take_idx. induction idx as [|i idx IH]; [done|]. exact IH. Qed.

Section Statcan.
Context `{Pandas}.

(** What the last three steps return, in full. *)
Lemma temporal_integrity_stage_series (ds : list (option Z)) (vs : list float) :
  length ds = length vs →
  ∃ dates values,
    temporal_integrity_stage [("date", DatetimeCol ds); ("cpi_value", FloatCol vs)]
      = Returned [("date", DatetimeCol (Some <$> dates)); ("cpi_value", FloatCol values)] ∧
    length values = length dates ∧
    StronglySorted Z.lt dates ∧
    (∀ d, d ∈ dates ↔ d ∈ (valid_candidates ds vs).*1) ∧
    (∀ d v, (d, v) ∈ zip dates values → (d, v) ∈ valid_candidates ds vs) ∧
    (stable_nargsort (Some <$> (valid_candidates ds vs).*1) →
     ∀ d v, (d, v) ∈ zip dates values →
       ∃ i, list_find (λ r, r.1 = d) (valid_candidates ds vs) = Some (i, (d, v))).
Proof.
  intros Hlen. pose proof (temporal_integrity_stage_run ds vs Hlen) as Hrun. cbv zeta in Hrun.
  set (rows1 := valid_candidates ds vs) in *.
  set (rows2 := take_idx (nargsort (DatetimeCol (Some <$> rows1.*1))) rows1) in *.
  set (rows3 := keep_first [] rows2) in *.
  destruct (sorted_candidates rows1) as [Hperm Hsorted]. cbv zeta in Hperm, Hsorted.
  fold rows2 in Hperm, Hsorted.
  exists rows3.*1, rows3.*2. rewrite zip_fst_snd. split_and!.
  - exact Hrun.
  - by rewrite !length_fmap.
  - by apply (keep_first_ascending [] rows2).
  - intros d. split.
    + intros ((d' & v) & -> & [Hin _]%keep_first_elem_of)%list_elem_of_fmap.
      rewrite Hperm in Hin. by apply (list_elem_of_fmap_2 fst _ (d', v)).
    + intros ((d' & v) & -> & Hin)%list_elem_of_fmap. rewrite <-Hperm in Hin.
      apply (keep_first_complete [] rows2 (d', v) Hin). apply not_elem_of_nil.
  - intros d v [Hin _]%keep_first_elem_of. by rewrite <-Hperm.
  - intros Hstable d v [p Hp]%keep_first_is_first. by apply (stable_first rows1 d v p).
Qed.

Lemma process_statcan_run raw_data tbl geo ref_date value mask :
  read_csv raw_data = Returned tbl →
  NoDup (names (standardize tbl)) →
  getitem (standardize tbl) "geo" = Returned (ObjectCol geo) →
  getitem (standardize tbl) "ref_date" = Returned ref_date →
  getitem (standardize tbl) "value" = Returned value →
  selects (standardize tbl) geo mask →
  _process_statcan_inflation raw_data =
  temporal_integrity_stage
    [("date", DatetimeCol (to_datetime_coerce (col_select mask ref_date)));
     ("cpi_value", FloatCol (to_numeric_coerce (col_select mask value)))].
Proof.
  intros Hread Hnd Hgeo Href Hval Hsel. unfold _process_statcan_inflation.
  rewrite Hread. cbn [mbind outcome_bind]. fold (standardize tbl).
  set (df := standardize tbl) in *.
  rewrite (has_column_getitem _ _ _ Hgeo). cbn [negb].
  rewrite Hgeo. cbn [mbind outcome_bind str_map]. fold (geography_mask geo).
  set (m1 := geography_mask geo) in *.
  set (df2 := select_rows m1 df).
  assert (names df2 = names df) as Hnames by apply names_rows.
  assert (NoDup (names df2)) as Hnd2 by (by rewrite Hnames).
  rewrite Hnames.
  assert (∃ df3, (match find (λ col, Str.contains "product" (str_lower col)) (names df) with
           | Some col =>
               cat ← getitem df2 col ≫= str_map str_strip;
               Returned (select_rows (eq_label "All-items" cat) df2)
           | None => Returned df2
           end) = Returned df3 ∧ names df3 = names df ∧
           ∀ n c, getitem df n = Returned c → getitem df3 n = Returned (col_select mask c))
    as (df3 & -> & Hnames3 & Hget3).
  { unfold selects in Hsel. destruct (find _ (names df)) as [col|].
    - destruct Hsel as (cat & Hcat & ->).
      assert (getitem df2 col ≫= str_map str_strip
              = Returned (option_map str_strip <$> select m1 cat)) as ->.
      { unfold df2. by rewrite getitem_select_rows, Hcat. }
      cbn [mbind outcome_bind].
      eexists. split; [done|]. split; [unfold select_rows; by rewrite names_rows|].
      intros n c Hc. unfold df2. rewrite !getitem_select_rows, Hc.
      cbn [fmap outcome_fmap]. f_equal. rewrite eq_label_select. fold (category_mask cat).
      apply col_select_select.
    - subst mask. exists df2. split; [done|]. split; [done|].
      intros n c Hc. unfold df2. by rewrite getitem_select_rows, Hc. }
  cbn [mbind outcome_bind].
  assert (NoDup (names df3)) as Hnd3 by (by rewrite Hnames3).
  rewrite (has_column_getitem _ _ _ (Hget3 _ _ Href)). cbn [negb].
  rewrite (Hget3 _ _ Href). cbn [mbind outcome_bind].
  set (df4 := setitem df3 "date" _).
  assert (getitem df4 "value" = Returned (col_select mask value)) as Hval4.
  { unfold df4. rewrite getitem_setitem_ne by done. by apply Hget3. }
  rewrite (has_column_getitem _ _ _ Hval4). cbn [negb].
  assert (getitem df4 "date"
          = Returned (DatetimeCol (to_datetime_coerce (col_select mask ref_date)))) as ->
    by (by apply getitem_setitem_eq).
  cbn [mbind outcome_bind]. rewrite Hval4. done.
Qed.

Lemma standardize_rectangular raw_data tbl n c :
  read_csv raw_data = Returned tbl →
  getitem (standardize tbl) n = Returned c → col_len c = nrows tbl.
Proof.
  intros Hread Hc%getitem_elem_of. unfold standardize, rename in Hc.
  apply list_elem_of_fmap in Hc as ([n' c'] & [= -> ->] & Hin).
  apply (read_csv_rectangular _ _ Hread (n', c') Hin).
Qed.

Lemma candidates_length raw_data tbl ref_date value mask :
  read_csv raw_data = Returned tbl →
  getitem (standardize tbl) "ref_date" = Returned ref_date →
  getitem (standardize tbl) "value" = Returned value →
  length (to_datetime_coerce (col_select mask ref_date))
  = length (to_numeric_coerce (col_select mask value)).
Proof.
  intros Hread Href Hval. rewrite to_datetime_coerce_length, to_numeric_coerce_length.
  apply col_len_col_select.
  by rewrite (standardize_rectangular _ _ _ _ Hread Href),
             (standardize_rectangular _ _ _ _ Hread Hval).
Qed.

(** The series the mapping returns for a table that has the columns it
    needs: the candidates are the selected rows that have a date and a
    value; the series holds their dates, each once, in ascending order, and
    each of its rows is a candidate (the first of its date, where the sort
    is stable). *)
Lemma process_statcan_series raw_data tbl geo ref_date value mask :
  read_csv raw_data = Returned tbl →
  NoDup (names (standardize tbl)) →
  getitem (standardize tbl) "geo" = Returned (ObjectCol geo) →
  getitem (standardize tbl) "ref_date" = Returned ref_date →
  getitem (standardize tbl) "value" = Returned value →
  selects (standardize tbl) geo mask →
  let candidates :=
    valid_candidates (to_datetime_coerce (col_select mask ref_date))
                     (to_numeric_coerce (col_select mask value)) in
  ∃ dates values,
    _process_statcan_inflation raw_data
      = Returned [("date", DatetimeCol (Some <$> dates)); ("cpi_value", FloatCol values)] ∧
    length values = length dates ∧
    StronglySorted Z.lt dates ∧
    (∀ d, d ∈ dates ↔ d ∈ candidates.*1) ∧
    (∀ d v, (d, v) ∈ zip dates values → (d, v) ∈ candidates) ∧
    (stable_nargsort (Some <$> candidates.*1) →
     ∀ d v, (d, v) ∈ zip dates values →
       ∃ i, list_find (λ r, r.1 = d) candidates = Some (i, (d, v))).
Proof.
  intros Hread Hnd Hgeo Href Hval Hsel candidates.
  rewrite (process_statcan_run _ _ _ _ _ _ Hread Hnd Hgeo Href Hval Hsel).
  apply temporal_integrity_stage_series.
  by apply (candidates_length _ _ _ _ mask Hread Href Hval).
Qed.

(** C5 (amended).  For every bulk-export table with distinct column names
    that has a geography column of strings, a reference-date column and a
    value column, and no column whose name contains [product],
    normalization raises no error.  It applies the geography filter alone:
    the candidates are the rows of the target geography that have a date
    and a value, and the series returned holds exactly their dates, each
    once and in ascending order; each of its rows, date and value, is one
    of the candidates, the first of its date where the sort is stable. *)
Theorem no_product_column_no_filter raw_data tbl geo ref_date value :
  read_csv raw_data = Returned tbl →
  NoDup (names (standardize tbl)) →
  getitem (standardize tbl) "geo" = Returned (ObjectCol geo) →
  getitem (standardize tbl) "ref_date" = Returned ref_date →
  getitem (standardize tbl) "value" = Returned value →
  find (λ col, Str.contains "product" (str_lower col)) (names (standardize tbl)) = None →
  let candidates :=
    valid_candidates (to_datetime_coerce (col_select (geography_mask geo) ref_date))
                     (to_numeric_coerce (col_select (geography_mask geo) value)) in
  ∃ dates values,
    _process_statcan_inflation raw_data
      = Returned [("date", DatetimeCol (Some <$> dates)); ("cpi_value", FloatCol values)] ∧
    length values = length dates ∧
    StronglySorted Z.lt dates ∧
    (∀ d, d ∈ dates ↔ d ∈ candidates.*1) ∧
    (∀ d v, (d, v) ∈ zip dates values → (d, v) ∈ candidates) ∧
    (stable_nargsort (Some <$> candidates.*1) →
     ∀ d v, (d, v) ∈ zip dates values →
       ∃ i, list_find (λ r, r.1 = d) candidates = Some (i, (d, v))).
Proof.
  intros Hread Hnd Hgeo Href Hval Hfind.
  assert (selects (standardize tbl) geo (geography_mask geo)) as Hsel
    by (unfold selects; by rewrite Hfind).
  exact (process_statcan_series _ _ _ _ _ _ Hread Hnd Hgeo Href Hval Hsel).
Qed.

(** Why the geography column must hold strings: on a column of another
    type the [.str] accessor raises. *)
Lemma statcan_geography_not_strings raw_data tbl c :
  read_csv raw_data = Returned tbl →
  getitem (standardize tbl) "geo" = Returned c →
  (∀ geo, c ≠ ObjectCol geo) →
  _process_statcan_inflation raw_data
  = Raised (AttributeError "Can only use .str accessor with string values").
Proof.
  intros Hread Hgeo Hc. unfold _process_statcan_inflation.
  rewrite Hread. cbn [mbind outcome_bind]. fold (standardize tbl).
  rewrite (has_column_getitem _ _ _ Hgeo). cbn [negb]. rewrite Hgeo.
  destruct c as [xs|xs|xs]; [done|done|]. by destruct (Hc xs).
Qed.

(** C7.  When the table has a column whose name contains [product], the
    rows that normalization builds the series from are exactly the rows
    whose geography is the target geography, compared without case, and
    whose trimmed category is the target label: a row whose category is a
    variant of the label is not selected.  The candidates are the selected
    rows that have a date and a value; the series returned holds exactly
    their dates, each once and in ascending order, and each of its rows is
    one of the candidates, the first of its date where the sort is
    stable. *)
Theorem statcan_rows_exact_match raw_data tbl geo ref_date value col cat :
  read_csv raw_data = Returned tbl →
  NoDup (names (standardize tbl)) →
  getitem (standardize tbl) "geo" = Returned (ObjectCol geo) →
  getitem (standardize tbl) "ref_date" = Returned ref_date →
  getitem (standardize tbl) "value" = Returned value →
  find (λ col, Str.contains "product" (str_lower col)) (names (standardize tbl)) = Some col →
  getitem (standardize tbl) col = Returned (ObjectCol cat) →
  ∃ mask dates values,
    let candidates :=
      valid_candidates (to_datetime_coerce (col_select mask ref_date))
                       (to_numeric_coerce (col_select mask value)) in
    (∀ i, mask !! i = Some true ↔
          ∃ g c, geo !! i = Some (Some g) ∧ cat !! i = Some (Some c) ∧
                 str_lower g = "canada" ∧ str_strip c = "All-items") ∧
    _process_statcan_inflation raw_data
      = Returned [("date", DatetimeCol (Some <$> dates)); ("cpi_value", FloatCol values)] ∧
    length values = length dates ∧
    StronglySorted Z.lt dates ∧
    (∀ d, d ∈ dates ↔ d ∈ candidates.*1) ∧
    (∀ d v, (d, v) ∈ zip dates values → (d, v) ∈ candidates) ∧
    (stable_nargsort (Some <$> candidates.*1) →
     ∀ d v, (d, v) ∈ zip dates values →
       ∃ i, list_find (λ r, r.1 = d) candidates = Some (i, (d, v))).
Proof.
  intros Hread Hnd Hgeo Href Hval Hfind Hcat.
  set (mask := zip_with andb (geography_mask geo) (category_mask cat)).
  assert (selects (standardize tbl) geo mask) as Hsel.
  { unfold selects. rewrite Hfind. by exists cat. }
  destruct (process_statcan_series _ _ _ _ _ _ Hread Hnd Hgeo Href Hval Hsel)
    as (dates & values & Hrun & Hlen & Hasc & Hdates & Hrows & Hfirst).
  exists mask, dates, values. cbv zeta. split_and!; [|done..].
  intros i. unfold mask, geography_mask, category_mask, eq_label.
  rewrite lookup_zip_with, !list_lookup_fmap. split.
  - destruct (geo !! i) as [[g|]|] eqn:Eg; simpl; try done;
      destruct (cat !! i) as [[c|]|] eqn:Ec; simpl; try done;
      try (rewrite andb_false_r; done).
    intros [= [Hg Hc]%andb_true_iff].
    apply bool_decide_eq_true in Hg, Hc. injection Hg as Hg. injection Hc as Hc.
    by exists g, c.
  - intros (g & c & -> & -> & Hg & Hc). simpl. rewrite Hg, Hc. done.
Qed.

End Statcan.

(** ** The pipeline's entry point *)

Section Main.
Context `{Pandas}.

Lemma process_inflation_data_statcan (s : string) :
  process_inflation_data (Text s) "statcan" = _process_statcan_inflation s.
Proof. unfold process_inflation_data. by rewrite decide_True. Qed.



End Main.

(** ** The sample tables, run *)

Ltac evaluate := vm_compute; reflexivity.
Ltac decide_by_evaluation := apply (bool_decide_unpack _); vm_compute; exact I.

(** C5 as stated fails: the table has no category column, and
    normalization returns a series of two rows instead of raising. *)
Lemma no_product_column_counterexample :
  (∃ tbl, read_csv csv_no_product = Returned tbl ∧
          Forall (λ col, Str.contains "product" (str_lower col) = false) (names tbl)) ∧
  _process_statcan_inflation csv_no_product
  = Returned [("date", DatetimeCol [Some (month_start 2024 1); Some (month_start 2024 2)]);
              ("cpi_value", FloatCol [158.5%float; 159.25%float])].
Proof.
  split; [|evaluate]. eexists. split; [evaluate|]. by repeat constructor.
Qed.

(** An instance of C5's theorem: the series of [csv_no_product], whose
    rows are rows of the table. *)
Lemma no_product_column_no_filter_witness :
  find (λ col, Str.contains "product" (str_lower col))
       ["geo"; "ref_date"; "value"] = None ∧
  ∃ dates values,
    _process_statcan_inflation csv_no_product
    = Returned [("date", DatetimeCol (Some <$> dates)); ("cpi_value", FloatCol values)] ∧
    dates = [month_start 2024 1; month_start 2024 2] ∧
    values = [158.5%float; 159.25%float] ∧
    ∀ d v, (d, v) ∈ zip dates values →
           (d, v) ∈ [(month_start 2024 1, 158.5%float); (month_start 2024 2, 159.25%float)].
Proof.
  split; [reflexivity|].
  edestruct (no_product_column_no_filter csv_no_product)
    as (dates & values & Hrun & _ & _ & _ & Hrows & _);
    [evaluate|decide_by_evaluation|evaluate|evaluate|evaluate|evaluate|].
  assert (_process_statcan_inflation csv_no_product
          = Returned [("date", DatetimeCol (Some <$> [month_start 2024 1; month_start 2024 2]));
                      ("cpi_value", FloatCol [158.5%float; 159.25%float])]) as Heval
    by evaluate.
  rewrite Hrun in Heval. injection Heval as Hd Hv.
  assert (dates = [month_start 2024 1; month_start 2024 2]) as Hdates.
  { destruct dates as [|d1 [|d2 [|??]]]; simpl in Hd; try discriminate Hd.
    by injection Hd as -> ->. }
  exists dates, values. split_and!; [exact Hrun|exact Hdates|exact Hv|].
  intros d v Hin. apply Hrows in Hin. vm_compute in Hin. exact Hin.
Defined.

(** An instance of C7's theorem: of the four rows of [csv_sample], the
    first and the last are selected, and the series holds their two
    rows. *)
Lemma statcan_rows_exact_match_witness :
  ∃ (mask : list bool) dates values,
    mask !! 0 = Some true ∧ mask !! 1 ≠ Some true ∧ mask !! 2 ≠ Some true ∧
    mask !! 3 = Some true ∧
    _process_statcan_inflation csv_sample
    = Returned [("date", DatetimeCol (Some <$> dates)); ("cpi_value", FloatCol values)] ∧
    dates = [month_start 2024 1; month_start 2024 2] ∧
    values = [158.5%float; 159.25%float].
Proof.
  edestruct (statcan_rows_exact_match csv_sample)
    as (mask & dates & values & Hmask & Hrun & _);
    [evaluate|decide_by_evaluation|evaluate|evaluate|evaluate|evaluate|evaluate|].
  assert (_process_statcan_inflation csv_sample
          = Returned [("date", DatetimeCol (Some <$> [month_start 2024 1; month_start 2024 2]));
                      ("cpi_value", FloatCol [158.5%float; 159.25%float])]) as Heval
    by evaluate.
  rewrite Hrun in Heval. injection Heval as Hd Hv.
  assert (dates = [month_start 2024 1; month_start 2024 2]) as Hdates.
  { destruct dates as [|d1 [|d2 [|??]]]; simpl in Hd; try discriminate Hd.
    by injection Hd as -> ->. }
  exists mask, dates, values. split_and!; [| | | |exact Hrun|exact Hdates|exact Hv].
  - apply Hmask. exists "Canada", "All-items". split_and!; reflexivity.
  - intros (g & c & _ & [= <-] & _ & Hc)%Hmask. vm_compute in Hc. discriminate Hc.
  - intros (g & c & [= <-] & _ & Hg & _)%Hmask. vm_compute in Hg. discriminate Hg.
  - apply Hmask. exists "canada", " All-items ". split_and!; reflexivity.
Defined.

(** The run [csv_sample] gives, evaluated. *)
Example process_csv_sample :
  _process_statcan_inflation csv_sample
  = Returned [("date", DatetimeCol [Some (month_start 2024 1); Some (month_start 2024 2)]);
              ("cpi_value", FloatCol [158.5%float; 159.25%float])].
Proof. evaluate. Qed.

(** A variant of the target label is not selected, whatever [str.strip]
    does outside ASCII: on ASCII text it follows the ASCII rule. *)
Example variant_not_selected `{Pandas} :
  str_strip "All-items excluding food" ≠ "All-items" ∧
  str_strip " All-items " = "All-items" ∧
  str_lower "Canada" = "canada".
Proof. rewrite !str_strip_ascii, str_lower_ascii by reflexivity. by vm_compute. Qed.



(** ** The observation-stream mapping with a missing-value sentinel *)

Section Fred.
Context `{Pandas}.

(** C8 (what the code does).  Whenever [_process_fred_inflation] returns,
    its frame has one row per observation: no observation is dropped,
    whatever its value field holds. *)
Theorem fred_keeps_every_observation raw_data observations df :
  raw_data !! "observations" = Some observations →
  _process_fred_inflation raw_data = Returned df →
  nrows df = length observations ∧
  ∃ dates, getitem df "date" = Returned (DatetimeCol dates) ∧
           length dates = length observations.
Proof.
  intros Hobs. unfold _process_fred_inflation. rewrite Hobs. cbn [default from_option id].
  destruct observations as [|obs observations]; [done|].
  set (data := (λ obs : gmap string string, (obs !! "date", obs !! "value"))
                 <$> obs :: observations).
  assert (DataFrame_of_records data
          = [("date", ObjectCol data.*1); ("cpi_value", ObjectCol data.*2)]) as -> by done.
  rewrite getitem_date. cbn [mbind outcome_bind].
  destruct (to_datetime_raise (ObjectCol data.*1)) as [dates|e] eqn:Hdates; [|done].
  cbn [mbind outcome_bind].
  apply to_datetime_raise_length in Hdates. simpl in Hdates.
  unfold data in Hdates. rewrite !length_fmap in Hdates.
  assert (setitem [("date", ObjectCol data.*1); ("cpi_value", ObjectCol data.*2)]
            "date" (DatetimeCol dates)
          = [("date", DatetimeCol dates); ("cpi_value", ObjectCol data.*2)]) as -> by done.
  rewrite getitem_cpi_value. cbn [mbind outcome_bind].
  intros [= <-]. split; [done|]. by exists dates.
Qed.

End Fred.

(** The failing input of C8, evaluated: the observation of 2024-05-01,
    whose value is the sentinel, is a row of the result, with a NaN value;
    the rate calculator receives it and returns NaN rates around it. *)
Lemma fred_keeps_every_observation_witness :
  fred_payload !! "observations"
  = Some [ {[ "date" := "2024-04-01"; "value" := "313" ]};
           {[ "date" := "2024-05-01"; "value" := "." ]} ] ∧
  process_inflation_data (Json fred_payload) "fred"
  = Returned [("date", DatetimeCol [Some (month_start 2024 4); Some (month_start 2024 5)]);
              ("cpi_value", FloatCol [313%float; nan])] ∧
  ∃ df, _process_fred_inflation fred_payload = Returned df ∧ nrows df = 2.
Proof.
  split; [reflexivity|]. split; [vm_compute; reflexivity|].
  eexists. split; [vm_compute; reflexivity|].
  edestruct (fred_keeps_every_observation fred_payload) as [Hrows _];
    [reflexivity|vm_compute; reflexivity|].
  exact Hrows.
Defined.

(** The frame of the failing input, given to the rate calculator: the row
    of 2024-05-01 is there, and its rate is NaN. *)
Example fred_sentinel_reaches_rates :
  ∃ out w' result,
    calculate_inflation_rates 0
      (World [[("date", DatetimeCol [Some (month_start 2024 4); Some (month_start 2024 5)]);
               ("cpi_value", FloatCol [313%float; nan])]] [])
    = (Returned out, w') ∧
    objects w' !! out = Some result ∧
    getitem result "date"
    = Returned (DatetimeCol [Some (month_start 2024 4); Some (month_start 2024 5)]) ∧
    getitem result "cpi_value" = Returned (FloatCol [313%float; nan]) ∧
    getitem result "inflation_mom" = Returned (FloatCol [nan; nan]).
Proof. eexists _, _, _. split_and!; [vm_compute; reflexivity|reflexivity..]. Qed.

(** * Further properties of the code *)

(** ** The download of the table, [fetch_statcan_data] *)

Lemma endswith_spec suffix s : endswith suffix s = true ↔ ∃ stem, s = stem +:+ suffix.
Proof.
  induction s as [|a s IH]; cbn [endswith].
  - rewrite orb_false_r, bool_decide_eq_true. split.
    + intros <-. by exists "".
    + intros [[|??] Heq]; simpl in Heq; [done|discriminate].
  - rewrite orb_true_iff, bool_decide_eq_true, IH. split.
    + intros [<-|[stem ->]]; [by exists ""|]. by exists (String a stem).
    + intros [[|b stem] Heq]; simpl in Heq; [by left|].
      injection Heq as -> ->. right. by exists stem.
Qed.

Lemma is_table_csv_spec f : is_table_csv f = true ↔ table_name f.
Proof.
  unfold is_table_csv, table_name.
  rewrite andb_true_iff, negb_true_iff, <-not_true_iff_false, !endswith_spec. done.
Qed.

Lemma filter_table_first (before after : list string) name :
  Forall (λ f, ¬ table_name f) before → table_name name →
  filter (λ f, is_table_csv f = true) (before ++ name :: after)
  = name :: filter (λ f, is_table_csv f = true) after.
Proof.
  intros Hb Hn. rewrite filter_app, filter_cons_True by (by apply is_table_csv_spec).
  assert (filter (λ f, is_table_csv f = true) before = []) as ->; [|done].
  induction Hb as [|f before Hf _ IH]; [done|].
  rewrite filter_cons_False; [done|]. by rewrite is_table_csv_spec.
Qed.

Lemma filter_table_none (z : list string) :
  Forall (λ f, ¬ table_name f) z → filter (λ f, is_table_csv f = true) z = [].
Proof.
  induction 1 as [|f z Hf _ IH]; [done|].
  rewrite filter_cons_False; [done|]. by rewrite is_table_csv_spec.
Qed.

(** Reading a name gives the data of the entry of that name that has no
    entry of the same name after it. *)
Lemma zip_read_last (before after : list (string * (fetch_error + string))) name data :
  name ∉ after.*1 → zip_read (before ++ (name, data) :: after) name = data.
Proof.
  intros Hn. unfold zip_read. rewrite filter_app, filter_cons_True by done.
  assert (filter (λ e : string * (fetch_error + string), e.1 = name) after = []) as ->.
  { induction after as [|[k d] after IH]; [done|].
    rewrite fmap_cons, not_elem_of_cons in Hn. destruct Hn as [Hk Hn].
    simpl in Hk. rewrite filter_cons_False by (simpl; intros ->; done). auto. }
  by rewrite last_snoc.
Qed.

(** Reading a name of the archive gives what an entry of that name holds. *)
Lemma zip_read_elem_of (z : list (string * (fetch_error + string))) name :
  name ∈ z.*1 → (name, zip_read z name) ∈ z.
Proof.
  intros ((k & d) & -> & Hin)%list_elem_of_fmap. unfold zip_read. simpl.
  assert ((k, d) ∈ filter (λ e : string * (fetch_error + string), e.1 = k) z) as Hf
    by (by apply list_elem_of_filter).
  destruct (filter _ z) as [|e l] eqn:E using rev_ind; [by apply elem_of_nil in Hf|].
  rewrite last_snoc.
  assert (e ∈ filter (λ e : string * (fetch_error + string), e.1 = k) z) as He.
  { rewrite E. apply elem_of_app. right. apply list_elem_of_here. }
  apply list_elem_of_filter in He as [Hk He]. destruct e as [k' d']. simpl in *. by subst.
Qed.

(** What the function does once both requests are answered. *)
Lemma fetch_statcan_data_answered www base_url product_id language download_url body :
  answers www (table_url base_url product_id language) download_url body →
  fetch_statcan_data_from www base_url product_id language =
  ([(table_url base_url product_id language, 30%Z); (download_url, 60%Z)],
   match unzip www body with
   | inl e => inl e
   | inr z =>
       match filter (λ f, is_table_csv f = true) z.*1 with
       | [] => inl (FetchValueError "No CSV file found in ZIP archive")
       | csv_file :: _ =>
           match zip_read z csv_file with
           | inl e => inl e
           | inr data => decode_utf8 www data
           end
       end
   end).
Proof.
  intros (meta & fields & zr & Hmeta & Hok & Hjson & Hobj & Hzip & Hok2 & <-).
  unfold fetch_statcan_data_from, requests_get, net_lift.
  cbn [mbind net_bind]. rewrite Hmeta, Hok, Hjson, Hobj. cbn [mbind net_bind app].
  rewrite Hzip, Hok2. cbn [app].
  destruct (unzip www (content zr)) as [e|z]; [done|]. cbn [app].
  destruct (filter _ z.*1) as [|csv_file ?]; [done|]. cbn [mbind net_bind].
  by destruct (zip_read z csv_file).
Qed.

(** X1.  When both requests are answered and the body is an archive, the
    function makes exactly two calls of [requests.get], the table address
    with a timeout of 30 and the address the first answer gave with a
    timeout of 60.  It takes the name of the first entry, in archive order,
    whose name ends in [.csv] and not in [_MetaData.csv] (entries before
    it, such as the metadata file, are passed over), and returns the
    decoded data of the entry [zipfile] opens under that name, which is the
    last entry that bears it: the first such entry itself when no later
    entry repeats its name (or the error that reading or decoding the
    entry raises). *)
Theorem fetch_statcan_data_first_table www base_url product_id language
    download_url body z before name after pre data post :
  answers www (table_url base_url product_id language) download_url body →
  unzip www body = inr z →
  z.*1 = before ++ name :: after →
  Forall (λ f, ¬ table_name f) before →
  table_name name →
  z = pre ++ (name, data) :: post →
  name ∉ post.*1 →
  fetch_statcan_data_from www base_url product_id language =
  ([(table_url base_url product_id language, 30%Z); (download_url, 60%Z)],
   match data with inl e => inl e | inr bytes => decode_utf8 www bytes end).
Proof.
  intros Hans Hzip Hnames Hbefore Hname Hentry Hlast.
  rewrite (fetch_statcan_data_answered _ _ _ _ _ _ Hans), Hzip, Hnames.
  rewrite filter_table_first by done.
  by rewrite Hentry, zip_read_last.
Qed.

(** X2.  When both requests are answered and no entry of the archive has a
    name that ends in [.csv] and not in [_MetaData.csv] (an empty archive,
    or one that holds the metadata file only), the function raises
    [ValueError: No CSV file found in ZIP archive], after its two calls. *)
Theorem fetch_statcan_data_no_table www base_url product_id language download_url body z :
  answers www (table_url base_url product_id language) download_url body →
  unzip www body = inr z →
  Forall (λ e, ¬ table_name e.1) z →
  fetch_statcan_data_from www base_url product_id language =
  ([(table_url base_url product_id language, 30%Z); (download_url, 60%Z)],
   inl (FetchValueError "No CSV file found in ZIP archive")).
Proof.
  intros Hans Hzip Hnone. rewrite (fetch_statcan_data_answered _ _ _ _ _ _ Hans), Hzip.
  rewrite filter_table_none; [done|]. by apply Forall_fmap.
Qed.

(** X3.  Whatever the server answers, the function calls [requests.get]
    once or twice and never again: first the table address with a timeout
    of 30; then, only when that answer has no error status and is a JSON
    object with a field [object], the address in that field with a timeout
    of 60.  No request is repeated after a failure. *)
Theorem fetch_statcan_data_requests www base_url product_id language :
  let url := table_url base_url product_id language in
  let sent := (fetch_statcan_data_from www base_url product_id language).1 in
  sent = [(url, 30%Z)] ∨
  ∃ meta fields download_url,
    server www url 30 = inr meta ∧ raise_for_status meta = inr () ∧
    json meta = inr (JObject fields) ∧ fields !! "object" = Some download_url ∧
    sent = [(url, 30%Z); (download_url, 60%Z)].
Proof.
  cbv zeta. unfold fetch_statcan_data_from, requests_get, net_lift.
  cbn [mbind net_bind].
  destruct (server www _ 30) as [e|meta] eqn:Hmeta; [by left|].
  destruct (raise_for_status meta) as [e|[]] eqn:Hok; [by left|].
  destruct (json meta) as [e|[fields|]] eqn:Hjson; [by left| |by left].
  destruct (fields !! "object") as [download_url|] eqn:Hobj; [|by left].
  right. exists meta, fields, download_url. split_and!; [done..|].
  cbn [mbind net_bind app].
  destruct (server www download_url 60) as [e|zr]; [done|].
  destruct (raise_for_status zr) as [e|[]]; [done|].
  destruct (unzip www (content zr)) as [e|z]; [done|]. cbn [app].
  destruct (filter _ z.*1) as [|csv_file ?]; [done|]. cbn [mbind net_bind].
  by destruct (zip_read z csv_file).
Qed.

(** X4.  Whenever the function returns a text, both requests were answered
    and the text is the decoded data of an entry of the downloaded archive
    whose name ends in [.csv] and not in [_MetaData.csv]: the metadata file
    is never what is returned. *)
Theorem fetch_statcan_data_returns www base_url product_id language sent csv :
  fetch_statcan_data_from www base_url product_id language = (sent, inr csv) →
  ∃ download_url body z name bytes,
    answers www (table_url base_url product_id language) download_url body ∧
    sent = [(table_url base_url product_id language, 30%Z); (download_url, 60%Z)] ∧
    unzip www body = inr z ∧
    (name, inr bytes) ∈ z ∧ table_name name ∧
    decode_utf8 www bytes = inr csv.
Proof.
  intros Hrun.
  assert (∃ download_url body,
            answers www (table_url base_url product_id language) download_url body)
    as (download_url & body & Hans).
  { revert Hrun. unfold fetch_statcan_data_from, requests_get, net_lift, answers.
    cbn [mbind net_bind].
    destruct (server www _ 30) as [e|meta] eqn:Hmeta; [done|].
    destruct (raise_for_status meta) as [e|[]] eqn:Hok; [done|].
    destruct (json meta) as [e|[fields|]] eqn:Hjson; [done| |done].
    destruct (fields !! "object") as [download_url|] eqn:Hobj; [|done].
    cbn [mbind net_bind app].
    destruct (server www download_url 60) as [e|zr] eqn:Hzip; [done|].
    destruct (raise_for_status zr) as [e|[]] eqn:Hok2; [done|].
    intros _. exists download_url, (content zr), meta, fields, zr. done. }
  rewrite (fetch_statcan_data_answered _ _ _ _ _ _ Hans) in Hrun.
  destruct (unzip www body) as [e|z] eqn:Hzip; [by injection Hrun|].
  destruct (filter _ z.*1) as [|csv_file rest] eqn:Hfilter; [by injection Hrun|].
  destruct (zip_read z csv_file) as [e|bytes] eqn:Hread; [by injection Hrun|].
  injection Hrun as <- Hdec.
  assert (csv_file ∈ filter (λ f, is_table_csv f = true) z.*1) as Hin
    by (rewrite Hfilter; apply list_elem_of_here).
  apply list_elem_of_filter in Hin as [Htable Hin].
  exists download_url, body, z, csv_file, bytes. split_and!; try done.
  - rewrite <-Hread. by apply zip_read_elem_of.
  - by apply is_table_csv_spec.
Qed.

Lemma sample_web_answers entries :
  answers (sample_web entries)
    (table_url "https://www150.statcan.gc.ca/t1/wds/rest" "18100004" "en")
    "https://www150.statcan.gc.ca/n1/tbl/csv/18100004-eng.zip" "PK".
Proof. eexists _, _, _. split_and!; reflexivity. Qed.

(** An instance of X1: the metadata file comes first in the archive, and
    the name of the table is borne by two entries; the data of the second
    is what is returned. *)
Lemma fetch_statcan_data_first_table_witness :
  fetch_statcan_data_from
    (sample_web [("18100004_MetaData.csv", inr "Cube Title");
                 ("18100004.csv", inr "GEO"); ("18100004.csv", inr csv_sample)])
    "https://www150.statcan.gc.ca/t1/wds/rest" "18100004" "en"
  = ([(table_url "https://www150.statcan.gc.ca/t1/wds/rest" "18100004" "en", 30%Z);
      ("https://www150.statcan.gc.ca/n1/tbl/csv/18100004-eng.zip", 60%Z)],
     inr csv_sample).
Proof.
  apply (fetch_statcan_data_first_table
           (sample_web [("18100004_MetaData.csv", inr "Cube Title");
                        ("18100004.csv", inr "GEO"); ("18100004.csv", inr csv_sample)])
           "https://www150.statcan.gc.ca/t1/wds/rest" "18100004" "en"
           "https://www150.statcan.gc.ca/n1/tbl/csv/18100004-eng.zip" "PK"
           [("18100004_MetaData.csv", inr "Cube Title");
            ("18100004.csv", inr "GEO"); ("18100004.csv", inr csv_sample)]
           ["18100004_MetaData.csv"] "18100004.csv" ["18100004.csv"]
           [("18100004_MetaData.csv", inr "Cube Title"); ("18100004.csv", inr "GEO")]
           (inr csv_sample) []).
  - apply sample_web_answers.
  - reflexivity.
  - reflexivity.
  - repeat constructor. rewrite <-is_table_csv_spec. vm_compute. discriminate.
  - apply is_table_csv_spec. vm_compute. reflexivity.
  - reflexivity.
  - apply not_elem_of_nil.
Defined.

(** An instance of X2: the archive holds the metadata file only. *)
Lemma fetch_statcan_data_no_table_witness :
  fetch_statcan_data_from
    (sample_web [("18100004_MetaData.csv", inr "Cube Title")])
    "https://www150.statcan.gc.ca/t1/wds/rest" "18100004" "en"
  = ([(table_url "https://www150.statcan.gc.ca/t1/wds/rest" "18100004" "en", 30%Z);
      ("https://www150.statcan.gc.ca/n1/tbl/csv/18100004-eng.zip", 60%Z)],
     inl (FetchValueError "No CSV file found in ZIP archive")).
Proof.
  apply (fetch_statcan_data_no_table
           (sample_web [("18100004_MetaData.csv", inr "Cube Title")])
           "https://www150.statcan.gc.ca/t1/wds/rest" "18100004" "en"
           "https://www150.statcan.gc.ca/n1/tbl/csv/18100004-eng.zip" "PK"
           [("18100004_MetaData.csv", inr "Cube Title")]).
  - apply sample_web_answers.
  - reflexivity.
  - repeat constructor. rewrite <-is_table_csv_spec. vm_compute. discriminate.
Defined.

(** An instance of X4. *)
Lemma fetch_statcan_data_returns_witness :
  ∃ name bytes,
    (name, inr bytes) ∈ [("18100004_MetaData.csv", inr "Cube Title" : fetch_error + string);
                         ("18100004.csv", inr csv_sample)] ∧
    table_name name ∧ bytes = csv_sample.
Proof.
  edestruct (fetch_statcan_data_returns
               (sample_web [("18100004_MetaData.csv", inr "Cube Title");
                            ("18100004.csv", inr csv_sample)])
               "https://www150.statcan.gc.ca/t1/wds/rest" "18100004" "en")
    as (download_url & body & z & name & bytes & _ & _ & Hzip & Hin & Hname & Hdec);
    [vm_compute; reflexivity|].
  exists name, bytes. injection Hdec as ->.
  assert (body = "PK") as ->.
  { revert Hzip. unfold sample_web, unzip. by destruct (decide (body = "PK")). }
  injection Hzip as <-. split_and!; [exact Hin|exact Hname|reflexivity].
Defined.

(** ** The series the bulk-export mapping returns *)

Lemma getitem_setitem_inv (df : DataFrame) n c c' :
  getitem (setitem df n c) n = Returned c' → c' = c.
Proof.
  pose proof (elem_of_setitem df n c) as Hin. unfold getitem.
  destruct (filter _ (setitem df n c)) as [|[k d] [|??]] eqn:E; try done.
  intros [= ->].
  assert ((n, c) ∈ filter (λ nc : string * column, nc.1 = n) (setitem df n c)) as Hf
    by (by apply list_elem_of_filter).
  rewrite E in Hf. apply list_elem_of_singleton in Hf. by injection Hf.
Qed.

Lemma rectangular_select_rows mask (df : DataFrame) :
  rectangular df → rectangular (select_rows mask df).
Proof.
  intros Hr [n c] [n' c'] ([m d] & [= -> ->] & Hin)%list_elem_of_fmap
    ([m' d'] & [= -> ->] & Hin')%list_elem_of_fmap.
  simpl. apply col_len_col_select. apply (Hr _ _ Hin Hin').
Qed.

Lemma valid_candidates_elem_of ds vs d v :
  (d, v) ∈ valid_candidates ds vs → isna v = false.
Proof.
  unfold valid_candidates. intros ([d' v'] & _ & Hsome)%list_elem_of_omap.
  cbn [fst snd] in Hsome. destruct (isna v') eqn:E; [done|].
  destruct d'; simpl in Hsome; [|done]. by injection Hsome as <- <-.
Qed.

Lemma valid_candidates_all (dates : list Z) (values : list float) :
  length dates = length values → Forall (λ v, isna v = false) values →
  valid_candidates (Some <$> dates) values = zip dates values.
Proof.
  revert values. induction dates as [|d dates IH]; intros [|v values] Hlen Hall; try done.
  injection Hlen as Hlen. apply Forall_cons in Hall as [Hv Hall].
  unfold valid_candidates in *. cbn -[isna]. rewrite Hv. cbn -[isna]. f_equal. by apply IH.
Qed.

Lemma keep_first_NoDup seen (rows : list (Z * float)) :
  NoDup (seen ++ rows.*1) → keep_first seen rows = rows.
Proof.
  revert seen. induction rows as [|r rows IH]; intros seen Hnd; [done|]. simpl.
  rewrite fmap_cons in Hnd.
  assert (r.1 ∉ seen) as Hr.
  { apply NoDup_app in Hnd as (_ & Hdisj & _). intros Hin. apply (Hdisj _ Hin), list_elem_of_here. }
  rewrite decide_False by done. f_equal. apply IH.
  by rewrite <-(assoc_L (++)).
Qed.

Lemma StronglySorted_lt_NoDup (l : list Z) : StronglySorted Z.lt l → NoDup l.
Proof.
  induction 1 as [|x l _ IH Hall]; constructor; [|done].
  intros Hin. eapply Forall_forall in Hall; [|done]. lia.
Qed.

Lemma take_rows_seq (dates : list (option Z)) (values : list float) :
  length dates = length values →
  take_rows (seq 0 (length dates))
    [("date", DatetimeCol dates); ("cpi_value", FloatCol values)]
  = [("date", DatetimeCol dates); ("cpi_value", FloatCol values)].
Proof.
  intros Hlen. unfold take_rows. cbn [fmap list_fmap prod_map col_take fst snd id].
  rewrite take_idx_seq, Hlen, take_idx_seq. done.
Qed.

Lemma rates_result_series (dc : column) (values : list float) :
  rates_result [("date", dc); ("cpi_value", FloatCol values)] values
  = [("date", dc); ("cpi_value", FloatCol values);
     ("inflation_mom", FloatCol (rates 1 values));
     ("inflation_yoy", FloatCol (rates 12 values))].
Proof. reflexivity. Qed.

Section Series.
Context `{Pandas}.

(** What the bulk-export mapping hands to its last three steps, whenever
    it returns. *)
Lemma process_statcan_stage raw_data out :
  _process_statcan_inflation raw_data = Returned out →
  ∃ tbl ds vs,
    read_csv raw_data = Returned tbl ∧
    "geo" ∈ names (standardize tbl) ∧ "ref_date" ∈ names (standardize tbl) ∧
    "value" ∈ names (standardize tbl) ∧
    length ds = length vs ∧
    temporal_integrity_stage [("date", DatetimeCol ds); ("cpi_value", FloatCol vs)]
      = Returned out.
Proof.
  unfold _process_statcan_inflation.
  destruct (read_csv raw_data) as [tbl|] eqn:Hread; [|done]. cbn [mbind outcome_bind].
  fold (standardize tbl). set (df := standardize tbl).
  assert (rectangular df) as Hrect.
  { intros [n c] [n' c'] ([m d] & [= -> ->] & Hin)%list_elem_of_fmap
      ([m' d'] & [= -> ->] & Hin')%list_elem_of_fmap. simpl.
    etrans; [apply (read_csv_rectangular _ _ Hread (m, d) Hin)|].
    symmetry. apply (read_csv_rectangular _ _ Hread (m', d') Hin'). }
  destruct (has_column "geo" df) eqn:Hgeo; [|done]. cbn [negb].
  apply bool_decide_eq_true in Hgeo.
  destruct (getitem df "geo") as [[| |geo]|]; try done. cbn [mbind outcome_bind str_map].
  set (df2 := select_rows _ df).
  assert (names df2 = names df) as Hn2 by apply names_rows.
  assert (rectangular df2) as Hrect2 by (by apply rectangular_select_rows).
  set (product_col := find _ (names df2)).
  intros Hrun.
  assert (∃ df3, names df3 = names df ∧ rectangular df3 ∧
    (if negb (has_column "ref_date" df3)
     then Raised (ValueError "REF_DATE column not found in data")
     else ref_date ← getitem df3 "ref_date";
          let df := setitem df3 "date" (DatetimeCol (to_datetime_coerce ref_date)) in
          if negb (has_column "value" df)
          then Raised (ValueError "VALUE column not found in data")
          else date ← getitem df "date";
               value ← getitem df "value";
               temporal_integrity_stage
                 [("date", date); ("cpi_value", FloatCol (to_numeric_coerce value))])
    = Returned out) as (df3 & Hn3 & Hrect3 & Hrest).
  { destruct product_col as [col|].
    - destruct (getitem df2 col) as [[| |cat]|]; try done.
      cbn [mbind outcome_bind str_map] in Hrun.
      eexists. split_and!; [|apply rectangular_select_rows, Hrect2|exact Hrun].
      unfold select_rows. by rewrite names_rows.
    - by exists df2. }
  clear Hrun.
  destruct (has_column "ref_date" df3) eqn:Href; [|done]. cbn [negb] in Hrest.
  apply bool_decide_eq_true in Href. rewrite Hn3 in Href.
  destruct (getitem df3 "ref_date") as [ref_date|] eqn:Hrd; [|done].
  cbn [mbind outcome_bind] in Hrest. cbv zeta in Hrest.
  destruct (has_column "value" (setitem df3 "date" _)) eqn:Hval; [|done].
  cbn [negb] in Hrest.
  destruct (getitem (setitem df3 "date" _) "date") as [date|] eqn:Hdate; [|done].
  apply getitem_setitem_inv in Hdate as ->.
  rewrite getitem_setitem_ne in Hrest by done.
  destruct (getitem df3 "value") as [value|] eqn:Hv; [|done].
  cbn [mbind outcome_bind] in Hrest.
  exists tbl, (to_datetime_coerce ref_date), (to_numeric_coerce value).
  split_and!; [done|done|done| | |done].
  - unfold df in Hn3. rewrite <-Hn3. by eapply getitem_names.
  - rewrite to_datetime_coerce_length, to_numeric_coerce_length.
    apply (Hrect3 ("ref_date", ref_date) ("value", value)); by apply getitem_elem_of.
Qed.

(** What the last three steps return. *)
Lemma temporal_integrity_stage_canonical ds vs out :
  length ds = length vs →
  temporal_integrity_stage [("date", DatetimeCol ds); ("cpi_value", FloatCol vs)]
    = Returned out →
  ∃ dates values,
    out = [("date", DatetimeCol (Some <$> dates)); ("cpi_value", FloatCol values)] ∧
    length dates = length values ∧
    StronglySorted Z.lt dates ∧
    Forall (λ v, isna v = false) values.
Proof.
  intros Hlen. rewrite (temporal_integrity_stage_run ds vs Hlen). cbv zeta.
  destruct (sorted_candidates (valid_candidates ds vs)) as [Hperm Hsorted].
  cbv zeta in Hperm, Hsorted.
  set (rows2 := take_idx _ (valid_candidates ds vs)) in *.
  intros [= <-]. exists (keep_first [] rows2).*1, (keep_first [] rows2).*2.
  split_and!; [done|by rewrite !length_fmap|by apply (keep_first_ascending [] rows2)|].
  apply Forall_forall. intros v ([d v'] & -> & [Hin _]%keep_first_elem_of)%list_elem_of_fmap.
  rewrite Hperm in Hin. by eapply valid_candidates_elem_of.
Qed.

(** A series with strictly ascending dates and no missing value goes
    through the three steps unchanged. *)
Lemma temporal_integrity_stage_fixed (dates : list Z) (values : list float) :
  length dates = length values →
  StronglySorted Z.lt dates →
  Forall (λ v, isna v = false) values →
  temporal_integrity_stage
    [("date", DatetimeCol (Some <$> dates)); ("cpi_value", FloatCol values)]
  = Returned [("date", DatetimeCol (Some <$> dates)); ("cpi_value", FloatCol values)].
Proof.
  intros Hlen Hasc Hval.
  rewrite temporal_integrity_stage_run by (by rewrite length_fmap). cbv zeta.
  rewrite (valid_candidates_all _ _ Hlen Hval).
  rewrite fst_zip by lia.
  rewrite (nargsort_ascending dates Hasc).
  replace (length dates) with (length (zip dates values))
    by (rewrite length_zip_with; lia).
  rewrite take_idx_seq.
  rewrite keep_first_NoDup by (simpl; rewrite fst_zip by lia; by apply StronglySorted_lt_NoDup).
  by rewrite fst_zip, snd_zip by lia.
Qed.

(** X5.  Whatever text it is given, when [_process_statcan_inflation]
    returns, its frame has exactly the two columns [date] and [cpi_value],
    of one length; no date is missing and the dates are strictly ascending
    (hence distinct); no value is missing (NaN). *)
Theorem statcan_series_canonical raw_data out :
  _process_statcan_inflation raw_data = Returned out →
  ∃ dates values,
    out = [("date", DatetimeCol (Some <$> dates)); ("cpi_value", FloatCol values)] ∧
    length dates = length values ∧
    StronglySorted Z.lt dates ∧
    Forall (λ v, isna v = false) values.
Proof.
  intros (tbl & ds & vs & _ & _ & _ & _ & Hlen & Hstage)%process_statcan_stage.
  by apply (temporal_integrity_stage_canonical ds vs).
Qed.

(** X7.  The three steps [dropna], [sort_values], [drop_duplicates] are
    idempotent: given their own result, they return it unchanged, whatever
    order the sort gives to equal dates. *)
Theorem temporal_integrity_stage_idempotent ds vs out :
  length ds = length vs →
  temporal_integrity_stage [("date", DatetimeCol ds); ("cpi_value", FloatCol vs)]
    = Returned out →
  temporal_integrity_stage out = Returned out.
Proof.
  intros Hlen Hrun.
  destruct (temporal_integrity_stage_canonical ds vs out Hlen Hrun)
    as (dates & values & -> & Hlen' & Hasc & Hval).
  by apply temporal_integrity_stage_fixed.
Qed.

(** X8.  The two stages composed as [main] composes them: on a frame that
    [_process_statcan_inflation] returned, [calculate_inflation_rates]
    raises no error and its sort changes nothing; the result holds the
    dates and the values as they were, in their order, with the two rate
    columns computed on that order, and no other column. *)
Theorem statcan_series_rates raw_data out w df :
  _process_statcan_inflation raw_data = Returned out →
  objects w !! df = Some out →
  ∃ dates values w',
    out = [("date", DatetimeCol (Some <$> dates)); ("cpi_value", FloatCol values)] ∧
    calculate_inflation_rates df w = (Returned (length (objects w) + 3)%nat, w') ∧
    files w' = files w ∧
    objects w' !! (length (objects w) + 3)%nat
    = Some [("date", DatetimeCol (Some <$> dates)); ("cpi_value", FloatCol values);
            ("inflation_mom", FloatCol (rates 1 values));
            ("inflation_yoy", FloatCol (rates 12 values))].
Proof.
  intros (tbl & ds & vs & _ & _ & _ & _ & Hlen & Hstage)%process_statcan_stage Hdf.
  destruct (temporal_integrity_stage_canonical ds vs out Hlen Hstage)
    as (dates & values & -> & Hlen' & Hasc & Hval).
  pose proof (calculate_inflation_rates_run w df _ _ values Hdf NoDup_date_cpi_value
                (getitem_date _ _) (getitem_cpi_value _ _)) as Hrun.
  cbv zeta in Hrun. rewrite (nargsort_ascending dates Hasc) in Hrun.
  replace (length dates) with (length (Some <$> dates)) in Hrun by apply length_fmap.
  rewrite take_rows_seq in Hrun by (by rewrite length_fmap).
  rewrite length_fmap, Hlen', take_idx_seq, rates_result_series in Hrun.
  eexists dates, values, _. split_and!; [done|exact Hrun|done|].
  cbn [objects]. by rewrite lookup_app_plus.
Qed.

(** The mapping after its two filters: the frame it goes on with has the
    labels of the table, and its columns are those of the table, with the
    selected rows. *)
Lemma process_statcan_filtered raw_data tbl geo mask :
  read_csv raw_data = Returned tbl →
  getitem (standardize tbl) "geo" = Returned (ObjectCol geo) →
  selects (standardize tbl) geo mask →
  ∃ df3, names df3 = names (standardize tbl) ∧
    (∀ n, getitem df3 n = col_select mask <$> getitem (standardize tbl) n) ∧
    _process_statcan_inflation raw_data =
    (if negb (has_column "ref_date" df3)
     then Raised (ValueError "REF_DATE column not found in data")
     else ref_date ← getitem df3 "ref_date";
          let df := setitem df3 "date" (DatetimeCol (to_datetime_coerce ref_date)) in
          if negb (has_column "value" df)
          then Raised (ValueError "VALUE column not found in data")
          else date ← getitem df "date";
               value ← getitem df "value";
               temporal_integrity_stage
                 [("date", date); ("cpi_value", FloatCol (to_numeric_coerce value))]).
Proof.
  intros Hread Hgeo Hsel. unfold _process_statcan_inflation.
  rewrite Hread. cbn [mbind outcome_bind]. fold (standardize tbl).
  set (df := standardize tbl) in *.
  rewrite (has_column_getitem _ _ _ Hgeo). cbn [negb].
  rewrite Hgeo. cbn [mbind outcome_bind str_map]. fold (geography_mask geo).
  set (m1 := geography_mask geo) in *.
  set (df2 := select_rows m1 df).
  assert (names df2 = names df) as Hnames by apply names_rows.
  rewrite Hnames. unfold selects in Hsel.
  destruct (find _ (names df)) as [col|].
  - destruct Hsel as (cat & Hcat & ->).
    assert (getitem df2 col ≫= str_map str_strip
            = Returned (option_map str_strip <$> select m1 cat)) as ->.
    { unfold df2. by rewrite getitem_select_rows, Hcat. }
    cbn [mbind outcome_bind].
    eexists. split_and!; [| |reflexivity].
    + unfold select_rows. by rewrite names_rows.
    + intros n. unfold df2. rewrite !getitem_select_rows.
      destruct (getitem df n) as [c|]; [|done]. cbn [fmap outcome_fmap]. f_equal.
      rewrite eq_label_select. fold (category_mask cat). apply col_select_select.
  - subst mask. exists df2. split_and!; [done| |done].
    intros n. unfold df2. by rewrite getitem_select_rows.
Qed.

(** X6.  The columns [_process_statcan_inflation] requires, by their
    standardized names (what [str.strip] and then [str.lower] make of a
    header, white space and case outside ASCII included): it returns only
    for a table that has [geo],
    [ref_date] and [value]; without [geo] it raises [ValueError: GEO column
    not found in data]; with the geography (and category, if any) columns
    readable and without [ref_date] it raises the [REF_DATE] error, before
    it looks for [value]; with [ref_date] and without [value], the [VALUE]
    error. *)
Theorem statcan_required_columns raw_data tbl :
  read_csv raw_data = Returned tbl →
  let df := standardize tbl in
  (∀ out, _process_statcan_inflation raw_data = Returned out →
     "geo" ∈ names df ∧ "ref_date" ∈ names df ∧ "value" ∈ names df) ∧
  ("geo" ∉ names df →
     _process_statcan_inflation raw_data
     = Raised (ValueError "GEO column not found in data")) ∧
  (∀ geo mask,
     getitem df "geo" = Returned (ObjectCol geo) → selects df geo mask →
     "ref_date" ∉ names df →
     _process_statcan_inflation raw_data
     = Raised (ValueError "REF_DATE column not found in data")) ∧
  (∀ geo mask ref_date,
     getitem df "geo" = Returned (ObjectCol geo) → selects df geo mask →
     getitem df "ref_date" = Returned ref_date →
     "value" ∉ names df →
     _process_statcan_inflation raw_data
     = Raised (ValueError "VALUE column not found in data")).
Proof.
  intros Hread df. split_and!.
  - intros out (tbl' & ds & vs & Hread' & Hgeo & Href & Hval & _)%process_statcan_stage.
    rewrite Hread in Hread'. injection Hread' as <-. done.
  - intros Hgeo. unfold _process_statcan_inflation. rewrite Hread.
    cbn [mbind outcome_bind]. fold (standardize tbl). fold df.
    unfold has_column. by rewrite bool_decide_eq_false_2.
  - intros geo mask Hgeo Hsel Href.
    destruct (process_statcan_filtered _ _ _ _ Hread Hgeo Hsel) as (df3 & Hn3 & _ & ->).
    unfold has_column. rewrite Hn3. by rewrite bool_decide_eq_false_2.
  - intros geo mask ref_date Hgeo Hsel Href Hval.
    destruct (process_statcan_filtered _ _ _ _ Hread Hgeo Hsel) as (df3 & Hn3 & Hget & ->).
    assert (getitem df3 "ref_date" = Returned (col_select mask ref_date)) as Href3
      by (rewrite Hget; fold df; by rewrite Href).
    rewrite (has_column_getitem _ _ _ Href3), Href3. cbn [negb mbind outcome_bind].
    unfold has_column. rewrite bool_decide_eq_false_2; [done|].
    rewrite names_setitem. destruct (decide _).
    + by rewrite Hn3.
    + rewrite Hn3. intros [?|Heq%list_elem_of_singleton]%elem_of_app; done.
Qed.

End Series.

(** An instance of X5. *)
Lemma statcan_series_canonical_witness :
  ∃ dates values,
    csv_sample_series
    = [("date", DatetimeCol (Some <$> dates)); ("cpi_value", FloatCol values)] ∧
    length dates = length values ∧
    StronglySorted Z.lt dates ∧
    Forall (λ v, isna v = false) values.
Proof. apply (statcan_series_canonical csv_sample csv_sample_series). evaluate. Defined.

(** An instance of X6: a table without a value column. *)
Lemma statcan_required_columns_witness :
  _process_statcan_inflation csv_no_value
  = Raised (ValueError "VALUE column not found in data").
Proof.
  edestruct (statcan_required_columns csv_no_value) as (_ & _ & _ & Hvalue); [evaluate|].
  eapply Hvalue; [evaluate|unfold selects; evaluate|evaluate|decide_by_evaluation].
Defined.

(** An instance of X7: the result of the stage on
    [repeated_month_candidates], given to the stage. *)
Lemma temporal_integrity_stage_idempotent_witness :
  temporal_integrity_stage
    [("date", DatetimeCol [Some (month_start 2024 1); Some (month_start 2024 2)]);
     ("cpi_value", FloatCol [100%float; 102%float])]
  = Returned [("date", DatetimeCol [Some (month_start 2024 1); Some (month_start 2024 2)]);
              ("cpi_value", FloatCol [100%float; 102%float])].
Proof.
  apply (temporal_integrity_stage_idempotent
           [Some (month_start 2024 2); Some (month_start 2024 1);
            Some (month_start 2024 1); Some (month_start 2024 3); None]
           [102%float; 100%float; 101%float; nan; 103%float]);
    [reflexivity|evaluate].
Defined.

(** An instance of X8. *)
Lemma statcan_series_rates_witness :
  ∃ w',
    calculate_inflation_rates 0 (World [csv_sample_series] []) = (Returned 4, w') ∧
    files w' = [] ∧
    ∃ values,
      objects w' !! 4
      = Some [("date", DatetimeCol [Some (month_start 2024 1); Some (month_start 2024 2)]);
              ("cpi_value", FloatCol values);
              ("inflation_mom", FloatCol (rates 1 values));
              ("inflation_yoy", FloatCol (rates 12 values))].
Proof.
  edestruct (statcan_series_rates csv_sample csv_sample_series
               (World [csv_sample_series] []) 0)
    as (dates & values & w' & Hout & Hrun & Hfiles & Hresult); [evaluate|reflexivity|].
  exists w'. split; [exact Hrun|]. split; [exact Hfiles|]. exists values.
  injection Hout as Hdates _. rewrite Hdates. exact Hresult.
Defined.

(** ** The order of the rows *)

Lemma NoDup_fst_inj {A B} (l : list (A * B)) x y :
  NoDup l.*1 → x ∈ l → y ∈ l → x.1 = y.1 → x = y.
Proof.
  induction l as [|z l IH]; [by intros _ ?%elem_of_nil|].
  rewrite fmap_cons, NoDup_cons. intros [Hz Hnd] Hx Hy Heq.
  apply elem_of_cons in Hx as [->|Hx], Hy as [->|Hy]; [done| | |by apply IH].
  - exfalso. apply Hz. rewrite Heq. by apply list_elem_of_fmap_2.
  - exfalso. apply Hz. rewrite <-Heq. by apply list_elem_of_fmap_2.
Qed.

Section Order.
Context `{Pandas}.

(** X14.  When no date is repeated among the candidates that have both a
    date and a value, the result of [dropna], [sort_values],
    [drop_duplicates] does not depend on the order of the candidates: the
    same rows in another order give the same series. *)
Theorem temporal_integrity_stage_order_independent ds vs ds' vs' :
  length ds = length vs → length ds' = length vs' →
  zip ds vs ≡ₚ zip ds' vs' →
  NoDup (valid_candidates ds vs).*1 →
  temporal_integrity_stage [("date", DatetimeCol ds); ("cpi_value", FloatCol vs)]
  = temporal_integrity_stage [("date", DatetimeCol ds'); ("cpi_value", FloatCol vs')].
Proof.
  intros Hlen Hlen' Hperm Hnd.
  rewrite (temporal_integrity_stage_run ds vs Hlen),
          (temporal_integrity_stage_run ds' vs' Hlen'). cbv zeta.
  set (rows1 := valid_candidates ds vs) in *.
  set (rows1' := valid_candidates ds' vs').
  assert (rows1 ≡ₚ rows1') as Hperm1 by (unfold rows1, rows1', valid_candidates; by rewrite Hperm).
  destruct (sorted_candidates rows1) as [Hp Hs], (sorted_candidates rows1') as [Hp' Hs'].
  cbv zeta in Hp, Hs, Hp', Hs'.
  set (rows2 := take_idx _ rows1) in *. set (rows2' := take_idx _ rows1') in *.
  assert (NoDup rows2.*1) as Hnd2 by (by rewrite Hp).
  assert (NoDup rows2'.*1) as Hnd2' by (by rewrite Hp', <-Hperm1).
  rewrite !keep_first_NoDup by done.
  assert (rows2 = rows2') as ->; [|done].
  apply StronglySorted_fmap_inv in Hs, Hs'.
  eapply StronglySorted_unique_strong; [|exact Hs|exact Hs'|by rewrite Hp, Hp'].
  intros x y Hx Hy Hxy Hyx. simpl in Hxy, Hyx.
  apply (NoDup_fst_inj rows2); [done|done| |lia].
  by rewrite Hp, Hperm1, <-Hp'.
Qed.

End Order.

(** An instance of X14: February before January, and January before
    February. *)
Lemma temporal_integrity_stage_order_independent_witness :
  temporal_integrity_stage out_of_order
  = temporal_integrity_stage
      [("date", DatetimeCol [Some (month_start 2024 1); Some (month_start 2024 2)]);
       ("cpi_value", FloatCol [100%float; 102%float])].
Proof.
  apply (temporal_integrity_stage_order_independent
           [Some (month_start 2024 2); Some (month_start 2024 1)] [102%float; 100%float]
           [Some (month_start 2024 1); Some (month_start 2024 2)] [100%float; 102%float]).
  - reflexivity.
  - reflexivity.
  - apply perm_swap.
  - decide_by_evaluation.
Defined.

(** ** What [calculate_inflation_rates] leaves as it was *)

Section Keeps.
Context `{Pandas}.
Variable w0 : world.

Lemma kept_length w : kept w0 w → (length (objects w0) ≤ length (objects w))%nat.
Proof.
  intros [_ Ht]. apply (f_equal length) in Ht. rewrite length_take in Ht. lia.
Qed.

Lemma keeps_bind {A B} (m : M A) (k : A → M B) Q R :
  keeps w0 m Q → (∀ a, Q a → keeps w0 (k a) R) → keeps w0 (bind m k) R.
Proof.
  intros Hm Hk w Hw. destruct (Hm w Hw) as [Hw' HQ]. unfold bind.
  destruct (m w) as [[a|e] w'] eqn:E; [|done].
  apply (Hk a); [by apply HQ|done].
Qed.

Lemma keeps_lift {A} (x : outcome A) : keeps w0 (lift x) (λ _, True).
Proof. by intros w Hw. Qed.

Lemma keeps_read r : keeps w0 (read r) (λ _, True).
Proof. intros w Hw. unfold read. by destruct (objects w !! r). Qed.

(** A new object is none of the objects of [w0]. *)
Lemma keeps_new f : keeps w0 (new f) (λ r, (length (objects w0) ≤ r)%nat).
Proof.
  intros w Hw. pose proof (kept_length w Hw) as Hlen. destruct Hw as [Hf Ht].
  unfold new. cbn [fst snd]. split.
  - split; [done|]. cbn [objects]. by rewrite take_app_le.
  - by intros a [= <-].
Qed.

(** Changing an object that is not of [w0] keeps those of [w0]. *)
Lemma keeps_update r f : (length (objects w0) ≤ r)%nat → keeps w0 (update r f) (λ _, True).
Proof.
  intros Hr w [Hf Ht]. unfold update. cbn [fst snd]. split; [|done].
  split; [done|]. cbn [objects]. by rewrite take_insert_ge.
Qed.

Lemma keeps_col r label : keeps w0 (col r label) (λ _, True).
Proof.
  unfold col. eapply keeps_bind; [apply keeps_read|]. intros f _. apply keeps_lift.
Qed.

Lemma keeps_assign r label c :
  (length (objects w0) ≤ r)%nat → keeps w0 (assign r label c) (λ _, True).
Proof.
  intros Hr. unfold assign. eapply keeps_bind; [apply keeps_read|].
  intros f _. by apply keeps_update.
Qed.

Lemma keeps_copy r : keeps w0 (copy r) (λ r', (length (objects w0) ≤ r')%nat).
Proof.
  unfold copy. eapply keeps_bind; [apply keeps_read|]. intros f _. apply keeps_new.
Qed.

Lemma keeps_sort_values_of label r :
  keeps w0 (sort_values_of label r) (λ r', (length (objects w0) ≤ r')%nat).
Proof.
  unfold sort_values_of. eapply keeps_bind; [apply keeps_read|]. intros f _.
  eapply keeps_bind; [apply keeps_lift|]. intros f' _. apply keeps_new.
Qed.

Lemma keeps_drop_of labels r :
  keeps w0 (drop_of labels r) (λ r', (length (objects w0) ≤ r')%nat).
Proof.
  unfold drop_of. eapply keeps_bind; [apply keeps_read|]. intros f _.
  eapply keeps_bind; [apply keeps_lift|]. intros f' _. apply keeps_new.
Qed.

Lemma keeps_rate_of_change r label : keeps w0 (rate_of_change r label) (λ _, True).
Proof.
  unfold rate_of_change.
  repeat (eapply keeps_bind; [first [apply keeps_col|apply keeps_lift]|]; intros ? _).
  apply keeps_lift.
Qed.

Lemma keeps_calculate_inflation_rates df :
  keeps w0 (calculate_inflation_rates df) (λ r, (length (objects w0) ≤ r)%nat).
Proof.
  unfold calculate_inflation_rates.
  eapply keeps_bind; [apply keeps_copy|]. intros df1 Hdf1.
  eapply keeps_bind.
  { eapply keeps_bind; [apply keeps_sort_values_of|]. intros s _.
    apply (keeps_copy s). }
  intros df2 Hdf2.
  eapply keeps_bind; [apply keeps_col|]. intros cpi _.
  eapply keeps_bind; [by apply keeps_assign|]. intros _ _.
  eapply keeps_bind; [apply keeps_rate_of_change|]. intros mom _.
  eapply keeps_bind; [by apply keeps_assign|]. intros _ _.
  eapply keeps_bind; [apply keeps_col|]. intros cpi' _.
  eapply keeps_bind; [by apply keeps_assign|]. intros _ _.
  eapply keeps_bind; [apply keeps_rate_of_change|]. intros yoy _.
  eapply keeps_bind; [by apply keeps_assign|]. intros _ _.
  apply keeps_drop_of.
Qed.

End Keeps.

Lemma kept_refl w : kept w w.
Proof. split; [done|]. by rewrite firstn_all. Qed.

Lemma kept_extends w0 w : kept w0 w → extends w0 w.
Proof.
  intros [Hf Ht]. split; [done|]. exists (drop (length (objects w0)) (objects w)).
  rewrite <-Ht at 1. by rewrite take_drop.
Qed.

Section NeverMutates.
Context `{Pandas}.

(** X9.  On any argument and in any state, whether it returns or raises
    (a column that is missing, values that are not numbers, an argument
    that is no frame), [calculate_inflation_rates] writes no file and
    changes no object that existed before the call: its assignments all go
    to objects it created itself. *)
Theorem calculate_inflation_rates_never_mutates df w :
  extends w (calculate_inflation_rates df w).2.
Proof.
  apply kept_extends. apply (keeps_calculate_inflation_rates w df w), kept_refl.
Qed.

End NeverMutates.

(** ** The rate calculator on its own result, and on a frame that lacks a
    column *)

Lemma take_rows_seq4 (dates : list (option Z)) (a b c : list float) :
  length dates = length a → length dates = length b → length dates = length c →
  take_rows (seq 0 (length dates))
    [("date", DatetimeCol dates); ("cpi_value", FloatCol a);
     ("inflation_mom", FloatCol b); ("inflation_yoy", FloatCol c)]
  = [("date", DatetimeCol dates); ("cpi_value", FloatCol a);
     ("inflation_mom", FloatCol b); ("inflation_yoy", FloatCol c)].
Proof.
  intros Ha Hb Hc. unfold take_rows. cbn [fmap list_fmap prod_map col_take fst snd id].
  rewrite take_idx_seq, Ha, take_idx_seq, <-Ha, Hb, take_idx_seq, <-Hb, Hc, take_idx_seq. done.
Qed.

Section Again.
Context `{Pandas}.

(** X15.  Given its own result for a series with strictly ascending dates,
    [calculate_inflation_rates] returns a frame equal to it: the two rate
    columns are assigned in place with the same values, and the two
    intermediate columns are added and dropped again; no column is
    duplicated and none is lost. *)
Theorem calculate_inflation_rates_again dates values w df :
  length dates = length values →
  StronglySorted Z.lt dates →
  let result := [("date", DatetimeCol (Some <$> dates)); ("cpi_value", FloatCol values);
                 ("inflation_mom", FloatCol (rates 1 values));
                 ("inflation_yoy", FloatCol (rates 12 values))] in
  objects w !! df = Some result →
  ∃ w', calculate_inflation_rates df w = (Returned (length (objects w) + 3)%nat, w') ∧
        objects w' !! (length (objects w) + 3)%nat = Some result.
Proof.
  intros Hlen Hasc result Hdf.
  assert (NoDup (names result)) as Hnd by (repeat constructor; labels).
  pose proof (calculate_inflation_rates_run w df result (DatetimeCol (Some <$> dates)) values
                Hdf Hnd eq_refl eq_refl) as Hrun.
  cbv zeta in Hrun. rewrite (nargsort_ascending dates Hasc) in Hrun.
  replace (length dates) with (length (Some <$> dates)) in Hrun by apply length_fmap.
  unfold result in Hrun at 2 3 4.
  rewrite take_rows_seq4 in Hrun by (by rewrite length_fmap, ?length_rates).
  rewrite length_fmap, Hlen, take_idx_seq in Hrun.
  eexists. split; [exact Hrun|]. cbn [objects]. by rewrite lookup_app_plus.
Qed.

(** X16.  A frame that lacks a column the calculator reads: without a
    [date] column the call raises [KeyError: 'date'] (from [sort_values]);
    with a [date] column and without a [cpi_value] column it raises
    [KeyError: 'cpi_value']. *)
Theorem calculate_inflation_rates_missing_column frame w df :
  objects w !! df = Some frame →
  ("date" ∉ names frame →
   ∃ w', calculate_inflation_rates df w = (Raised (KeyError "date"), w')) ∧
  (∀ dc, getitem frame "date" = Returned dc → "cpi_value" ∉ names frame →
   ∃ w', calculate_inflation_rates df w = (Raised (KeyError "cpi_value"), w')).
Proof.
  intros Hdf. split.
  - intros Hdate. unfold calculate_inflation_rates.
    rewrite (bind_Returned _ _ _ _ _ (copy_run _ _ _ Hdf)).
    eexists. apply bind_Raised. apply bind_Raised.
    unfold sort_values_of. erewrite bind_Returned; cycle 1.
    { apply (read_run _ _ frame). cbn [objects]. by rewrite list_lookup_middle. }
    unfold bind, lift, sort_values. by rewrite getitem_KeyError.
  - intros dc Hdate Hcpi. unfold calculate_inflation_rates.
    rewrite (bind_Returned _ _ _ _ _ (copy_run _ _ _ Hdf)).
    erewrite bind_Returned; cycle 1.
    { erewrite bind_Returned; cycle 1.
      { apply (sort_values_of_run _ _ frame "date" dc); [|done].
        cbn [objects]. by apply list_lookup_middle. }
      apply (copy_run _ _ (take_rows (nargsort dc) frame)).
      cbn [objects]. by apply list_lookup_middle. }
    eexists. apply bind_Raised.
    eapply (col_run_Raised _ _ (take_rows (nargsort dc) frame)).
    + cbn [objects]. by apply list_lookup_middle.
    + apply getitem_KeyError. unfold take_rows. by rewrite names_rows.
Qed.

End Again.

(** An instance of X15: the rates of [csv_sample_series], computed again. *)
Lemma calculate_inflation_rates_again_witness :
  ∃ w',
    calculate_inflation_rates 0
      (World [csv_sample_series ++
              [("inflation_mom", FloatCol (rates 1 [158.5%float; 159.25%float]));
               ("inflation_yoy", FloatCol (rates 12 [158.5%float; 159.25%float]))]] [])
    = (Returned 4, w') ∧
    objects w' !! 4
    = Some (csv_sample_series ++
            [("inflation_mom", FloatCol (rates 1 [158.5%float; 159.25%float]));
             ("inflation_yoy", FloatCol (rates 12 [158.5%float; 159.25%float]))]).
Proof.
  edestruct (calculate_inflation_rates_again
               [month_start 2024 1; month_start 2024 2] [158.5%float; 159.25%float]
               (World [csv_sample_series ++
                 [("inflation_mom", FloatCol (rates 1 [158.5%float; 159.25%float]));
                  ("inflation_yoy", FloatCol (rates 12 [158.5%float; 159.25%float]))]] []) 0)
    as (w' & Hrun & Hresult); [reflexivity|decide_by_evaluation|reflexivity|].
  exists w'. split; [exact Hrun|exact Hresult].
Defined.

(** An instance of X16: a frame with dates and no value. *)
Lemma calculate_inflation_rates_missing_column_witness :
  ∃ w', calculate_inflation_rates 0
          (World [[("date", DatetimeCol [Some (month_start 2024 1)])]] [])
        = (Raised (KeyError "cpi_value"), w').
Proof.
  edestruct (calculate_inflation_rates_missing_column
               [("date", DatetimeCol [Some (month_start 2024 1)])]
               (World [[("date", DatetimeCol [Some (month_start 2024 1)])]] []) 0)
    as [_ Hcpi]; [reflexivity|].
  apply (Hcpi (DatetimeCol [Some (month_start 2024 1)])); [reflexivity|].
  decide_by_evaluation.
Defined.

(** ** No call of [main] writes a file *)

Section MainFacts.
Context `{Pandas}.

Lemma dt_field_run w r (f : DataFrame) ds field :
  objects w !! r = Some f → getitem f "date" = Returned (DatetimeCol ds) →
  (c ⇐ col r "date" ;; lift (dt_field field c)) w =
  (Returned (FloatCol ((λ x, from_option (λ t, float_of_Z (field t)) nan x) <$> ds)), w).
Proof.
  intros Hr Hd. by rewrite (bind_Returned _ _ _ _ _ (col_run _ _ _ _ _ Hr Hd)).
Qed.

(** What the [try] block does after its test of [df.empty], for a frame
    with the two columns of a series. *)
Lemma main_rates_KeyError env source ds vs w df :
  objects w !! df = Some [("date", DatetimeCol ds); ("cpi_value", FloatCol vs)] →
  ∃ w',
    (df ⇐ calculate_inflation_rates df ;;
     yr ⇐ (c ⇐ col df "date" ;; lift (dt_field year_of c)) ;;
     mnth ⇐ (c ⇐ col df "date" ;; lift (dt_field month_of c)) ;;
     value ⇐ col df "cpi_value" ;;
     yoy ⇐ col df "inflation_yoy" ;;
     mom ⇐ col df "inflation_mom" ;;
     trend ⇐ col df "trend_3m" ;;
     output_df ⇐ new [("Update Date", ObjectCol (replicate (col_len yr) (Some (today env))));
                      ("Yr", yr); ("Mnth", mnth); ("Inflation Value", value);
                      ("YoY Value", yoy); ("MoM Value", mom); ("3 Month Trend", trend)] ;;
     save_data (processed_dir env) output_df
       ("inflation_data_" +:+ source +:+ "_" +:+ timestamp env) "parquet" ;;;
     f ⇐ read output_df ;;
     write_file (data_outputs_dir env +:+ "/inflation_data.csv") f) w
    = (Raised (KeyError "trend_3m"), w') ∧ files w' = files w.
Proof.
  intros Hdf.
  set (frame := [("date", DatetimeCol ds); ("cpi_value", FloatCol vs)]) in *.
  pose proof (calculate_inflation_rates_run w _ frame _ vs Hdf NoDup_date_cpi_value
                (getitem_date _ _) (getitem_cpi_value _ _)) as Hrun.
  cbv zeta in Hrun.
  set (idx := nargsort (DatetimeCol ds)) in *.
  set (sorted := take_rows idx frame) in *. set (v := take_idx idx vs) in *.
  set (result := rates_result sorted v) in *.
  set (w2 := {| objects := objects w ++ [frame; sorted; rates_work sorted v; result];
                files := files w |}) in *.
  assert (objects w2 !! (length (objects w) + 3) = Some result) as Hout
    by (unfold w2; cbn [objects]; by rewrite lookup_app_plus).
  assert (NoDup (names sorted)) as Hnds
    by (unfold sorted, take_rows; rewrite names_rows; apply NoDup_date_cpi_value).
  assert (getitem result "date" = Returned (DatetimeCol (take_idx idx ds))) as Hdate.
  { unfold result. by rewrite getitem_rates_result by labels. }
  assert (getitem result "cpi_value" = Returned (FloatCol v)) as Hvalue.
  { unfold result. by rewrite getitem_rates_result by labels. }
  assert (getitem result "trend_3m" = Raised (KeyError "trend_3m")) as Htrend.
  { unfold result. by rewrite getitem_rates_result by labels. }
  rewrite (bind_Returned _ _ _ _ _ Hrun).
  rewrite (bind_Returned _ _ _ _ _ (dt_field_run _ _ _ _ year_of Hout Hdate)).
  rewrite (bind_Returned _ _ _ _ _ (dt_field_run _ _ _ _ month_of Hout Hdate)).
  rewrite (bind_Returned _ _ _ _ _ (col_run _ _ _ _ _ Hout Hvalue)).
  rewrite (bind_Returned _ _ _ _ _ (col_run _ _ _ _ _ Hout
             (getitem_rates_result_yoy sorted v Hnds))).
  rewrite (bind_Returned _ _ _ _ _ (col_run _ _ _ _ _ Hout
             (getitem_rates_result_mom sorted v Hnds))).
  rewrite (bind_Raised _ _ _ _ _ (col_run_Raised _ _ _ _ _ Hout Htrend)).
  by exists w2.
Qed.

(** The [try] block, once the constructors and the look-up of the product
    have returned and the table is fetched and processed. *)
Lemma main_try_statcan_process env pid raw_data frame w :
  DataFetcher_init env = Returned () →
  DataProcessor_init env = Returned () →
  statcan_product_id env = Returned pid →
  fetch_statcan_data env pid "en" = Returned raw_data →
  _process_statcan_inflation raw_data = Returned frame →
  main_try env "statcan" w =
  (if empty frame then ret () else
   df ⇐ calculate_inflation_rates (length (objects w)) ;;
   yr ⇐ (c ⇐ col df "date" ;; lift (dt_field year_of c)) ;;
   mnth ⇐ (c ⇐ col df "date" ;; lift (dt_field month_of c)) ;;
   value ⇐ col df "cpi_value" ;;
   yoy ⇐ col df "inflation_yoy" ;;
   mom ⇐ col df "inflation_mom" ;;
   trend ⇐ col df "trend_3m" ;;
   output_df ⇐ new [("Update Date", ObjectCol (replicate (col_len yr) (Some (today env))));
                    ("Yr", yr); ("Mnth", mnth); ("Inflation Value", value);
                    ("YoY Value", yoy); ("MoM Value", mom); ("3 Month Trend", trend)] ;;
   save_data (processed_dir env) output_df
     ("inflation_data_" +:+ "statcan" +:+ "_" +:+ timestamp env) "parquet" ;;;
   f ⇐ read output_df ;;
   write_file (data_outputs_dir env +:+ "/inflation_data.csv") f)
    {| objects := objects w ++ [frame]; files := files w |}.
Proof.
  intros Hfetcher Hprocessor Hpid Hfetch Hproc. unfold main_try.
  rewrite decide_True by done.
  erewrite bind_Returned; cycle 1.
  { unfold lift. rewrite Hfetcher. reflexivity. }
  erewrite bind_Returned; cycle 1.
  { unfold lift. rewrite Hprocessor. reflexivity. }
  erewrite bind_Returned; cycle 1.
  { unfold bind, lift, ret. rewrite Hpid, Hfetch. reflexivity. }
  cbv beta.
  erewrite bind_Returned; cycle 1.
  { unfold bind, lift, new. rewrite process_inflation_data_statcan, Hproc. reflexivity. }
  cbv beta.
  erewrite bind_Returned; cycle 1.
  { unfold bind, read, ret. cbn [objects files]. rewrite list_lookup_middle by done.
    reflexivity. }
  cbv beta. by destruct (empty frame).
Qed.

(** X10.  Every call of [main] raises [NameError] at its first statement,
    whatever the source, the configuration and the state: nothing is
    fetched, no object is made and no file is written.  The [try] block
    that this keeps from running would write no file either: it ends as
    [main_try_outcome] says, returning only for the source [statcan] with
    a text whose series is empty, and raising in every other case (what a
    constructor, a configuration look-up, the fetcher or the processor
    raises; [KeyError: 'trend_3m'] for a series with rows;
    [AttributeError] for the two sources whose fetcher method does not
    exist; [ValueError] for an unknown source). *)
Theorem main_writes_no_file env source w :
  main env source w = (Raised (NameError "name 'logger' is not defined"), w) ∧
  (main_try env source w).1 = main_try_outcome env source ∧
  files (main_try env source w).2 = files w.
Proof.
  split; [reflexivity|]. unfold main_try_outcome.
  destruct (DataFetcher_init env) as [[]|e] eqn:Hfetcher; cycle 1.
  { unfold main_try, bind, lift. by rewrite Hfetcher. }
  destruct (DataProcessor_init env) as [[]|e] eqn:Hprocessor; cycle 1.
  { unfold main_try, bind, lift. by rewrite Hfetcher, Hprocessor. }
  cbn [mbind outcome_bind].
  destruct (decide (source = "statcan")) as [->|Hstatcan].
  - destruct (statcan_product_id env) as [pid|e] eqn:Hpid; cycle 1.
    { unfold main_try. rewrite decide_True by done. unfold bind, lift.
      by rewrite Hfetcher, Hprocessor, Hpid. }
    cbn [mbind outcome_bind].
    destruct (fetch_statcan_data env pid "en") as [raw_data|e] eqn:Hfetch; cycle 1.
    { unfold main_try. rewrite decide_True by done. unfold bind, lift.
      by rewrite Hfetcher, Hprocessor, Hpid, Hfetch. }
    cbn [mbind outcome_bind].
    destruct (_process_statcan_inflation raw_data) as [frame|e] eqn:Hproc; cycle 1.
    { unfold main_try. rewrite decide_True by done. unfold bind, lift, ret.
      by rewrite Hfetcher, Hprocessor, Hpid, Hfetch, process_inflation_data_statcan, Hproc. }
    cbn [mbind outcome_bind].
    rewrite (main_try_statcan_process _ _ _ _ _ Hfetcher Hprocessor Hpid Hfetch Hproc).
    pose proof Hproc as (tbl & ds & vs & _ & _ & _ & _ & Hlen & Hstage)%process_statcan_stage.
    destruct (temporal_integrity_stage_canonical ds vs frame Hlen Hstage)
      as (dates & values & -> & Hlen' & _ & _).
    destruct dates as [|d dates].
    + by destruct values.
    + assert (empty [("date", DatetimeCol (Some <$> d :: dates)); ("cpi_value", FloatCol values)]
              = false) as -> by done.
      set (w1 := {| objects := objects w ++ [_]; files := files w |}).
      edestruct (main_rates_KeyError env "statcan" (Some <$> d :: dates) values w1
                   (length (objects w))) as (w' & -> & Hfiles).
      { unfold w1. cbn [objects]. by apply list_lookup_middle. }
      done.
  - unfold main_try. rewrite decide_False by done.
    destruct (decide (source = "bank_of_canada")) as [->|Hboc].
    { unfold bind, lift, raise. rewrite Hfetcher, Hprocessor.
      by destruct (bank_of_canada_series env). }
    destruct (decide (source = "fred")) as [->|Hfred].
    { unfold bind, lift, raise. rewrite Hfetcher, Hprocessor.
      by destruct (fred_series env). }
    unfold bind, lift, raise. by rewrite Hfetcher, Hprocessor.
Qed.

End MainFacts.

(** ** A value that has not changed *)

Lemma rate_same x :
  PrimFloat.is_nan x = false → PrimFloat.is_infinity x = false →
  PrimFloat.is_zero x = false →
  PrimFloat.is_zero (rate x x) = true.
Proof.
  intros Hn Hi Hz. apply is_zero_spec. rewrite rate_spec.
  destruct (Prim2SF x) as [s|s| |s m e] eqn:Ex.
  - rewrite (proj2 (is_zero_spec x)) in Hz; [done|eauto].
  - rewrite (proj2 (is_infinity_spec x)) in Hi; [done|eauto].
  - rewrite (proj2 (is_nan_spec x)) in Hn; done.
  - exists s. unfold SF64sub, SFsub. rewrite Z.sub_diag.
    cbn [binary_normalize]. unfold SF64div, SF64mul. simpl. by destruct s.
Qed.

(** X11.  Where the value of a row equals the value it is compared with
    (the row before for [inflation_mom], twelve rows before for
    [inflation_yoy]) and that value is finite and not zero, the rate is
    exactly zero: the binary64 formula [(x - y) / y * 100] leaves no
    rounding residue. *)
Theorem rates_unchanged_value n vs i x :
  vs !! (n + i)%nat = Some x → vs !! i = Some x →
  PrimFloat.is_nan x = false → PrimFloat.is_infinity x = false →
  PrimFloat.is_zero x = false →
  ∃ r, rates n vs !! (n + i)%nat = Some r ∧ PrimFloat.is_zero r = true.
Proof.
  intros Hx Hy Hn Hi Hz. exists (rate x x). split; [by apply rates_lookup_ge|].
  by apply rate_same.
Qed.

(** An instance of X11. *)
Lemma rates_unchanged_value_witness :
  ∃ r, rates 1 [158.5%float; 158.5%float] !! 1%nat = Some r ∧ PrimFloat.is_zero r = true.
Proof.
  apply (rates_unchanged_value 1 [158.5%float; 158.5%float] 0 158.5%float);
    reflexivity.
Defined.

(** ** The observation-stream mappings *)

Section Streams.
Context `{Pandas}.

(** X12.  For the sources [bank_of_canada] and [fred], a payload with no
    [observations] field, or with an empty one, does not give an empty
    frame: [pd.DataFrame([])] has no column, and the look-up of [date]
    raises [KeyError: 'date']. *)
Theorem no_observations_KeyError raw_data source :
  source = "bank_of_canada" ∨ source = "fred" →
  default [] (raw_data !! "observations") = [] →
  process_inflation_data (Json raw_data) source = Raised (KeyError "date").
Proof.
  intros [-> | ->] Hobs; unfold process_inflation_data; simpl;
    [unfold _process_boc_inflation|unfold _process_fred_inflation]; by rewrite Hobs.
Qed.

(** What [_process_fred_inflation] returns. *)
Lemma process_fred_series raw_data out :
  _process_fred_inflation raw_data = Returned out →
  ∃ dates values,
    out = [("date", DatetimeCol dates); ("cpi_value", FloatCol values)] ∧
    length dates = length (default [] (raw_data !! "observations")) ∧
    length values = length (default [] (raw_data !! "observations")).
Proof.
  unfold _process_fred_inflation.
  destruct (default [] (raw_data !! "observations")) as [|obs observations]; [done|].
  set (data := (λ obs : gmap string string, (obs !! "date", obs !! "value"))
                 <$> obs :: observations).
  assert (DataFrame_of_records data
          = [("date", ObjectCol data.*1); ("cpi_value", ObjectCol data.*2)]) as -> by done.
  rewrite getitem_date. cbn [mbind outcome_bind].
  destruct (to_datetime_raise (ObjectCol data.*1)) as [dates|e] eqn:Hdates; [|done].
  cbn [mbind outcome_bind].
  apply to_datetime_raise_length in Hdates. simpl in Hdates.
  unfold data in Hdates. rewrite !length_fmap in Hdates.
  assert (setitem [("date", ObjectCol data.*1); ("cpi_value", ObjectCol data.*2)]
            "date" (DatetimeCol dates)
          = [("date", DatetimeCol dates); ("cpi_value", ObjectCol data.*2)]) as -> by done.
  rewrite getitem_cpi_value. cbn [mbind outcome_bind].
  intros [= <-]. eexists _, _. split_and!; [reflexivity|done|].
  rewrite to_numeric_coerce_length. simpl. unfold data. by rewrite !length_fmap.
Qed.

(** X13.  Whenever [_process_fred_inflation] returns, its frame has a
    datetime [date] column and a float [cpi_value] column of one length,
    and [calculate_inflation_rates] accepts it: it raises no error, writes
    no file, and returns the two rate columns computed on the values in
    date order, the values that were the sentinel (NaN) included. *)
Theorem fred_series_rates raw_data out w df :
  _process_fred_inflation raw_data = Returned out →
  objects w !! df = Some out →
  ∃ dates values result w',
    out = [("date", DatetimeCol dates); ("cpi_value", FloatCol values)] ∧
    length values = length dates ∧
    calculate_inflation_rates df w = (Returned (length (objects w) + 3)%nat, w') ∧
    files w' = files w ∧
    objects w' !! (length (objects w) + 3)%nat = Some result ∧
    getitem result "inflation_mom"
    = Returned (FloatCol (rates 1 (take_idx (nargsort (DatetimeCol dates)) values))) ∧
    getitem result "inflation_yoy"
    = Returned (FloatCol (rates 12 (take_idx (nargsort (DatetimeCol dates)) values))).
Proof.
  intros (dates & values & -> & Hd & Hv)%process_fred_series Hdf.
  pose proof (calculate_inflation_rates_run w df _ _ values Hdf NoDup_date_cpi_value
                (getitem_date _ _) (getitem_cpi_value _ _)) as Hrun.
  cbv zeta in Hrun.
  eexists dates, values, _, _. split_and!; [done|lia|exact Hrun|done| | |].
  - cbn [objects]. by rewrite lookup_app_plus.
  - apply getitem_rates_result_mom. unfold take_rows. rewrite names_rows.
    apply NoDup_date_cpi_value.
  - apply getitem_rates_result_yoy. unfold take_rows. rewrite names_rows.
    apply NoDup_date_cpi_value.
Qed.

End Streams.

(** An instance of X12: a payload with no field at all. *)
Lemma no_observations_KeyError_witness :
  process_inflation_data (Json ∅) "fred" = Raised (KeyError "date").
Proof. apply (no_observations_KeyError ∅ "fred"); [by right|reflexivity]. Defined.

(** An instance of X13. *)
Lemma fred_series_rates_witness :
  ∃ w', calculate_inflation_rates 0 (World [fred_payload_series] []) = (Returned 4, w') ∧
        files w' = [].
Proof.
  edestruct (fred_series_rates fred_payload fred_payload_series
               (World [fred_payload_series] []) 0)
    as (dates & values & result & w' & _ & _ & Hrun & Hfiles & _);
    [vm_compute; reflexivity|reflexivity|].
  exists w'. split; [exact Hrun|exact Hfiles].
Defined.
